(** * SmartReturns prediction engine

    A shallow embedding of [src/ml/prediction_engine.py]: the feature
    encoders, the valuation heuristics of [DispositionPredictor], the
    forecaster's result assembly, the anomaly detector and the risk scorer.

    Numbers are the binary64 floats of the Python runtime (Rocq's primitive
    [float] with its IEEE 754 operations), dictionaries are [gmap]s keyed by
    strings, and an exception is a value of [exn] carried by [result]. *)

From Stdlib Require Import ZArith String Ascii List Bool Lia Reals Lra Psatz Floats DecimalString.
From Stdlib Require Sorted OrderedTypeEx.
From stdpp Require Import gmap strings.
Import ListNotations.

#[local] Set Warnings "-inexact-float".
#[local] Open Scope string_scope.

(** ** The Python runtime the program relies on *)

Module Py.

(** An exception: the name of its class and its message. *)
Record exn := mk_exn { exn_class : string; exn_msg : string }.

(** A call either returns a value or raises. *)
Inductive result (A : Type) : Type :=
| Ok (a : A)
| Raise (e : exn).
Arguments Ok {A} a.
Arguments Raise {A} e.

Definition ValueError (msg : string) : exn := mk_exn "ValueError" msg.

(** [str.lower()] on the ASCII range: [A]..[Z] go to [a]..[z], every other
    byte is kept.  A string is its UTF-8 byte sequence. *)
Definition ascii_lower (c : ascii) : ascii :=
  let n := N_of_ascii c in
  if ((65 <=? n) && (n <=? 90))%N then ascii_of_N (n + 32) else c.

Fixpoint lower (s : string) : string :=
  match s with
  | EmptyString => EmptyString
  | String c s' => String (ascii_lower c) (lower s')
  end.

(** [d[k]] on a dictionary of floats is stdpp's total lookup. *)
#[global] Instance float_inhabited : Inhabited float := populate 0%float.

(** [d.get(k, dflt)]. *)
Definition dict_get {V : Type} (d : gmap string V) (k : string) (dflt : V) : V :=
  default dflt (d !! k).

(** An [int] used where a float is expected (exact below 2^53). *)
Definition float_of_int (z : Z) : float :=
  match z with
  | Z0 => 0%float
  | Zpos _ => of_uint63 (Uint63.of_Z z)
  | Zneg p => (- of_uint63 (Uint63.of_Z (Zpos p)))%float
  end.

(** [float(b)] for a bool. *)
Definition float_of_bool (b : bool) : float := if b then 1%float else 0%float.

(** The two-argument [min(a, b)] and [max(a, b)]: the first argument is kept
    unless the second compares strictly below (above) it, so a NaN first
    argument is returned as it is. *)
Definition py_min (a b : float) : float := if (b <? a)%float then b else a.
Definition py_max (a b : float) : float := if (a <? b)%float then b else a.

(** The nearest integer to [n / d], ties to the even one ([0 <= n], [0 < d]). *)
Definition div_half_even (n d : Z) : Z :=
  let q := (n / d)%Z in
  match (2 * (n mod d) ?= d)%Z with
  | Lt => q
  | Gt => (q + 1)%Z
  | Eq => if Z.even q then q else (q + 1)%Z
  end.

(** [m * 2^e * 10^nd] rounded to an integer, ties to even: the digits that
    correctly rounded decimal conversion keeps of the float [m * 2^e]. *)
Definition decimal_digits (m : positive) (e nd : Z) : Z :=
  if (0 <=? e)%Z then (Zpos m * 2 ^ e * 10 ^ nd)%Z
  else div_half_even (Zpos m * 10 ^ nd) (2 ^ (- e)).

(** [round(x, nd)] for [0 <= nd]: [x] is converted to the decimal with [nd]
    fractional digits nearest to its exact value (ties to even), which is read
    back as the nearest float; the sign of [x] is kept, and infinities and NaN
    round to themselves. *)
Definition py_round (x : float) (nd : Z) : float :=
  match Prim2SF x with
  | S754_finite s m e =>
      match decimal_digits m e nd with
      | Zpos k =>
          SF2Prim (SFdiv prec emax (S754_finite s k 0)
                     (S754_finite false (Z.to_pos (10 ^ nd)) 0))
      | _ => if s then neg_zero else zero
      end
  | _ => x
  end.

(** [round(x)]: the nearest integer, ties to even.  Python raises on an
    infinity or a NaN; the program only rounds finite table products, and
    the model returns [0] there. *)
Definition py_round_int (x : float) : Z :=
  match Prim2SF x with
  | S754_finite s m e =>
      let k := decimal_digits m e 0 in if s then (- k)%Z else k
  | _ => 0%Z
  end.

Definition string_of_nat_Z (k : Z) : string :=
  NilZero.string_of_uint (N.to_uint (Z.to_N k)).

(** [str(n)] for an [int]. *)
Definition str_of_int (z : Z) : string :=
  match z with
  | Zneg p => "-" +:+ string_of_nat_Z (Zpos p)
  | _ => string_of_nat_Z z
  end.

(** The digits [k] of a decimal with [nd] fractional digits, as text. *)
Definition fixed_digits (k nd : Z) : string :=
  let p := (10 ^ nd)%Z in
  if (nd <=? 0)%Z then string_of_nat_Z k
  else string_of_nat_Z (k / p) +:+ "." +:+
       match string_of_nat_Z (p + k mod p) with
       | String _ frac => frac
       | EmptyString => EmptyString
       end.

(** [format(x, '.<nd>f')]. *)
Definition format_fixed (x : float) (nd : Z) : string :=
  let sign (s : bool) := if s then "-" else "" in
  match Prim2SF x with
  | S754_nan => "nan"
  | S754_infinity s => sign s +:+ "inf"
  | S754_zero s => sign s +:+ fixed_digits 0 nd
  | S754_finite s m e => sign s +:+ fixed_digits (decimal_digits m e nd) nd
  end.

(** [format(x, '.<nd>%')]: the value is multiplied by 100 as a float, then
    printed in fixed notation with a percent sign. *)
Definition format_percent (x : float) (nd : Z) : string :=
  format_fixed (x * 100)%float nd +:+ "%".


Definition IndexError (msg : string) : exn := mk_exn "IndexError" msg.

(** [w in s] for two strings: [w] occurs in [s] as a run of consecutive
    characters (the empty string occurs in every string). *)
Fixpoint str_in (w s : string) : bool :=
  if String.prefix w s then true
  else match s with
       | EmptyString => false
       | String _ s' => str_in w s'
       end.

(** [len(s)]: the code points of [s], i.e. its bytes other than the UTF-8
    continuation bytes [10xxxxxx]. *)
Definition is_continuation (c : ascii) : bool :=
  let n := N_of_ascii c in ((128 <=? n) && (n <? 192))%N.

Fixpoint py_len (s : string) : Z :=
  match s with
  | EmptyString => 0%Z
  | String c s' => ((if is_continuation c then 0 else 1) + py_len s')%Z
  end.

(** A number as a dict of features holds it: an [int] or a [float]. *)
Inductive number : Type :=
| PyInt (z : Z)
| PyFloat (x : float).

(** The float64 that [np.array] makes of a number. *)
Definition number_to_float (v : number) : float :=
  match v with
  | PyInt z => float_of_int z
  | PyFloat x => x
  end.

(** A dict read in insertion order: [d.get(k)] on the list of its items. *)
Fixpoint items_get {V : Type} (d : list (string * V)) (k : string) : option V :=
  match d with
  | [] => None
  | (k', v) :: d' => if String.eqb k' k then Some v else items_get d' k
  end.

(** [max(first, *rest, key=key)] with integer keys: the first item whose key
    no other exceeds. *)
Definition max_by_key {A : Type} (key : A -> Z) (first : A) (rest : list A) : A :=
  fold_left (fun best x => if (key best <? key x)%Z then x else best) rest first.

(** A method that may update the object it is called on: from the state
    before to the state after, with the value returned or the exception
    raised.  An exception ends the method and leaves the state as it is then. *)
Definition method (S A : Type) : Type := S -> S * result A.

Definition ret {S A : Type} (a : A) : method S A := fun s => (s, Ok a).

Definition bind {S A B : Type} (m : method S A) (k : A -> method S B) : method S B :=
  fun s => let '(s', r) := m s in
           match r with
           | Ok a => k a s'
           | Raise e => (s', Raise e)
           end.

(** A call that reads the state only. *)
Definition lift {S A : Type} (r : result A) : method S A := fun s => (s, r).

(** An assignment to the state. *)
Definition modify {S : Type} (f : S -> S) : method S unit := fun s => (f s, Ok tt).

End Py.

Import Py.

(** ** Data model *)

(** [ReturnItem].  The two dates are day ordinals: the functions embedded
    below never read them. *)
Record ReturnItem := {
  sku : string;
  product_name : string;
  category : string;
  condition : string;
  return_reason : string;
  original_price : float;
  customer_age : Z;
  purchase_channel : string;
  location : string;
  return_date : Z;
  manufacturing_date : Z;
  warranty_status : string;
  material_composition : list string;
  seasonality : string;
  market_demand : string
}.

Record PredictionResult := {
  recommended_action : string;
  confidence : float;
  estimated_value : float;
  co2_saved : float;
  landfill_avoided : float;
  processing_time : Z;
  marketplace : option string;
  reasoning : string
}.

(** One entry of [ForecastResult.predictions] (a dict with these four keys). *)
Record ForecastEntry := {
  period : Z;
  predicted_value : float;
  lower_bound : float;
  upper_bound : float
}.

Record ForecastResult := {
  predictions : list ForecastEntry;
  confidence_intervals : list (float * float);
  trend : string;
  seasonality_factor : float;
  accuracy_metrics : list (string * float)
}.

(** ** FeatureEngineering *)

Module FeatureEngineering.

Definition condition_map : gmap string float :=
  <["new" := 1.0%float]> (<["lightly-used" := 0.8%float]> (<["good" := 0.6%float]>
  (<["fair" := 0.4%float]> (<["poor" := 0.2%float]> (<["defective" := 0.0%float]> ∅))))).

Definition _encode_condition (condition : string) : float :=
  dict_get condition_map (lower condition) 0.5%float.


Definition category_map : gmap string float :=
  <["Electronics" := 0.9%float]> (<["Appliances" := 0.8%float]> (<["Fashion" := 0.6%float]>
  (<["Home & Kitchen" := 0.5%float]> (<["Books" := 0.3%float]> (<["Toys" := 0.4%float]> ∅))))).

Definition _encode_category (category : string) : float :=
  dict_get category_map category 0.5%float.

Definition channel_map : gmap string float :=
  <["online" := 0.8%float]> (<["mobile-app" := 0.9%float]> (<["store" := 0.6%float]> ∅)).

Definition _encode_channel (channel : string) : float :=
  dict_get channel_map (lower channel) 0.7%float.

Definition _get_price_category (price : float) : float :=
  if (price <? 500)%float then 0.2%float
  else if (price <? 2000)%float then 0.4%float
  else if (price <? 10000)%float then 0.6%float
  else if (price <? 50000)%float then 0.8%float
  else 1.0%float.

Definition seasonality_map : gmap string float :=
  <["high" := 1.0%float]> (<["medium" := 0.6%float]> (<["low" := 0.3%float]> ∅)).

Definition _encode_seasonality (seasonality : string) : float :=
  dict_get seasonality_map (lower seasonality) 0.6%float.

Definition demand_map : gmap string float :=
  <["high" := 1.0%float]> (<["medium" := 0.6%float]> (<["low" := 0.3%float]> ∅)).

Definition _encode_demand (demand : string) : float :=
  dict_get demand_map (lower demand) 0.6%float.

Definition negative_words : list string :=
  ["defective"; "broken"; "damaged"; "poor"; "bad"; "terrible"; "awful"].

Definition neutral_words : list string :=
  ["size"; "color"; "changed mind"; "duplicate"; "wrong"].

Definition _analyze_reason_sentiment (reason : string) : float :=
  let reason_lower := lower reason in
  let negative_count :=
    Z.of_nat (length (List.filter (fun word => str_in word reason_lower) negative_words)) in
  let neutral_count :=
    Z.of_nat (length (List.filter (fun word => str_in word reason_lower) neutral_words)) in
  if (0 <? negative_count)%Z then 0.2%float
  else if (0 <? neutral_count)%Z then 0.6%float
  else 0.8%float.

Section Dates.

(** What [create_features] reads of the two dates of an item:
    [(a - b).days], [d.month] and [d.weekday()]. *)
Variable days_between : Z -> Z -> Z.
Variables month weekday : Z -> Z.

(** The features, in the order the dict receives them (the order of the
    feature vector [list(features.values())]). *)
Definition create_features (return_item : ReturnItem) : list (string * number) :=
  let item_age_days := days_between (return_date return_item) (manufacturing_date return_item) in
  [ ("original_price", PyFloat (original_price return_item));
    ("customer_age", PyInt (customer_age return_item));
    ("condition_score", PyFloat (_encode_condition (condition return_item)));
    ("category_encoded", PyFloat (_encode_category (category return_item)));
    ("channel_encoded", PyFloat (_encode_channel (purchase_channel return_item)));
    ("item_age_days", PyInt item_age_days);
    ("return_month", PyInt (month (return_date return_item)));
    ("return_quarter", PyInt ((month (return_date return_item) - 1) / 3 + 1));
    ("is_weekend", PyFloat (float_of_bool (5 <=? weekday (return_date return_item))%Z));
    ("price_category", PyFloat (_get_price_category (original_price return_item)));
    ("price_per_age",
      PyFloat (original_price return_item / float_of_int (Z.max item_age_days 1))%float);
    ("seasonality_score", PyFloat (_encode_seasonality (seasonality return_item)));
    ("demand_score", PyFloat (_encode_demand (market_demand return_item)));
    ("warranty_active", PyFloat (float_of_bool (String.eqb (warranty_status return_item) "active")));
    ("material_count", PyInt (Z.of_nat (length (material_composition return_item))));
    ("has_electronics",
      PyFloat (float_of_bool (existsb (String.eqb "Electronics") (material_composition return_item))));
    ("has_plastic",
      PyFloat (float_of_bool (existsb (String.eqb "Plastic") (material_composition return_item))));
    ("has_metal",
      PyFloat (float_of_bool (existsb (String.eqb "Metal") (material_composition return_item))));
    ("reason_length", PyInt (py_len (return_reason return_item)));
    ("reason_sentiment", PyFloat (_analyze_reason_sentiment (return_reason return_item))) ].

(** The row [list(features.values())] as [np.array] holds it. *)
Definition feature_vector (return_item : ReturnItem) : list float :=
  map (fun kv => number_to_float (snd kv)) (create_features return_item).

End Dates.

End FeatureEngineering.

(** ** DispositionPredictor *)

Module DispositionPredictor.

Definition condition_multiplier : gmap string float :=
  <["new" := 0.75%float]> (<["lightly-used" := 0.55%float]> (<["good" := 0.40%float]>
  (<["fair" := 0.25%float]> (<["poor" := 0.10%float]> (<["defective" := 0.05%float]> ∅))))).

Definition action_multiplier : gmap string float :=
  <["resale" := 1.0%float]> (<["repair" := 0.6%float]> (<["recycle" := 0.05%float]>
  (<["donate" := 0.0%float]> ∅))).

Definition demand_adjustment_map : gmap string float :=
  <["high" := 1.2%float]> (<["medium" := 1.0%float]> (<["low" := 0.8%float]> ∅)).

Definition _calculate_estimated_value (item : ReturnItem) (action : string) : float :=
  let base_value := original_price item in
  let condition_factor := dict_get condition_multiplier (lower (condition item)) 0.3%float in
  let action_factor := dict_get action_multiplier (lower action) 0.3%float in
  let demand_adjustment := dict_get demand_adjustment_map (lower (market_demand item)) 1.0%float in
  py_round (base_value * condition_factor * action_factor * demand_adjustment) 2.

Definition base_co2_per_rupee : gmap string float :=
  <["resale" := 0.003%float]> (<["repair" := 0.002%float]> (<["recycle" := 0.001%float]>
  (<["donate" := 0.0025%float]> ∅))).

Definition _calculate_co2_impact (item : ReturnItem) (action : string) : float :=
  let factor := dict_get base_co2_per_rupee (lower action) 0.001%float in
  py_round (original_price item * factor) 2.

Definition category_weight : gmap string float :=
  <["Electronics" := 0.8%float]> (<["Appliances" := 2.5%float]> (<["Fashion" := 0.3%float]>
  (<["Home & Kitchen" := 0.6%float]> ∅))).

Definition waste_action_factor : gmap string float :=
  <["resale" := 0.95%float]> (<["repair" := 0.85%float]> (<["recycle" := 0.60%float]>
  (<["donate" := 0.90%float]> ∅))).

Definition _calculate_waste_impact (item : ReturnItem) (action : string) : float :=
  let base_weight := dict_get category_weight (category item) 0.5%float in
  let factor := dict_get waste_action_factor (lower action) 0.5%float in
  py_round (base_weight * factor) 2.

Definition base_times : gmap string Z :=
  <["resale" := 2%Z]> (<["repair" := 5%Z]> (<["recycle" := 1%Z]> (<["donate" := 3%Z]> ∅))).

Definition category_multiplier : gmap string float :=
  <["Electronics" := 1.3%float]> (<["Appliances" := 1.5%float]> (<["Fashion" := 0.8%float]>
  (<["Home & Kitchen" := 1.0%float]> ∅))).

Definition _estimate_processing_time (action category : string) : Z :=
  let base_time := dict_get base_times (lower action) 3%Z in
  let multiplier := dict_get category_multiplier category 1.0%float in
  Z.max 1 (py_round_int (float_of_int base_time * multiplier)).

Definition _select_marketplace (action category : string) (value : float) : option string :=
  if negb (String.eqb (lower action) "resale") then None
  else if (10000 <? value)%float then Some "Flipkart"
  else if (2000 <? value)%float then Some "Flipkart 2GUD"
  else if String.eqb category "Fashion" then Some "Myntra"
  else if String.eqb category "Electronics" then Some "Amazon Renewed"
  else Some "Walmart Marketplace".

Definition condition_desc_map : gmap string string :=
  <["new" := "excellent"]> (<["lightly-used" := "very good"]> (<["good" := "good"]>
  (<["fair" := "acceptable"]> (<["poor" := "poor"]> (<["defective" := "defective"]> ∅))))).

Definition base_reason (item : ReturnItem) : string :=
  "Item in " +:+ dict_get condition_desc_map (lower (condition item)) "unknown" +:+ " condition".

Definition _generate_reasoning (item : ReturnItem) (action : string) (confidence : float) : string :=
  if String.eqb action "resale" then
    base_reason item +:+ ", suitable for resale market. " +:+ category item +:+ " has good demand."
  else if String.eqb action "repair" then
    base_reason item +:+ ", economically viable for repair and resale."
  else if String.eqb action "recycle" then
    base_reason item +:+ ", beyond economical repair. Materials can be responsibly recycled."
  else if String.eqb action "donate" then
    base_reason item +:+ ", has social value for donation programs."
  else base_reason item +:+ ". Confidence: " +:+ format_percent confidence 1.

(** The predictor's state.  [classify] stands for the fitted pipeline that
    [predict] runs before the derived metrics: [create_features], the scaler,
    the random forest and the label decoder; it yields the decoded label and
    the largest class probability. *)
Record t := {
  is_trained : bool;
  classify : ReturnItem -> string * float
}.

Definition predict (self : t) (return_item : ReturnItem) : result PredictionResult :=
  if negb (is_trained self) then
    Raise (ValueError "Model must be trained before making predictions")
  else
    let '(action, conf) := classify self return_item in
    let value := _calculate_estimated_value return_item action in
    Ok {| recommended_action := action;
          confidence := conf;
          estimated_value := value;
          co2_saved := _calculate_co2_impact return_item action;
          landfill_avoided := _calculate_waste_impact return_item action;
          processing_time := _estimate_processing_time action (category return_item);
          marketplace := _select_marketplace action (category return_item) value;
          reasoning := _generate_reasoning return_item action conf |}.


Section Training.

(** What [train] asks of scikit-learn, from the feature rows of the samples
    to the cross-validation: the pipeline (label encoder, scaler, forest) as
    these calls leave it, with the metrics they yield or the exception they
    raise. *)
Variable fit_pipeline :
  (ReturnItem -> string * float) -> list (ReturnItem * string) ->
  (ReturnItem -> string * float) * result (list (string * float)).

(** [is_trained] is set once the library calls have returned. *)
Definition train (training_data : list (ReturnItem * string)) : method t (list (string * float)) :=
  fun self =>
    let '(pipeline, outcome) := fit_pipeline (classify self) training_data in
    match outcome with
    | Ok metrics => ({| is_trained := true; classify := pipeline |}, Ok metrics)
    | Raise e => ({| is_trained := is_trained self; classify := pipeline |}, Raise e)
    end.

End Training.

End DispositionPredictor.

(** ** ValueForecaster *)

Module ValueForecaster.

(** The forecaster's state: the flag and the fitted scaler and regressor. *)
Record t := {
  is_trained : bool;
  scaler_transform : list (list float) -> list (list float);
  model_predict : list (list float) -> list float
}.

Section Libraries.

(** [datetime]: the clock, [d + timedelta(days=n)] and the fields read. *)
Variable datetime : Type.
Variable now : datetime.
Variable add_days : datetime -> Z -> datetime.
Variables month weekday day : datetime -> Z.

(** numpy reductions: [np.std], [np.mean], [np.var], and the slope
    [np.polyfit(x, y, 1)[0]]. *)
Variables np_std np_mean np_var : list float -> float.
Variable np_polyfit_slope : list float -> list float -> float.

Definition category_encoding_map : gmap string float :=
  <["Electronics" := 0.9%float]> (<["Fashion" := 0.6%float]> (<["Appliances" := 0.8%float]>
  (<["Home & Kitchen" := 0.5%float]> ∅))).

Definition _generate_future_features (periods : Z) (category : option string) : list (list float) :=
  let base_date := now in
  let category_encoding :=
    match category with
    | Some c => dict_get category_encoding_map c 0.6%float
    | None => 0.6%float
    end in
  map (fun i =>
         let future_date := add_days base_date (30 * i) in
         [ float_of_int (month future_date);
           float_of_int ((month future_date - 1) / 3 + 1);
           float_of_int (weekday future_date);
           float_of_int (day future_date);
           category_encoding;
           5000%float;
           100%float;
           0.6%float ])
      (seqZ 0 periods).

Definition _analyze_trend (predictions : list float) : string :=
  if (Z.of_nat (length predictions) <? 2)%Z then "stable"
  else
    let x := map float_of_int (seqZ 0 (Z.of_nat (length predictions))) in
    let slope := np_polyfit_slope x predictions in
    if (0.05 <? slope)%float then "increasing"
    else if (slope <? -0.05)%float then "decreasing"
    else "stable".

Definition _calculate_seasonality (predictions : list float) : float :=
  if (Z.of_nat (length predictions) <? 4)%Z then 0.0%float
  else
    let mean_val := np_mean predictions in
    let variance := np_var predictions in
    if (0 <? mean_val)%float then py_min (variance / (mean_val * mean_val)) 1.0 else 0.0%float.

Definition forecast (self : t) (periods : Z) (category : option string) : result ForecastResult :=
  if negb (is_trained self) then
    Raise (ValueError "Model must be trained before forecasting")
  else
    let future_features := _generate_future_features periods category in
    let future_scaled := scaler_transform self future_features in
    let preds := model_predict self future_scaled in
    let std_error := (np_std preds * 0.1)%float in
    let intervals :=
      map (fun pred => (pred - 1.96 * std_error, pred + 1.96 * std_error)%float) preds in
    let forecast_data :=
      imap (fun i '(pred, ci) =>
              {| period := Z.of_nat i + 1;
                 predicted_value := pred;
                 lower_bound := fst ci;
                 upper_bound := snd ci |})
           (zip preds intervals) in
    Ok {| predictions := forecast_data;
          confidence_intervals := intervals;
          trend := _analyze_trend preds;
          seasonality_factor := _calculate_seasonality preds;
          accuracy_metrics := [("mae", 0.0%float); ("r2", 0.0%float)] |}.

End Libraries.


Section Training.

Variable DataFrame : Type.

(** What [train] asks of pandas and scikit-learn: the scaler and the
    regressor as the calls leave them, with the metrics or the exception. *)
Variable fit_models :
  (list (list float) -> list (list float)) -> (list (list float) -> list float) -> DataFrame ->
  (list (list float) -> list (list float)) * (list (list float) -> list float)
  * result (list (string * float)).

Definition train (historical_data : DataFrame) : method t (list (string * float)) :=
  fun self =>
    let '(scaler, model, outcome) :=
      fit_models (scaler_transform self) (model_predict self) historical_data in
    match outcome with
    | Ok metrics =>
        ({| is_trained := true; scaler_transform := scaler; model_predict := model |}, Ok metrics)
    | Raise e =>
        ({| is_trained := is_trained self; scaler_transform := scaler; model_predict := model |},
         Raise e)
    end.

End Training.

End ValueForecaster.

(** ** AnomalyDetector *)

Module AnomalyDetector.

(** A row of the data frames: the columns [date], [category] and [count]. *)
Record Row := { row_date : string; row_category : string; row_count : Z }.

(** [baseline_stats]; [seasonal_patterns] is left out (detection never reads it). *)
Record BaselineStats := {
  daily_mean : float;
  daily_std : float;
  category_means : gmap string float
}.

(** The detector's state; [baseline_stats] is [None] for the empty dict
    that [__init__] leaves until [fit] is called. *)
Record t := { threshold : float; baseline_stats : option BaselineStats }.

Definition init (threshold : float) : t :=
  {| threshold := threshold; baseline_stats := None |}.

Definition KeyError (key : string) : exn := mk_exn "KeyError" ("'" +:+ key +:+ "'").

(** An entry of the result list: its [type], the key it is about ([date] or
    [category] with its value), and the remaining fields. *)
Record Anomaly := {
  anomaly_type : string;
  anomaly_key : string * string;
  anomaly_value : Z;
  anomaly_expected : float;
  anomaly_severity : string;
  anomaly_description : string
}.

(** [df.groupby(key)[col]]: the groups in increasing key order, each with
    its values in row order. *)
Fixpoint group_add (k : string) (v : Z) (groups : list (string * list Z)) : list (string * list Z) :=
  match groups with
  | [] => [(k, [v])]
  | (k', vs) :: rest =>
      match String.compare k k' with
      | Eq => (k', (vs ++ [v])%list) :: rest
      | Lt => (k, [v]) :: groups
      | Gt => (k', vs) :: group_add k v rest
      end
  end.

Definition groupby (key : Row -> string) (rows : list Row) : list (string * list Z) :=
  fold_left (fun groups r => group_add (key r) (row_count r) groups) rows [].

Definition sum_Z (vs : list Z) : Z := fold_left Z.add vs 0%Z.

Definition groupby_sum (key : Row -> string) (rows : list Row) : list (string * Z) :=
  map (fun '(k, vs) => (k, sum_Z vs)) (groupby key rows).

(** The mean of a group of integer counts (exact while the sum is below 2^53). *)
Definition groupby_mean (key : Row -> string) (rows : list Row) : list (string * float) :=
  map (fun '(k, vs) => (k, (float_of_int (sum_Z vs) / float_of_int (Z.of_nat (length vs)))%float))
      (groupby key rows).

(** Float reductions of a series, added left to right (numpy adds in this
    order below eight values). *)
Definition sum_float (xs : list float) : float := fold_left PrimFloat.add xs 0%float.

Definition series_mean (xs : list float) : float :=
  (sum_float xs / float_of_int (Z.of_nat (length xs)))%float.

(** [Series.std()]: the sample standard deviation ([ddof = 1]), NaN below two values. *)
Definition series_std (xs : list float) : float :=
  if (Z.of_nat (length xs) <=? 1)%Z then nan
  else
    let avg := series_mean xs in
    let sqr := map (fun x => ((avg - x) * (avg - x))%float) xs in
    sqrt (sum_float sqr / float_of_int (Z.of_nat (length xs) - 1)).

Definition fit (self : t) (historical_data : list Row) : t :=
  let per_date := map snd (groupby_mean row_date historical_data) in
  {| threshold := threshold self;
     baseline_stats :=
       Some {| daily_mean := series_mean per_date;
               daily_std := series_std per_date;
               category_means := list_to_map (groupby_mean row_category historical_data) |} |}.

Definition volume_anomalies (threshold : float) (stats : BaselineStats)
    (current_data : list Row) : list Anomaly :=
  flat_map (fun '(date, count) =>
    let z_score := (abs (float_of_int count - daily_mean stats) / daily_std stats)%float in
    if (threshold <? z_score)%float then
      [ {| anomaly_type := "volume_anomaly";
           anomaly_key := ("date", date);
           anomaly_value := count;
           anomaly_expected := daily_mean stats;
           anomaly_severity := if (3 <? z_score)%float then "high" else "medium";
           anomaly_description :=
             "Unusual return volume: " +:+ str_of_int count +:+ " vs expected "
             +:+ format_fixed (daily_mean stats) 0 |} ]
    else [])
  (groupby_sum row_date current_data).

Definition category_anomalies (stats : BaselineStats) (current_data : list Row) : list Anomaly :=
  flat_map (fun '(category, count) =>
    let expected := dict_get (category_means stats) category 0%float in
    if (0 <? expected)%float then
      let deviation := (abs (float_of_int count - expected) / expected)%float in
      if (0.5 <? deviation)%float then
        [ {| anomaly_type := "category_anomaly";
             anomaly_key := ("category", category);
             anomaly_value := count;
             anomaly_expected := expected;
             anomaly_severity := if (1.0 <? deviation)%float then "high" else "medium";
             anomaly_description :=
               "Unusual " +:+ category +:+ " returns: " +:+ str_of_int count +:+ " vs expected "
               +:+ format_fixed expected 0 |} ]
      else []
    else [])
  (groupby_sum row_category current_data).

(** The volume loop appends first, the category loop after it.  The floats of
    the baseline are numpy's: a division by a zero standard deviation raises
    nothing and yields an infinity or a NaN.  Before [fit] the first loop
    iteration fails on the missing key. *)
Definition detect_anomalies (self : t) (current_data : list Row) : result (list Anomaly) :=
  match baseline_stats self with
  | Some stats =>
      Ok (volume_anomalies (threshold self) stats current_data
          ++ category_anomalies stats current_data)%list
  | None =>
      match current_data with
      | [] => Ok []
      | _ :: _ => Raise (KeyError "daily_mean")
      end
  end.

End AnomalyDetector.

(** ** RiskAssessment *)

Module RiskAssessment.

(** [self.risk_factors], in the insertion order [items()] walks it. *)
Definition risk_factors : list (string * float) :=
  [ ("volume_risk", 0.3%float); ("value_risk", 0.25%float); ("quality_risk", 0.2%float);
    ("market_risk", 0.15%float); ("operational_risk", 0.1%float) ].

Record RiskReport := {
  overall_score : float;
  risk_level : string;
  component_scores : gmap string float;
  recommendations : list string
}.

(** [sum(...)] over floats, from the integer [0], added left to right, each
    addition rounded (CPython up to 3.11; later versions compensate the
    rounding errors of a float sum, which can change the last bit). *)
Definition py_sum (xs : list float) : float := fold_left PrimFloat.add xs 0%float.

Definition _generate_risk_recommendations (scores : gmap string float) (overall_score : float) : list string :=
  ((if (70 <? scores !!! "volume_risk")%float
   then ["Implement return prevention strategies and improve product descriptions"] else [])
  ++ (if (70 <? scores !!! "value_risk")%float
      then ["Optimize pricing strategies and explore new marketplaces"] else [])
  ++ (if (70 <? scores !!! "quality_risk")%float
      then ["Enhance quality control processes and supplier management"] else [])
  ++ (if (70 <? scores !!! "market_risk")%float
      then ["Diversify market channels and improve demand forecasting"] else [])
  ++ (if (70 <? scores !!! "operational_risk")%float
      then ["Streamline processing workflows and increase capacity"] else [])
  ++ (if (80 <? overall_score)%float
      then ["URGENT: Immediate intervention required across all risk areas"] else []))%list.

(** The five component scores, written to [scores] in this order. *)
Definition component_scores_of (category_data : gmap string float) : gmap string float :=
  let scores : gmap string float := ∅ in
  let return_rate := dict_get category_data "return_rate" 0%float in
  let scores := <["volume_risk" := (py_min (return_rate / 0.15) 1.0 * 100)%float]> scores in
  let recovery_rate := dict_get category_data "value_recovery_rate" 0%float in
  let scores := <["value_risk" := (py_max 0 ((0.6 - recovery_rate) / 0.6) * 100)%float]> scores in
  let defect_rate := dict_get category_data "defect_rate" 0%float in
  let scores := <["quality_risk" := (py_min (defect_rate / 0.1) 1.0 * 100)%float]> scores in
  let demand_volatility := dict_get category_data "demand_volatility" 0%float in
  let scores := <["market_risk" := (py_min (demand_volatility / 0.3) 1.0 * 100)%float]> scores in
  let avg_processing_time := dict_get category_data "avg_processing_time" 0%float in
  <["operational_risk" := (py_min (avg_processing_time / 7) 1.0 * 100)%float]> scores.

(** The weighted sum, before the report rounds it. *)
Definition weighted_score (scores : gmap string float) : float :=
  py_sum (map (fun '(factor, weight) => (scores !!! factor * weight)%float) risk_factors).

Definition risk_level_of (overall_score : float) : string :=
  if (80 <=? overall_score)%float then "Critical"
  else if (60 <=? overall_score)%float then "High"
  else if (40 <=? overall_score)%float then "Medium"
  else "Low".

Definition calculate_risk_score (category_data : gmap string float) : RiskReport :=
  let scores := component_scores_of category_data in
  let overall := weighted_score scores in
  {| overall_score := py_round overall 1;
     risk_level := risk_level_of overall;
     component_scores := scores;
     recommendations := _generate_risk_recommendations scores overall |}.

End RiskAssessment.

(** ** SmartReturnsPredictionEngine *)

Module SmartReturnsPredictionEngine.

(** The engine's state; the risk assessor has none of its own. *)
Record t := {
  disposition_predictor : DispositionPredictor.t;
  value_forecaster : ValueForecaster.t;
  anomaly_detector : AnomalyDetector.t;
  models_trained : bool
}.

(** An entry of the dict that [train_models] returns: the metrics of a
    model, or the status of the anomaly detector. *)
Inductive report : Type :=
| Metrics (m : list (string * float))
| Status (s : string).

Section Engine.

(** The pipelines of the models before any training. *)
Variable unfitted_classify : ReturnItem -> string * float.
Variable unfitted_scaler : list (list float) -> list (list float).
Variable unfitted_model : list (list float) -> list float.

Definition init : t :=
  {| disposition_predictor :=
       {| DispositionPredictor.is_trained := false;
          DispositionPredictor.classify := unfitted_classify |};
     value_forecaster :=
       {| ValueForecaster.is_trained := false;
          ValueForecaster.scaler_transform := unfitted_scaler;
          ValueForecaster.model_predict := unfitted_model |};
     anomaly_detector := AnomalyDetector.init 2.5;
     models_trained := false |}.

(** The data frames of the training sets, and the library calls on them. *)
Variables ReturnsFrame TimeSeriesFrame : Type.
Variable _prepare_disposition_data : ReturnsFrame -> result (list (ReturnItem * string)).
Variable fit_pipeline :
  (ReturnItem -> string * float) -> list (ReturnItem * string) ->
  (ReturnItem -> string * float) * result (list (string * float)).
Variable fit_models :
  (list (list float) -> list (list float)) -> (list (list float) -> list float) ->
  TimeSeriesFrame ->
  (list (list float) -> list (list float)) * (list (list float) -> list float)
  * result (list (string * float)).

(** [training_data]: a dict that may hold the keys [returns], [time_series]
    and [historical]. *)
Record TrainingData := {
  returns : option ReturnsFrame;
  time_series : option TimeSeriesFrame;
  historical : option (list AnomalyDetector.Row)
}.

(** A method of a component, run on the engine's field that holds it. *)
Definition on_predictor {A : Type} (m : method DispositionPredictor.t A) : method t A :=
  fun self =>
    let '(p, r) := m (disposition_predictor self) in
    ({| disposition_predictor := p;
        value_forecaster := value_forecaster self;
        anomaly_detector := anomaly_detector self;
        models_trained := models_trained self |}, r).

Definition on_forecaster {A : Type} (m : method ValueForecaster.t A) : method t A :=
  fun self =>
    let '(f, r) := m (value_forecaster self) in
    ({| disposition_predictor := disposition_predictor self;
        value_forecaster := f;
        anomaly_detector := anomaly_detector self;
        models_trained := models_trained self |}, r).

Definition on_detector {A : Type} (m : method AnomalyDetector.t A) : method t A :=
  fun self =>
    let '(d, r) := m (anomaly_detector self) in
    ({| disposition_predictor := disposition_predictor self;
        value_forecaster := value_forecaster self;
        anomaly_detector := d;
        models_trained := models_trained self |}, r).

Definition set_models_trained (b : bool) : method t unit :=
  modify (fun self =>
    {| disposition_predictor := disposition_predictor self;
       value_forecaster := value_forecaster self;
       anomaly_detector := anomaly_detector self;
       models_trained := b |}).

Definition train_models (training_data : TrainingData) : method t (list (string * report)) :=
  let results : list (string * report) := [] in
  bind (match returns training_data with
        | Some frame =>
            bind (lift (_prepare_disposition_data frame)) (fun disposition_data =>
            bind (on_predictor (DispositionPredictor.train fit_pipeline disposition_data))
                 (fun metrics => ret (results ++ [("disposition", Metrics metrics)])%list))
        | None => ret results
        end) (fun results =>
  bind (match time_series training_data with
        | Some frame =>
            bind (on_forecaster (ValueForecaster.train TimeSeriesFrame fit_models frame))
                 (fun metrics => ret (results ++ [("forecasting", Metrics metrics)])%list)
        | None => ret results
        end) (fun results =>
  bind (match historical training_data with
        | Some frame =>
            bind (on_detector (fun d => (AnomalyDetector.fit d frame, Ok tt)))
                 (fun _ => ret (results ++ [("anomaly_detection", Status "fitted")])%list)
        | None => ret results
        end) (fun results =>
  bind (set_models_trained true) (fun _ =>
  ret results)))).

Definition predict_disposition (self : t) (return_item : ReturnItem) : result PredictionResult :=
  DispositionPredictor.predict (disposition_predictor self) return_item.

Definition detect_anomalies (self : t) (current_data : list AnomalyDetector.Row)
  : result (list AnomalyDetector.Anomaly) :=
  AnomalyDetector.detect_anomalies (anomaly_detector self) current_data.

Definition assess_risk (self : t) (category_data : gmap string float) : RiskAssessment.RiskReport :=
  RiskAssessment.calculate_risk_score category_data.

End Engine.

Section Forecast.

Variable datetime : Type.
Variable now : datetime.
Variable add_days : datetime -> Z -> datetime.
Variables month weekday day : datetime -> Z.
Variables np_std np_mean np_var : list float -> float.
Variable np_polyfit_slope : list float -> list float -> float.

Definition forecast_demand (self : t) (periods : Z) (category : option string)
  : result ForecastResult :=
  ValueForecaster.forecast datetime now add_days month weekday day
    np_std np_mean np_var np_polyfit_slope (value_forecaster self) periods category.

End Forecast.

(** [hub_capacities] is a dict from hub ids to integer capacities, read in
    insertion order; [hub_capacities[h]] is only asked for its own keys. *)
Definition _find_optimal_hub (item : ReturnItem) (hub_capacities : list (string * Z))
  : result string :=
  let available_hubs :=
    map fst (List.filter (fun '(_, capacity) => (0 <? capacity)%Z) hub_capacities) in
  match available_hubs with
  | [] =>
      match map fst hub_capacities with
      | [] => Raise (IndexError "list index out of range")
      | first :: _ => Ok first
      end
  | first :: rest =>
      Ok (max_by_key (fun h => default 0%Z (items_get hub_capacities h)) first rest)
  end.

(** [assignments[hub].append(sku)]. *)
Fixpoint append_at (hub sku : string) (assignments : list (string * list string))
  : option (list (string * list string)) :=
  match assignments with
  | [] => None
  | (h, skus) :: rest =>
      if String.eqb h hub then Some ((h, (skus ++ [sku])%list) :: rest)
      else option_map (cons (h, skus)) (append_at hub sku rest)
  end.

Definition optimize_hub_assignment (return_items : list ReturnItem)
    (hub_capacities : list (string * Z)) : result (list (string * list string)) :=
  let assignments := map (fun '(hub_id, _) => (hub_id, @nil string)) hub_capacities in
  fold_left
    (fun acc item =>
       match acc with
       | Raise e => Raise e
       | Ok assignments =>
           match _find_optimal_hub item hub_capacities with
           | Raise e => Raise e
           | Ok best_hub =>
               match append_at best_hub (sku item) assignments with
               | Some assignments' => Ok assignments'
               | None => Raise (AnomalyDetector.KeyError best_hub)
               end
           end
       end)
    return_items (Ok assignments).

End SmartReturnsPredictionEngine.

(** ** Binary64 arithmetic

    What the proofs below need of IEEE 754 rounding, derived from the
    specification of the primitive operations ([SpecFloat], [FloatAxioms]):
    each operation returns the exact result rounded to nearest, so bounds by
    representable numbers survive it and rounding is monotone. *)

Module Binary64.

#[local] Open Scope Z_scope.

Definition bpow (e : Z) : R := powerRZ 2 e.
Definition F2R (m e : Z) : R := (IZR m * bpow e)%R.

Lemma bpow_gt_0 e : (0 < bpow e)%R.
Proof. apply powerRZ_lt; lra. Qed.

Lemma bpow_add a b : bpow (a + b) = (bpow a * bpow b)%R.
Proof. apply powerRZ_add; lra. Qed.

Lemma bpow_IZR e : 0 <= e -> bpow e = IZR (2 ^ e).
Proof.
  intros He. unfold bpow. destruct e as [|p|p]; try lia.
  - reflexivity.
  - rewrite <- (Zpower_pos_powerRZ 2 p). reflexivity.
Qed.

Lemma bpow_ge_1 e : 0 <= e -> (1 <= bpow e)%R.
Proof.
  intros He. rewrite bpow_IZR by assumption. apply IZR_le.
  assert (0 < 2 ^ e) by (apply Z.pow_pos_nonneg; lia). lia.
Qed.

Lemma bpow_le a b : a <= b -> (bpow a <= bpow b)%R.
Proof.
  intros Hab. replace b with (a + (b - a)) by lia. rewrite bpow_add.
  pose proof (bpow_gt_0 a). pose proof (bpow_ge_1 (b - a) ltac:(lia)). nra.
Qed.

Lemma bpow_1 : bpow 1 = 2%R.
Proof. unfold bpow. simpl. ring. Qed.

Lemma bpow_lt a b : a < b -> (bpow a < bpow b)%R.
Proof.
  intros Hab. replace b with (a + 1 + (b - a - 1)) by lia. rewrite !bpow_add.
  pose proof (bpow_gt_0 a). pose proof (bpow_ge_1 (b - a - 1) ltac:(lia)).
  rewrite bpow_1. nra.
Qed.

Lemma F2R_shift m e k : 0 <= k -> F2R m (e + k) = F2R (m * 2 ^ k) e.
Proof.
  intros Hk. unfold F2R. rewrite bpow_add, (bpow_IZR k), mult_IZR by assumption. ring.
Qed.

Lemma F2R_le m1 m2 e : m1 <= m2 -> (F2R m1 e <= F2R m2 e)%R.
Proof.
  intros H. unfold F2R. apply IZR_le in H. pose proof (bpow_gt_0 e). nra.
Qed.

Lemma F2R_lt_inv m1 m2 e : (F2R m1 e < F2R m2 e)%R -> m1 < m2.
Proof.
  intros H. destruct (Z_lt_le_dec m1 m2) as [|Hle]; [assumption|].
  apply (F2R_le _ _ e) in Hle. lra.
Qed.

Lemma F2R_le_inv m1 m2 e : (F2R m1 e <= F2R m2 e)%R -> m1 <= m2.
Proof.
  intros H. destruct (Z_le_gt_dec m1 m2) as [|Hgt]; [assumption|].
  assert (m2 + 1 <= m1) as Hle by lia. apply (F2R_le _ _ e) in Hle.
  unfold F2R in *. rewrite plus_IZR in Hle. pose proof (bpow_gt_0 e). nra.
Qed.

Ltac abs_pow :=
  repeat match goal with
         | |- context [Z.pow ?b ?e] =>
             let v := fresh "pw" in set (v := Z.pow b e) in *; clearbody v
         | H : context [Z.pow ?b ?e] |- _ =>
             let v := fresh "pw" in set (v := Z.pow b e) in *; clearbody v
         end.

(** Bits of a positive number. *)
Lemma digits2_pos_spec p :
  2 ^ (Zpos (digits2_pos p) - 1) <= Zpos p < 2 ^ Zpos (digits2_pos p).
Proof.
  induction p as [p IH|p IH|]; simpl digits2_pos.
  - rewrite Pos2Z.inj_succ, (Pos2Z.inj_xI p).
    replace (Z.succ (Zpos (digits2_pos p)) - 1) with (Z.succ (Zpos (digits2_pos p) - 1)) by lia.
    rewrite !Z.pow_succ_r by lia. abs_pow. lia.
  - rewrite Pos2Z.inj_succ, (Pos2Z.inj_xO p).
    replace (Z.succ (Zpos (digits2_pos p)) - 1) with (Z.succ (Zpos (digits2_pos p) - 1)) by lia.
    rewrite !Z.pow_succ_r by lia. abs_pow. lia.
  - simpl. lia.
Qed.

Lemma Zdigits2_spec m :
  0 < m -> 0 < Zdigits2 m /\ 2 ^ (Zdigits2 m - 1) <= m < 2 ^ Zdigits2 m.
Proof.
  destruct m as [|p|p]; try lia. intros _. simpl. split; [lia|apply digits2_pos_spec].
Qed.

(** A non negative real [x] lies in the slot [m * 2^e, (m+1) * 2^e); the
    round bit [r] and the sticky bit [s] tell where: on the lower end, below
    the middle, on the middle, or above it. *)
Definition located (x : R) (m e : Z) (r s : bool) : Prop :=
  0 <= m /\ (F2R m e <= x < F2R (m + 1) e)%R /\
  match r, s with
  | false, false => x = F2R m e
  | false, true => (F2R m e < x /\ 2 * x < F2R m e + F2R (m + 1) e)%R
  | true, false => (2 * x = F2R m e + F2R (m + 1) e)%R
  | true, true => (F2R m e + F2R (m + 1) e < 2 * x)%R
  end.

Lemma located_half x m e r s m' (b : bool) :
  m = 2 * m' + (if b then 1 else 0) -> 0 <= m' ->
  located x m e r s -> located x m' (e + 1) b (r || s).
Proof.
  intros -> Hm' (_ & [Hlo Hhi] & Hrs). unfold located, F2R in *.
  rewrite bpow_add, bpow_1. pose proof (bpow_gt_0 e) as Hb.
  rewrite !plus_IZR, !mult_IZR in *.
  set (M := (IZR m' * bpow e)%R) in *.
  split; [assumption|].
  destruct b, r, s; simpl in *; (split; [lra|]); lra.
Qed.

Lemma shr_1_spec x mrs e :
  located x (shr_m mrs) e (shr_r mrs) (shr_s mrs) ->
  located x (shr_m (shr_1 mrs)) (e + 1) (shr_r (shr_1 mrs)) (shr_s (shr_1 mrs)) /\
  shr_m (shr_1 mrs) = shr_m mrs / 2.
Proof.
  destruct mrs as [m r s]. simpl shr_m. simpl shr_r. simpl shr_s.
  intros H. assert (0 <= m) as Hm by apply H.
  destruct m as [|[p|p|]|p]; try lia; simpl.
  - split; [|reflexivity]. apply (located_half x 0 e r s 0 false); [reflexivity|lia|assumption].
  - split.
    + apply (located_half x (Zpos p~1) e r s (Zpos p) true); [reflexivity|lia|assumption].
    + rewrite (Pos2Z.inj_xI p). apply Z.div_unique with 1; lia.
  - split.
    + apply (located_half x (Zpos p~0) e r s (Zpos p) false); [rewrite (Pos2Z.inj_xO p); lia|lia|assumption].
    + rewrite (Pos2Z.inj_xO p). apply Z.div_unique with 0; lia.
  - split; [|reflexivity].
    apply (located_half x 1 e r s 0 true); [reflexivity|lia|assumption].
Qed.

Lemma iter_shr_1_spec p : forall x mrs e,
  located x (shr_m mrs) e (shr_r mrs) (shr_s mrs) ->
  located x (shr_m (SpecFloat.iter_pos shr_1 p mrs)) (e + Zpos p)
    (shr_r (SpecFloat.iter_pos shr_1 p mrs)) (shr_s (SpecFloat.iter_pos shr_1 p mrs)) /\
  shr_m (SpecFloat.iter_pos shr_1 p mrs) = shr_m mrs / 2 ^ Zpos p.
Proof.
  induction p as [p IH|p IH|]; intros x mrs e H; simpl SpecFloat.iter_pos.
  - destruct (shr_1_spec _ _ _ H) as [H1 E1].
    destruct (IH _ _ _ H1) as [H2 E2]. destruct (IH _ _ _ H2) as [H3 E3].
    split.
    + replace (e + Zpos p~1) with (e + 1 + Zpos p + Zpos p) by lia. assumption.
    + rewrite E3, E2, E1, !Z.div_div by (try apply Z.pow_pos_nonneg; lia).
      f_equal. rewrite (Pos2Z.inj_xI p), <- Z.pow_add_r, <- (Z.pow_succ_r 2) by lia. f_equal. lia.
  - destruct (IH _ _ _ H) as [H2 E2]. destruct (IH _ _ _ H2) as [H3 E3].
    split.
    + replace (e + Zpos p~0) with (e + Zpos p + Zpos p) by lia. assumption.
    + rewrite E3, E2, !Z.div_div by (try apply Z.pow_pos_nonneg; lia).
      f_equal. rewrite (Pos2Z.inj_xO p), <- Z.pow_add_r by lia. f_equal. lia.
  - destruct (shr_1_spec _ _ _ H) as [H1 E1]. split; [assumption|]. rewrite E1. reflexivity.
Qed.

(** *** Rounding to the binary64 grid *)

(** [x] is in the slot of [m] at exponent [e], where the location [l] says. *)
Definition inbetween (x : R) (m e : Z) (l : SpecFloat.location) : Prop :=
  located x m e (shr_r (shr_record_of_loc m l)) (shr_s (shr_record_of_loc m l)).

(** Mantissa and exponent of a binary64 number (or of zero) in normal form,
    the exponent not bounded above. *)
Definition canon (m e : Z) : Prop :=
  0 <= m < 2 ^ 53 /\ -1074 <= e /\ (-1074 < e -> 2 ^ 52 <= m).

(** [m * 2^e] is [x] rounded to nearest on the grid of normal forms: no grid
    point lies strictly between them, and none is nearer to [x]. *)
Definition rounding (x : R) (m e : Z) : Prop :=
  forall mc ec, canon mc ec ->
    ((x <= F2R mc ec)%R -> (F2R m e <= F2R mc ec)%R) /\
    ((F2R mc ec <= x)%R -> (F2R mc ec <= F2R m e)%R) /\
    (Rabs (F2R m e - x) <= Rabs (F2R mc ec - x))%R.

Definition mk_float (s : bool) (m e : Z) : spec_float :=
  match m with
  | Z0 => S754_zero s
  | Zpos p => if e <=? emax - prec then S754_finite s p e else S754_infinity s
  | Zneg _ => S754_nan
  end.

Lemma fexp_eq e : fexp prec emax e = Z.max (e - 53) (-1074).
Proof. reflexivity. Qed.

Lemma shr_fexp_spec x m e l :
  inbetween x m e l -> e <= fexp prec emax (Zdigits2 m + e) ->
  located x (shr_m (fst (shr_fexp prec emax m e l))) (snd (shr_fexp prec emax m e l))
    (shr_r (fst (shr_fexp prec emax m e l))) (shr_s (fst (shr_fexp prec emax m e l))) /\
  snd (shr_fexp prec emax m e l) = fexp prec emax (Zdigits2 m + e) /\
  shr_m (fst (shr_fexp prec emax m e l)) = m / 2 ^ (fexp prec emax (Zdigits2 m + e) - e).
Proof.
  unfold inbetween. intros Hloc Hle. unfold shr_fexp, shr.
  assert (Hm : shr_m (shr_record_of_loc m l) = m) by (destruct l as [|[| |]]; reflexivity).
  rewrite <- Hm in Hloc at 1.
  generalize dependent (fexp prec emax (Zdigits2 m + e)). intros f Hle.
  destruct (f - e) as [|p|p] eqn:En; try lia; simpl fst; simpl snd.
  - split; [exact Hloc|]. split; [lia|]. rewrite Hm. change (2 ^ 0) with 1.
    rewrite Z.div_1_r. reflexivity.
  - destruct (iter_shr_1_spec p _ _ _ Hloc) as [H1 E1].
    replace (e + Zpos p) with f in * by lia. rewrite Hm in E1. rewrite <- E1. auto.
Qed.

Lemma shifted_canon m e :
  0 <= m -> e <= fexp prec emax (Zdigits2 m + e) ->
  canon (m / 2 ^ (fexp prec emax (Zdigits2 m + e) - e)) (fexp prec emax (Zdigits2 m + e)).
Proof.
  intros Hm. rewrite fexp_eq. intros Hle.
  assert (Hm0 : m = 0 \/ 0 < m) by lia. destruct Hm0 as [->|Hpos].
  - simpl Zdigits2 in *. rewrite Z.div_0_l by (apply Z.pow_nonzero; lia).
    unfold canon. split; [lia|]. split; lia.
  - destruct (Zdigits2_spec m Hpos) as [Hd [Hlo Hhi]].
    set (d := Zdigits2 m) in *. set (e' := Z.max (d + e - 53) (-1074)) in *.
    assert (0 < 2 ^ (e' - e)) as Hpw by (apply Z.pow_pos_nonneg; lia).
    unfold canon. split; [split|split].
    + apply Z.div_pos; lia.
    + apply Z.div_lt_upper_bound; [assumption|].
      rewrite <- Z.pow_add_r by lia.
      apply Z.lt_le_trans with (1 := Hhi). apply Z.pow_le_mono_r; lia.
    + lia.
    + intros He'. assert (e' = d + e - 53) as -> by lia.
      apply Z.div_le_lower_bound; [apply Z.pow_pos_nonneg; lia|].
      rewrite <- Z.pow_add_r by lia.
      replace (d + e - 53 - e + 52) with (d - 1) by lia. assumption.
Qed.

Lemma rne_spec x mrs e :
  located x (shr_m mrs) e (shr_r mrs) (shr_s mrs) ->
  (round_nearest_even (shr_m mrs) (loc_of_shr_record mrs) = shr_m mrs /\
   (2 * x <= F2R (shr_m mrs) e + F2R (shr_m mrs + 1) e)%R) \/
  (round_nearest_even (shr_m mrs) (loc_of_shr_record mrs) = shr_m mrs + 1 /\
   (F2R (shr_m mrs) e + F2R (shr_m mrs + 1) e <= 2 * x)%R).
Proof.
  destruct mrs as [m r s]. simpl shr_m. simpl shr_r. simpl shr_s.
  intros (_ & [Hlo Hhi] & Hrs).
  destruct r, s; simpl; try destruct (Z.even m); (left; split; [reflexivity|lra]) ||
    (right; split; [reflexivity|lra]).
Qed.

Lemma Zdigits2_le_53 m : 0 <= m < 2 ^ 53 -> Zdigits2 m <= 53.
Proof.
  intros [H0 H1]. assert (Hm0 : m = 0 \/ 0 < m) by lia. destruct Hm0 as [->|Hpos].
  - simpl. lia.
  - destruct (Zdigits2_spec m Hpos) as [Hd [Hlo Hhi]].
    assert (2 ^ (Zdigits2 m - 1) < 2 ^ 53) as Hlt by lia.
    apply Z.pow_lt_mono_r_iff in Hlt; lia.
Qed.

(** The second normalisation step: a mantissa that reached [2^53] moves to
    the next binade, any other is left as it is. *)
Lemma renorm_spec m e :
  0 <= m <= 2 ^ 53 -> -1074 <= e -> (-1074 < e -> 2 ^ 52 <= m) ->
  canon (shr_m (fst (shr_fexp prec emax m e loc_Exact))) (snd (shr_fexp prec emax m e loc_Exact)) /\
  F2R (shr_m (fst (shr_fexp prec emax m e loc_Exact))) (snd (shr_fexp prec emax m e loc_Exact))
  = F2R m e.
Proof.
  intros Hm He Hn.
  assert (Hcase : m < 2 ^ 53 \/ m = 2 ^ 53) by lia. destruct Hcase as [Hlt| ->].
  - pose proof (Zdigits2_le_53 m ltac:(lia)) as Hd.
    unfold shr_fexp, shr. rewrite fexp_eq.
    destruct (Z.max (Zdigits2 m + e - 53) (-1074) - e) as [|p|p] eqn:En; try lia;
      simpl; (split; [unfold canon; lia|reflexivity]).
  - assert (E : shr_fexp prec emax (2 ^ 53) e loc_Exact
                 = (Build_shr_record (2 ^ 52) false false, e + 1)).
    { unfold shr_fexp. rewrite fexp_eq.
      replace (Zdigits2 (2 ^ 53)) with 54 by reflexivity.
      replace (Z.max (54 + e - 53) (-1074) - e) with 1 by lia. reflexivity. }
    rewrite E. cbn [fst snd shr_m]. split.
    + unfold canon. lia.
    + rewrite F2R_shift by lia. reflexivity.
Qed.

Lemma canon_small mc ec e' :
  canon mc ec -> ec < e' -> (F2R mc ec < F2R (2 ^ 52) e')%R.
Proof.
  intros ((H0 & H1) & He & _) Hlt.
  apply Rlt_le_trans with (F2R (2 ^ 53) ec).
  - unfold F2R. apply IZR_lt in H1. pose proof (bpow_gt_0 ec). nra.
  - change (2 ^ 53) with (2 ^ 52 * 2 ^ 1). rewrite <- F2R_shift by lia.
    unfold F2R. pose proof (bpow_le (ec + 1) e' ltac:(lia)).
    assert (0 < IZR (2 ^ 52))%R by (apply IZR_lt; reflexivity). nra.
Qed.

Lemma grid_up m e mc ec :
  canon m e -> canon mc ec ->
  (F2R m e < F2R mc ec)%R -> (F2R (m + 1) e <= F2R mc ec)%R.
Proof.
  intros Hc Hcc Hlt. destruct (Z_le_gt_dec e ec) as [Hle|Hgt].
  - replace ec with (e + (ec - e)) in * by lia.
    rewrite F2R_shift in * by lia. apply F2R_lt_inv in Hlt. apply F2R_le. lia.
  - pose proof (canon_small mc ec e Hcc ltac:(lia)) as Hs.
    destruct Hc as (_ & _ & Hn). specialize (Hn ltac:(destruct Hcc as (_ & ? & _); lia)).
    apply (F2R_le _ _ e) in Hn. lra.
Qed.

Lemma grid_down m e mc ec :
  canon m e -> canon mc ec ->
  (F2R mc ec < F2R (m + 1) e)%R -> (F2R mc ec <= F2R m e)%R.
Proof.
  intros Hc Hcc Hlt. destruct (Z_le_gt_dec e ec) as [Hle|Hgt].
  - replace ec with (e + (ec - e)) in * by lia.
    rewrite F2R_shift in * by lia. apply F2R_lt_inv in Hlt. apply F2R_le. lia.
  - pose proof (canon_small mc ec e Hcc ltac:(lia)) as Hs.
    destruct Hc as (_ & _ & Hn). specialize (Hn ltac:(destruct Hcc as (_ & ? & _); lia)).
    apply (F2R_le _ _ e) in Hn. lra.
Qed.

Lemma binary_round_aux_spec s mx ex lx x :
  inbetween x mx ex lx -> ex <= fexp prec emax (Zdigits2 mx + ex) ->
  exists m e,
    binary_round_aux prec emax s mx ex lx = mk_float s m e /\ canon m e /\ rounding x m e.
Proof.
  intros Hloc Hle.
  destruct (shr_fexp_spec _ _ _ _ Hloc Hle) as (H1 & E1 & M1).
  pose proof (shifted_canon mx ex ltac:(apply Hloc) Hle) as Hc1.
  unfold binary_round_aux.
  destruct (shr_fexp prec emax mx ex lx) as [mrs1 e1]. simpl fst in *. simpl snd in *.
  rewrite <- M1, <- E1 in Hc1. clear M1 E1.
  pose proof (rne_spec _ _ _ H1) as Hm2.
  set (m2 := round_nearest_even (shr_m mrs1) (loc_of_shr_record mrs1)) in *.
  assert (Hm2r : 0 <= m2 <= 2 ^ 53 /\ (-1074 < e1 -> 2 ^ 52 <= m2))
    by (destruct Hc1 as (? & ? & ?); destruct Hm2 as [[-> _]|[-> _]]; split; lia || (intros; lia)).
  destruct (renorm_spec m2 e1 (proj1 Hm2r) ltac:(apply Hc1) (proj2 Hm2r)) as [Hc3 V3].
  destruct (shr_fexp prec emax m2 e1 loc_Exact) as [mrs3 e3]. simpl fst in *. simpl snd in *.
  exists (shr_m mrs3), e3. split; [|split; [assumption|]].
  - unfold mk_float. destruct (shr_m mrs3); reflexivity.
  - intros mc ec Hcc. rewrite V3. destruct H1 as (_ & [Hlo Hhi] & _).
    pose proof (grid_up _ _ _ _ Hc1 Hcc) as Gu. pose proof (grid_down _ _ _ _ Hc1 Hcc) as Gd.
    set (lo := F2R (shr_m mrs1) e1) in *. set (hi := F2R (shr_m mrs1 + 1) e1) in *.
    set (c := F2R mc ec) in *.
    assert (Hside : (c <= lo \/ hi <= c)%R)
      by (destruct (Rlt_dec c hi) as [Hlt|Hge]; [left; auto|right; lra]).
    destruct Hm2 as [[-> Hmid]|[-> Hmid]]; fold lo; fold hi.
    + split; [intros; lra|]. split; [intros; destruct Hside; lra|].
      unfold Rabs. repeat destruct Rcase_abs; destruct Hside; lra.
    + split; [intros; destruct Hside; lra|]. split; [intros; destruct Hside; lra|].
      unfold Rabs. repeat destruct Rcase_abs; destruct Hside; lra.
Qed.

(** Rounding to nearest is monotone. *)
Lemma rounding_mono x y m1 e1 m2 e2 :
  canon m1 e1 -> rounding x m1 e1 -> canon m2 e2 -> rounding y m2 e2 ->
  (x < y)%R -> (F2R m1 e1 <= F2R m2 e2)%R.
Proof.
  intros C1 R1 C2 R2 Hxy.
  destruct (R1 m2 e2 C2) as (_ & _ & N1). destruct (R2 m1 e1 C1) as (_ & _ & N2).
  revert N1 N2. unfold Rabs. repeat destruct Rcase_abs; lra.
Qed.

Lemma rounding_exact m e : rounding (F2R m e) m e.
Proof.
  intros mc ec _. split; [auto|]. split; [auto|].
  replace (F2R m e - F2R m e)%R with 0%R by ring. rewrite Rabs_R0. apply Rabs_pos.
Qed.

(** *** Values and order of [spec_float] *)

Definition SF2R (x : spec_float) : R :=
  match x with
  | S754_finite s m e => if s then (- F2R (Zpos m) e)%R else F2R (Zpos m) e
  | _ => 0%R
  end.

Definition SFfinite (x : spec_float) : bool :=
  match x with
  | S754_zero _ | S754_finite _ _ _ => true
  | _ => false
  end.

Abbreviation valid x := (valid_binary x = true).

Lemma F2R_pos p e : (0 < F2R (Zpos p) e)%R.
Proof.
  unfold F2R. pose proof (bpow_gt_0 e).
  assert (0 < IZR (Zpos p))%R by (apply IZR_lt; lia). nra.
Qed.

Lemma F2R_0 e : F2R 0 e = 0%R.
Proof. unfold F2R. ring. Qed.

Lemma canon_zero : canon 0 (-1074).
Proof. unfold canon. lia. Qed.

Lemma Zdigits2_ge_53 m : 2 ^ 52 <= m -> 53 <= Zdigits2 m.
Proof.
  intros H. destruct (Zdigits2_spec m ltac:(lia)) as [Hd [Hlo Hhi]].
  assert (2 ^ 52 < 2 ^ Zdigits2 m) as Hlt by lia.
  apply Z.pow_lt_mono_r_iff in Hlt; lia.
Qed.

Lemma valid_canon s m e :
  valid (S754_finite s m e) -> canon (Zpos m) e /\ e <= 971.
Proof.
  simpl. unfold bounded, canonical_mantissa. rewrite fexp_eq.
  intros H. apply andb_true_iff in H. destruct H as [H1 H2].
  apply Z.eqb_eq in H1. apply Z.leb_le in H2. change (emax - prec) with 971 in H2.
  destruct (digits2_pos_spec m) as [Hlo Hhi].
  set (d := Zpos (digits2_pos m)) in *.
  split; [|assumption]. unfold canon. split; [split; [lia|]|split; [lia|]].
  - apply Z.lt_le_trans with (1 := Hhi). apply Z.pow_le_mono_r; lia.
  - intros He. replace 52 with (53 - 1) by reflexivity.
    replace 53 with d by lia. assumption.
Qed.

Lemma canon_valid s m e : canon m e -> valid (mk_float s m e).
Proof.
  intros ((H0 & H1) & He & Hn). unfold mk_float.
  destruct m as [|p|p]; [reflexivity| |lia].
  destruct (e <=? emax - prec) eqn:Hb; [|reflexivity].
  simpl. unfold bounded, canonical_mantissa. rewrite Hb, andb_true_r, fexp_eq.
  apply Z.eqb_eq. change (Zpos (digits2_pos p)) with (Zdigits2 (Zpos p)).
  pose proof (Zdigits2_le_53 (Zpos p) ltac:(lia)).
  destruct (Z_le_gt_dec e (-1074)); [lia|].
  pose proof (Zdigits2_ge_53 (Zpos p) ltac:(lia)). lia.
Qed.

(** On normal forms the lexicographic comparison of (exponent, mantissa) is
    the comparison of the values. *)
Lemma canon_compare m1 e1 m2 e2 :
  canon (Zpos m1) e1 -> canon (Zpos m2) e2 ->
  match match e1 ?= e2 with
        | Lt => Lt
        | Gt => Gt
        | Eq => Pos.compare_cont Eq m1 m2
        end with
  | Lt => (F2R (Zpos m1) e1 < F2R (Zpos m2) e2)%R
  | Eq => F2R (Zpos m1) e1 = F2R (Zpos m2) e2
  | Gt => (F2R (Zpos m2) e2 < F2R (Zpos m1) e1)%R
  end.
Proof.
  intros H1 H2. destruct (Z.compare_spec e1 e2) as [->|Hlt|Hgt].
  - change (Pos.compare_cont Eq m1 m2) with (Pos.compare m1 m2).
    pose proof (bpow_gt_0 e2). unfold F2R.
    destruct (Pos.compare_spec m1 m2) as [->|Hm|Hm].
    + reflexivity.
    + assert (IZR (Zpos m1) < IZR (Zpos m2))%R by (apply IZR_lt; lia). nra.
    + assert (IZR (Zpos m2) < IZR (Zpos m1))%R by (apply IZR_lt; lia). nra.
  - pose proof (canon_small _ _ e2 H1 Hlt).
    destruct H2 as (_ & ? & Hn), H1 as (_ & ? & _).
    pose proof (F2R_le _ _ e2 (Hn ltac:(lia))). lra.
  - pose proof (canon_small _ _ e1 H2 ltac:(lia)).
    destruct H1 as (_ & ? & Hn), H2 as (_ & ? & _).
    pose proof (F2R_le _ _ e1 (Hn ltac:(lia))). lra.
Qed.

Lemma SFcompare_spec x y :
  valid x -> valid y -> SFfinite x = true -> SFfinite y = true ->
  match SFcompare x y with
  | Some Lt => (SF2R x < SF2R y)%R
  | Some Eq => SF2R x = SF2R y
  | Some Gt => (SF2R y < SF2R x)%R
  | None => False
  end.
Proof.
  intros Vx Vy Fx Fy.
  destruct x as [sx|sx| |sx mx ex]; try discriminate;
    destruct y as [sy|sy| |sy my ey]; try discriminate.
  - reflexivity.
  - pose proof (F2R_pos my ey). destruct sy; simpl; lra.
  - pose proof (F2R_pos mx ex). destruct sx; simpl; lra.
  - apply valid_canon in Vx, Vy. destruct Vx as [Cx _], Vy as [Cy _].
    pose proof (F2R_pos mx ex). pose proof (F2R_pos my ey).
    pose proof (canon_compare _ _ _ _ Cx Cy) as Hc.
    destruct sx, sy; simpl; try lra.
    + destruct (ex ?= ey); [destruct (Pos.compare_cont Eq mx my)| |]; simpl; lra.
    + destruct (ex ?= ey); [destruct (Pos.compare_cont Eq mx my)| |]; simpl; lra.
Qed.

Lemma SFleb_of_Rle x y :
  valid x -> valid y -> SFfinite x = true -> SFfinite y = true ->
  (SF2R x <= SF2R y)%R -> SFleb x y = true.
Proof.
  intros Vx Vy Fx Fy H. pose proof (SFcompare_spec x y Vx Vy Fx Fy) as Hc.
  unfold SFleb. destruct (SFcompare x y) as [[| |]|]; first [reflexivity | lra | contradiction].
Qed.

Lemma SFleb_Rle x y :
  valid x -> valid y -> SFfinite x = true -> SFfinite y = true ->
  SFleb x y = true -> (SF2R x <= SF2R y)%R.
Proof.
  intros Vx Vy Fx Fy H. pose proof (SFcompare_spec x y Vx Vy Fx Fy) as Hc.
  unfold SFleb in H. destruct (SFcompare x y) as [[| |]|]; first [discriminate | lra | contradiction].
Qed.

Lemma SFltb_of_Rlt x y :
  valid x -> valid y -> SFfinite x = true -> SFfinite y = true ->
  (SF2R x < SF2R y)%R -> SFltb x y = true.
Proof.
  intros Vx Vy Fx Fy H. pose proof (SFcompare_spec x y Vx Vy Fx Fy) as Hc.
  unfold SFltb. destruct (SFcompare x y) as [[| |]|]; first [reflexivity | lra | contradiction].
Qed.

Lemma SFltb_Rlt x y :
  valid x -> valid y -> SFfinite x = true -> SFfinite y = true ->
  SFltb x y = true -> (SF2R x < SF2R y)%R.
Proof.
  intros Vx Vy Fx Fy H. pose proof (SFcompare_spec x y Vx Vy Fx Fy) as Hc.
  unfold SFltb in H. destruct (SFcompare x y) as [[| |]|]; first [discriminate | lra | contradiction].
Qed.

Lemma SFcompare_opp x y : SFcompare (SFopp x) (SFopp y) = SFcompare y x.
Proof.
  destruct x as [sx|sx| |sx mx ex], y as [sy|sy| |sy my ey]; simpl;
    try reflexivity; try (destruct sx; reflexivity); try (destruct sy; reflexivity);
    try (destruct sx, sy; reflexivity).
  change (Pos.compare_cont Eq mx my) with (Pos.compare mx my).
  change (Pos.compare_cont Eq my mx) with (Pos.compare my mx).
  rewrite (Z.compare_antisym ex ey), (Pos.compare_antisym mx my).
  destruct sx, sy; simpl; try reflexivity;
    destruct (ex ?= ey); simpl; try reflexivity; destruct (mx ?= my)%positive; reflexivity.
Qed.

Lemma SFleb_opp x y : SFleb (SFopp x) (SFopp y) = SFleb y x.
Proof. unfold SFleb. rewrite SFcompare_opp. reflexivity. Qed.

Lemma SFopp_involutive x : SFopp (SFopp x) = x.
Proof. destruct x as [s|s| |s m e]; simpl; rewrite ?negb_involutive; reflexivity. Qed.

Lemma SF2R_opp x : SF2R (SFopp x) = (- SF2R x)%R.
Proof. destruct x as [s|s| |[|] m e]; simpl; lra. Qed.

Lemma valid_opp x : valid_binary (SFopp x) = valid_binary x.
Proof. destruct x; reflexivity. Qed.

Lemma SFfinite_opp x : SFfinite (SFopp x) = SFfinite x.
Proof. destruct x; reflexivity. Qed.

(** *** Correct rounding, as seen from the binary64 numbers *)

(** [bounds X r]: every finite float [c] that bounds the real [X] bounds the
    float [r] on the same side. *)
Definition bounds (X : R) (r : spec_float) : Prop :=
  valid r /\
  forall c, valid c -> SFfinite c = true ->
    ((X <= SF2R c)%R -> SFleb r c = true) /\ ((SF2R c <= X)%R -> SFleb c r = true).

(** [rounds_to X r]: the float [r] is the real [X] rounded to nearest, with
    the sign of [X] and an infinity on overflow. *)
Definition rounds_to (X : R) (r : spec_float) : Prop :=
  exists (s : bool) (x : R) (m e : Z),
    (0 <= x)%R /\ X = (if s then (- x)%R else x) /\ canon m e /\ rounding x m e /\
    r = mk_float s m e.

Lemma bounds_opp X r : bounds X r -> bounds (- X) (SFopp r).
Proof.
  intros [V H]. split; [rewrite valid_opp; assumption|].
  intros c Vc Fc. specialize (H (SFopp c)). rewrite valid_opp, SFfinite_opp, SF2R_opp in H.
  destruct (H Vc Fc) as [H1 H2].
  assert (E1 : SFleb (SFopp r) c = SFleb (SFopp c) r)
    by (rewrite <- (SFleb_opp r (SFopp c)), SFopp_involutive; reflexivity).
  assert (E2 : SFleb c (SFopp r) = SFleb r (SFopp c))
    by (rewrite <- (SFleb_opp (SFopp c) r), SFopp_involutive; reflexivity).
  rewrite E1, E2. split; intros Hx; [apply H2|apply H1]; lra.
Qed.

Lemma mk_float_opp m e : mk_float true m e = SFopp (mk_float false m e).
Proof.
  unfold mk_float. destruct m; [reflexivity| |reflexivity].
  destruct (e <=? emax - prec); reflexivity.
Qed.

Lemma mk_float_pos_finite p e :
  canon (Zpos p) e -> e <= 971 ->
  mk_float false (Zpos p) e = S754_finite false p e /\ valid (S754_finite false p e).
Proof.
  intros Hc He. pose proof (canon_valid false _ _ Hc) as V. unfold mk_float in *.
  change (emax - prec) with 971 in *.
  destruct (Z.leb_spec e 971); [auto|lia].
Qed.

Lemma bounds_pos x m e :
  (0 <= x)%R -> canon m e -> rounding x m e -> bounds x (mk_float false m e).
Proof.
  intros Hx Hc Hr. split; [apply canon_valid; assumption|].
  intros c Vc Fc.
  assert (Hm : 0 <= m) by apply Hc.
  destruct c as [sc|sc| |sc mc ec]; try discriminate.
  - (* the bound is a zero *)
    destruct (Hr 0 (-1074) canon_zero) as (Hup & _ & _). rewrite F2R_0 in Hup. simpl SF2R.
    split; intros H.
    + specialize (Hup H). assert (m <= 0) as Hm0.
      { apply (F2R_le_inv m 0 e). rewrite F2R_0. assumption. }
      assert (m = 0) as -> by lia. reflexivity.
    + unfold mk_float. destruct m as [|p|p]; [reflexivity| |lia].
      destruct (e <=? emax - prec); reflexivity.
  - destruct (valid_canon _ _ _ Vc) as [Cc Hec].
    destruct (Hr (Zpos mc) ec Cc) as (Hup & Hdown & _).
    pose proof (F2R_pos mc ec) as Hpc.
    destruct sc; simpl SF2R.
    + (* a negative bound *)
      split; intros H; [lra|].
      unfold mk_float. destruct m as [|p|p]; [reflexivity| |lia].
      destruct (e <=? emax - prec); reflexivity.
    + split; intros H.
      * specialize (Hup H). destruct m as [|p|p]; [reflexivity| |lia].
        destruct (Z_le_gt_dec e 971) as [Hle|Hgt].
        -- destruct (mk_float_pos_finite p e Hc Hle) as [-> V].
           apply SFleb_of_Rle; try reflexivity; assumption.
        -- pose proof (canon_small _ _ e Cc ltac:(lia)) as Hs.
           destruct Hc as (_ & _ & Hn). pose proof (F2R_le _ _ e (Hn ltac:(lia))). lra.
      * specialize (Hdown H). destruct m as [|p|p]; [|  |lia].
        -- rewrite F2R_0 in Hdown. lra.
        -- destruct (Z_le_gt_dec e 971) as [Hle|Hgt].
           ++ destruct (mk_float_pos_finite p e Hc Hle) as [-> V].
              apply SFleb_of_Rle; try reflexivity; assumption.
           ++ unfold mk_float. change (emax - prec) with 971.
              destruct (Z.leb_spec e 971); [lia|reflexivity].
Qed.

Lemma rounds_to_bounds X r : rounds_to X r -> bounds X r.
Proof.
  intros (s & x & m & e & Hx & -> & Hc & Hr & ->). destruct s.
  - rewrite mk_float_opp. apply bounds_opp, bounds_pos; assumption.
  - apply bounds_pos; assumption.
Qed.

Lemma rounds_to_valid X r : rounds_to X r -> valid r.
Proof. intros H. apply (rounds_to_bounds _ _ H). Qed.

Lemma rounds_to_le X r c :
  rounds_to X r -> valid c -> SFfinite c = true -> (X <= SF2R c)%R -> SFleb r c = true.
Proof. intros H Vc Fc. apply (proj2 (rounds_to_bounds _ _ H) c Vc Fc). Qed.

Lemma rounds_to_ge X r c :
  rounds_to X r -> valid c -> SFfinite c = true -> (SF2R c <= X)%R -> SFleb c r = true.
Proof. intros H Vc Fc. apply (proj2 (rounds_to_bounds _ _ H) c Vc Fc). Qed.

(** A rounded result is never a NaN. *)
Lemma rounds_to_not_nan X r : rounds_to X r -> r <> S754_nan.
Proof.
  intros H ->. destruct (Rle_dec X 0) as [Hle|Hgt].
  - pose proof (rounds_to_le _ _ (S754_zero false) H eq_refl eq_refl Hle). discriminate.
  - pose proof (rounds_to_ge _ _ (S754_zero false) H eq_refl eq_refl ltac:(simpl; lra)).
    discriminate.
Qed.

Lemma rounds_to_ext (X Y : R) r : X = Y -> rounds_to X r -> rounds_to Y r.
Proof. intros ->. auto. Qed.

Lemma rounds_to_zero s : rounds_to 0 (S754_zero s).
Proof.
  exists s, 0%R, 0, (-1074). split; [lra|]. split; [destruct s; lra|].
  split; [apply canon_zero|]. split; [|reflexivity].
  rewrite <- (F2R_0 (-1074)) at 1. apply rounding_exact.
Qed.

Lemma rounds_to_self r : valid r -> SFfinite r = true -> rounds_to (SF2R r) r.
Proof.
  intros V F. destruct r as [s|s| |s m e]; try discriminate.
  - apply rounds_to_zero.
  - destruct (valid_canon _ _ _ V) as [Hc He].
    exists s, (F2R (Zpos m) e), (Zpos m), e.
    split; [pose proof (F2R_pos m e); lra|]. split; [reflexivity|].
    split; [assumption|]. split; [apply rounding_exact|].
    unfold mk_float. change (emax - prec) with 971.
    destruct (Z.leb_spec e 971); [reflexivity|lia].
Qed.

(** Order of the floats that normal forms denote. *)
Lemma mk_float_le m1 e1 m2 e2 :
  canon m1 e1 -> canon m2 e2 -> (F2R m1 e1 <= F2R m2 e2)%R ->
  SFleb (mk_float false m1 e1) (mk_float false m2 e2) = true.
Proof.
  intros C1 C2 H.
  assert (H1 : 0 <= m1) by apply C1. assert (H2 : 0 <= m2) by apply C2.
  destruct m1 as [|p1|p1]; [|  |lia].
  - unfold mk_float. destruct m2 as [|p2|p2]; [reflexivity| |lia].
    destruct (e2 <=? emax - prec); reflexivity.
  - destruct m2 as [|p2|p2]; [|  |lia].
    + rewrite F2R_0 in H. pose proof (F2R_pos p1 e1). lra.
    + pose proof (canon_compare _ _ _ _ C1 C2) as Hc.
      destruct (Z_le_gt_dec e2 971) as [Hle2|Hgt2].
      * assert (e1 <= e2) as He.
        { destruct (Z.compare_spec e1 e2); try lia. lra. }
        destruct (mk_float_pos_finite p1 e1 C1 ltac:(lia)) as [-> V1].
        destruct (mk_float_pos_finite p2 e2 C2 Hle2) as [-> V2].
        apply SFleb_of_Rle; try reflexivity; assumption.
      * unfold mk_float. change (emax - prec) with 971.
        destruct (Z.leb_spec e2 971); [lia|].
        destruct (e1 <=? 971); reflexivity.
Qed.

Lemma mk_float_neg_pos m1 e1 m2 e2 :
  canon m1 e1 -> canon m2 e2 ->
  SFleb (mk_float true m1 e1) (mk_float false m2 e2) = true.
Proof.
  intros C1 C2.
  assert (H1 : 0 <= m1) by apply C1. assert (H2 : 0 <= m2) by apply C2.
  unfold mk_float. destruct m1 as [|p1|p1], m2 as [|p2|p2]; try lia;
    repeat match goal with |- context [?a <=? ?b] => destruct (a <=? b) end; reflexivity.
Qed.

(** Rounding is monotone, overflow included. *)
Lemma rounds_to_mono X Y rx ry :
  rounds_to X rx -> rounds_to Y ry -> (X < Y)%R -> SFleb rx ry = true.
Proof.
  intros (sx & x & m1 & e1 & Hx & -> & C1 & R1 & ->)
         (sy & y & m2 & e2 & Hy & -> & C2 & R2 & ->) Hlt.
  destruct sx, sy.
  - rewrite !mk_float_opp, SFleb_opp. apply mk_float_le; try assumption.
    apply (rounding_mono y x); try assumption. lra.
  - apply mk_float_neg_pos; assumption.
  - lra.
  - apply mk_float_le; try assumption. apply (rounding_mono x y); assumption.
Qed.

(** *** The four operations round correctly *)

Lemma inbetween_exact m e : 0 <= m -> inbetween (F2R m e) m e loc_Exact.
Proof.
  intros Hm. unfold inbetween, located. simpl. split; [assumption|]. split; [|reflexivity].
  split; [lra|]. unfold F2R. rewrite plus_IZR. pose proof (bpow_gt_0 e). nra.
Qed.

Lemma F2R_mul m1 e1 m2 e2 : F2R (m1 * m2) (e1 + e2) = (F2R m1 e1 * F2R m2 e2)%R.
Proof. unfold F2R. rewrite mult_IZR, bpow_add. ring. Qed.

Lemma SFmul_rounds x y :
  valid x -> valid y -> SFfinite x = true -> SFfinite y = true ->
  rounds_to (SF2R x * SF2R y) (SFmul prec emax x y).
Proof.
  intros Vx Vy Fx Fy.
  destruct x as [sx|sx| |sx mx ex]; try discriminate;
    destruct y as [sy|sy| |sy my ey]; try discriminate; simpl SFmul; simpl SF2R;
    try (eapply rounds_to_ext; [|apply rounds_to_zero]; ring).
  destruct (valid_canon _ _ _ Vx) as [Cx _]. destruct (valid_canon _ _ _ Vy) as [Cy _].
  destruct (binary_round_aux_spec (xorb sx sy) (Zpos (mx * my)) (ex + ey) loc_Exact
              (F2R (Zpos (mx * my)) (ex + ey))) as (m & e & E & Hc & Hr).
  - apply inbetween_exact. lia.
  - rewrite fexp_eq. destruct Cx as (_ & Hex & Hnx), Cy as (_ & Hey & Hny).
    destruct (Z_le_gt_dec (ex + ey) (-1074)) as [|Hgt]; [lia|].
    assert (2 ^ 52 <= Zpos (mx * my)) as Hbig.
    { rewrite Pos2Z.inj_mul. destruct (Z_le_gt_dec ex (-1074)).
      - specialize (Hny ltac:(lia)). nia.
      - specialize (Hnx ltac:(lia)). nia. }
    pose proof (Zdigits2_ge_53 _ Hbig). lia.
  - exists (xorb sx sy), (F2R (Zpos (mx * my)) (ex + ey)), m, e.
    split; [pose proof (F2R_pos (mx * my) (ex + ey)); lra|].
    split; [|auto].
    rewrite Pos2Z.inj_mul, F2R_mul. destruct sx, sy; simpl; ring.
Qed.

Lemma shift_pos_Z m d : Zpos (Pos.iter xO m d) = Zpos m * 2 ^ Zpos d.
Proof.
  change (Pos.iter xO m d) with (shift_pos d m).
  rewrite shift_pos_correct. change (Z.pow_pos 2 d) with (2 ^ Zpos d). lia.
Qed.

Lemma shl_align_spec m e e' :
  snd (shl_align m e e') = Z.min e e' /\
  Zpos (fst (shl_align m e e')) = Zpos m * 2 ^ (e - Z.min e e').
Proof.
  unfold shl_align. destruct (e' - e) as [|d|d] eqn:Ed; simpl fst; simpl snd.
  - replace (e - Z.min e e') with 0 by lia. split; lia.
  - replace (e - Z.min e e') with 0 by lia. split; lia.
  - rewrite shift_pos_Z. replace (e - Z.min e e') with (Zpos d) by lia. split; lia.
Qed.

Lemma F2R_align m e e' : e' <= e -> F2R (m * 2 ^ (e - e')) e' = F2R m e.
Proof.
  intros H. rewrite <- F2R_shift by lia. f_equal. lia.
Qed.

Lemma binary_round_spec s m e :
  exists m' e',
    binary_round prec emax s m e = mk_float s m' e' /\ canon m' e' /\
    rounding (F2R (Zpos m) e) m' e'.
Proof.
  unfold binary_round.
  destruct (shl_align_spec m e (fexp prec emax (Zpos (digits2_pos m) + e))) as [E2 E1].
  destruct (shl_align m e (fexp prec emax (Zpos (digits2_pos m) + e))) as [mz ez].
  simpl fst in *. simpl snd in *.
  assert (Hv : F2R (Zpos mz) ez = F2R (Zpos m) e).
  { rewrite E1, E2. apply F2R_align. lia. }
  rewrite <- Hv.
  apply binary_round_aux_spec.
  - apply inbetween_exact. lia.
  - rewrite fexp_eq in *. change (Zpos (digits2_pos m)) with (Zdigits2 (Zpos m)) in *.
    destruct (Zdigits2_spec (Zpos m) ltac:(lia)) as [Hd [Hlo Hhi]].
    set (d := Zdigits2 (Zpos m)) in *.
    destruct (Z_le_gt_dec ez (-1074)) as [|Hgt]; [lia|].
    destruct (Z_le_gt_dec (Z.max (d + e - 53) (-1074)) e) as [Hfe|Hfe].
    + (* shifted left up to 53 bits *)
      assert (ez = d + e - 53) as Hez by lia.
      assert (2 ^ 52 <= Zpos mz) as Hbig.
      { rewrite E1.
        replace (e - Z.min e (Z.max (d + e - 53) (-1074))) with (53 - d) by lia.
        assert (2 ^ (d - 1) * 2 ^ (53 - d) = 2 ^ 52) as Hp
          by (rewrite <- Z.pow_add_r by lia; f_equal; lia).
        assert (0 < 2 ^ (53 - d)) by (apply Z.pow_pos_nonneg; lia). nia. }
      pose proof (Zdigits2_ge_53 _ Hbig). lia.
    + (* left as it is *)
      assert (ez = e) as Hez by lia.
      replace (e - Z.min e (Z.max (d + e - 53) (-1074))) with 0 in E1 by lia.
      assert (Zpos mz = Zpos m) as Hmz by lia. rewrite Hmz. fold d. lia.
Qed.

Lemma F2R_plus a b e : F2R (a + b) e = (F2R a e + F2R b e)%R.
Proof. unfold F2R. rewrite plus_IZR. ring. Qed.

Lemma F2R_cond_Zopp (s : bool) m e :
  F2R (cond_Zopp s m) e = if s then (- F2R m e)%R else F2R m e.
Proof. unfold F2R. destruct s; simpl; [rewrite opp_IZR; ring|reflexivity]. Qed.

Lemma binary_normalize_rounds m e :
  rounds_to (F2R m e) (binary_normalize prec emax m e false).
Proof.
  destruct m as [|p|p]; simpl binary_normalize.
  - rewrite F2R_0. apply rounds_to_zero.
  - destruct (binary_round_spec false p e) as (m' & e' & -> & Hc & Hr).
    exists false, (F2R (Zpos p) e), m', e'.
    split; [pose proof (F2R_pos p e); lra|auto].
  - destruct (binary_round_spec true p e) as (m' & e' & -> & Hc & Hr).
    exists true, (F2R (Zpos p) e), m', e'.
    split; [pose proof (F2R_pos p e); lra|]. split; [|auto].
    unfold F2R. change (Zneg p) with (- Zpos p). rewrite opp_IZR. ring.
Qed.

Lemma SFadd_rounds x y :
  valid x -> valid y -> SFfinite x = true -> SFfinite y = true ->
  rounds_to (SF2R x + SF2R y) (SFadd prec emax x y).
Proof.
  intros Vx Vy Fx Fy.
  destruct x as [sx|sx| |sx mx ex]; try discriminate;
    destruct y as [sy|sy| |sy my ey]; try discriminate.
  - destruct sx, sy; simpl SFadd; simpl SF2R;
      (eapply rounds_to_ext; [|apply rounds_to_zero]; ring).
  - eapply rounds_to_ext; [|apply (rounds_to_self (S754_finite sy my ey)); auto].
    simpl SF2R. ring.
  - eapply rounds_to_ext; [|apply (rounds_to_self (S754_finite sx mx ex)); auto].
    simpl SF2R. ring.
  - unfold SFadd.
    destruct (shl_align_spec mx ex (Z.min ex ey)) as [_ Ex].
    destruct (shl_align_spec my ey (Z.min ex ey)) as [_ Ey].
    eapply rounds_to_ext; [|apply binary_normalize_rounds].
    rewrite F2R_plus, !F2R_cond_Zopp, Ex, Ey.
    replace (Z.min ex (Z.min ex ey)) with (Z.min ex ey) by lia.
    replace (Z.min ey (Z.min ex ey)) with (Z.min ex ey) by lia.
    rewrite !F2R_align by lia. reflexivity.
Qed.

Lemma SFsub_add_opp x y : SFsub prec emax x y = SFadd prec emax x (SFopp y).
Proof.
  destruct x as [sx|sx| |sx mx ex], y as [sy|sy| |sy my ey]; simpl;
    try reflexivity; destruct sx, sy; reflexivity.
Qed.

Lemma SFsub_rounds x y :
  valid x -> valid y -> SFfinite x = true -> SFfinite y = true ->
  rounds_to (SF2R x - SF2R y) (SFsub prec emax x y).
Proof.
  intros Vx Vy Fx Fy. rewrite SFsub_add_opp.
  eapply rounds_to_ext; [|apply SFadd_rounds; rewrite ?valid_opp, ?SFfinite_opp; assumption].
  rewrite SF2R_opp. ring.
Qed.

Lemma new_location_spec d r :
  0 < d -> 0 <= r < d ->
  match new_location d r with
  | loc_Exact => r = 0
  | loc_Inexact Lt => 0 < r /\ 2 * r < d
  | loc_Inexact Eq => 2 * r = d
  | loc_Inexact Gt => d < 2 * r
  end.
Proof.
  intros Hd Hr. unfold new_location, new_location_even, new_location_odd.
  destruct (Z.even d) eqn:Hev; destruct (Z.eqb_spec r 0) as [|Hne]; try assumption.
  - destruct (Z.compare_spec (2 * r) d); lia.
  - assert (Hodd : Z.odd d = true) by (rewrite <- Z.negb_even, Hev; reflexivity).
    apply Z.odd_spec in Hodd. destruct Hodd as [k Hk].
    destruct (Z.compare_spec (2 * r + 1) d); lia.
Qed.

Lemma SFdiv_core_spec mx ex my ey :
  let '(q, e', l) := SFdiv_core_binary prec emax (Zpos mx) ex (Zpos my) ey in
  inbetween (F2R (Zpos mx) ex / F2R (Zpos my) ey) q e' l /\
  e' <= fexp prec emax (Zdigits2 q + e').
Proof.
  unfold SFdiv_core_binary. rewrite !fexp_eq.
  destruct (Zdigits2_spec (Zpos mx) ltac:(lia)) as [Hd1 [Hlo1 Hhi1]].
  destruct (Zdigits2_spec (Zpos my) ltac:(lia)) as [Hd2 [Hlo2 Hhi2]].
  set (d1 := Zdigits2 (Zpos mx)) in *. set (d2 := Zdigits2 (Zpos my)) in *.
  set (e' := Z.min (Z.max (d1 + ex - (d2 + ey) - 53) (-1074)) (ex - ey)).
  set (s := ex - ey - e').
  assert (Hs : 0 <= s) by (unfold s, e'; lia).
  set (m' := match s with Zpos _ => Z.shiftl (Zpos mx) s | Z0 => Zpos mx | Zneg _ => 0 end).
  assert (Hm' : m' = Zpos mx * 2 ^ s).
  { unfold m'. destruct s as [|p|p]; try lia. apply Z.shiftl_mul_pow2. lia. }
  clearbody m'.
  pose proof (Z_div_mod m' (Zpos my) ltac:(lia)) as Hdiv.
  destruct (Z.div_eucl m' (Zpos my)) as [q r]. destruct Hdiv as [Hq Hr].
  assert (Hpw : 0 < 2 ^ s) by (apply Z.pow_pos_nonneg; lia).
  assert (Hq0 : 0 <= q) by nia.
  split.
  - (* the quotient and the remainder locate the real quotient *)
    assert (Hx : (F2R (Zpos mx) ex / F2R (Zpos my) ey
                  = (IZR m' / IZR (Zpos my)) * bpow e')%R).
    { unfold F2R. replace ex with (ey + (e' + s)) at 1 by (unfold s; lia).
      rewrite !bpow_add, (bpow_IZR s), Hm', mult_IZR by lia.
      pose proof (bpow_gt_0 ey). assert (0 < IZR (Zpos my))%R by (apply IZR_lt; lia).
      field. split; lra. }
    rewrite Hx, Hq, plus_IZR, mult_IZR.
    pose proof (new_location_spec (Zpos my) r ltac:(lia) Hr) as Hl.
    unfold inbetween, located, F2R. rewrite plus_IZR.
    pose proof (bpow_gt_0 e') as Hb. assert (Hy : (0 < IZR (Zpos my))%R) by (apply IZR_lt; lia).
    assert (Hr0 : (0 <= IZR r)%R) by (apply IZR_le; lia).
    assert (Hr1 : (IZR r < IZR (Zpos my))%R) by (apply IZR_lt; lia).
    set (Y := IZR (Zpos my)) in *. set (Rr := IZR r) in *. set (Q := IZR q).
    set (B := bpow e') in *.
    assert (E : ((Y * Q + Rr) / Y * B = Q * B + (Rr / Y) * B)%R) by (field; lra).
    rewrite E.
    assert (Hinv : (0 < / Y)%R) by (apply Rinv_0_lt_compat; lra).
    assert (EF : (Rr / Y * Y = Rr)%R) by (field; lra).
    set (F := (Rr / Y)%R) in *.
    assert (H0 : (0 <= F)%R) by (unfold F, Rdiv; nra).
    assert (H1 : (F < 1)%R) by nra.
    split; [assumption|]. split; [split; nra|].
    destruct (new_location (Zpos my) r) as [|[| |]]; simpl.
    + subst r. assert (F = 0)%R as -> by (unfold F, Rr, Rdiv; simpl; ring). ring.
    + assert (2 * Rr = Y)%R as Hh by (unfold Rr, Y; rewrite <- Hl, mult_IZR; reflexivity).
      assert (2 * F = 1)%R by nra. nra.
    + destruct Hl as [Hl1 Hl2].
      assert (0 < Rr)%R by (apply IZR_lt; lia).
      assert (2 * Rr < Y)%R by (unfold Rr, Y; rewrite <- mult_IZR; apply IZR_lt; lia).
      assert (0 < F)%R by (unfold F, Rdiv; nra).
      assert (2 * F < 1)%R by nra. split; nra.
    + assert (Y < 2 * Rr)%R by (unfold Rr, Y; rewrite <- mult_IZR; apply IZR_lt; lia).
      assert (1 < 2 * F)%R by nra. nra.
  - rewrite fexp_eq. destruct (Z_le_gt_dec e' (-1074)) as [|Hgt]; [lia|].
    assert (Hds : 53 + d2 <= d1 + s) by (unfold s, e' in *; lia).
    assert (Hbig : 2 ^ 52 <= q).
    { assert (2 ^ 52 * 2 ^ d2 <= 2 ^ (d1 - 1) * 2 ^ s) as Hp.
      { rewrite <- !Z.pow_add_r by lia. apply Z.pow_le_mono_r; lia. }
      assert (0 < 2 ^ 52) by reflexivity.
      destruct (Z_le_gt_dec (2 ^ 52) q) as [|Hlt]; [assumption|exfalso].
      assert (q + 1 <= 2 ^ 52) as Hq1 by lia.
      assert (Zpos my * (q + 1) <= Zpos my * 2 ^ 52) by (apply Z.mul_le_mono_nonneg_l; lia).
      assert (Zpos my * 2 ^ 52 < 2 ^ d2 * 2 ^ 52) by (apply Z.mul_lt_mono_pos_r; lia).
      assert (2 ^ (d1 - 1) * 2 ^ s <= Zpos mx * 2 ^ s) by (apply Z.mul_le_mono_nonneg_r; lia).
      lia. }
    pose proof (Zdigits2_ge_53 _ Hbig). lia.
Qed.

Lemma SFdiv_rounds x sy my ey :
  SFfinite x = true ->
  rounds_to (SF2R x / SF2R (S754_finite sy my ey)) (SFdiv prec emax x (S754_finite sy my ey)).
Proof.
  intros Fx. pose proof (F2R_pos my ey) as Hy.
  destruct x as [sx|sx| |sx mx ex]; try discriminate.
  - simpl SFdiv. eapply rounds_to_ext; [|apply rounds_to_zero].
    simpl. unfold Rdiv. ring.
  - unfold SFdiv. pose proof (SFdiv_core_spec mx ex my ey) as Hcore.
    destruct (SFdiv_core_binary prec emax (Zpos mx) ex (Zpos my) ey) as [[q e'] l].
    destruct Hcore as [Hloc Hle].
    destruct (binary_round_aux_spec (xorb sx sy) q e' l _ Hloc Hle) as (m & e & -> & Hc & Hr).
    pose proof (F2R_pos mx ex) as Hx.
    exists (xorb sx sy), (F2R (Zpos mx) ex / F2R (Zpos my) ey)%R, m, e.
    split; [apply Rlt_le, Rdiv_lt_0_compat; assumption|]. split; [|auto].
    destruct sx, sy; simpl; field; lra.
Qed.

(** *** Primitive floats *)

#[local] Open Scope float_scope.

(** The real value of a float (0 for an infinity or a NaN). *)
Definition B2R (x : float) : R := SF2R (Prim2SF x).

(** A zero or a finite non zero number. *)
Definition finite (x : float) : bool := SFfinite (Prim2SF x).

Definition rounds (X : R) (r : float) : Prop := rounds_to X (Prim2SF r).

Lemma mul_rounds x y :
  finite x = true -> finite y = true -> rounds (B2R x * B2R y) (x * y).
Proof.
  intros Fx Fy. unfold rounds. rewrite FloatAxioms.mul_spec.
  apply SFmul_rounds; auto using Prim2SF_valid.
Qed.

Lemma add_rounds x y :
  finite x = true -> finite y = true -> rounds (B2R x + B2R y) (x + y).
Proof.
  intros Fx Fy. unfold rounds. rewrite FloatAxioms.add_spec.
  apply SFadd_rounds; auto using Prim2SF_valid.
Qed.

Lemma sub_rounds x y :
  finite x = true -> finite y = true -> rounds (B2R x - B2R y) (x - y).
Proof.
  intros Fx Fy. unfold rounds. rewrite FloatAxioms.sub_spec.
  apply SFsub_rounds; auto using Prim2SF_valid.
Qed.

Lemma B2R_nonzero_finite y :
  B2R y <> 0%R -> exists s m e, Prim2SF y = S754_finite s m e.
Proof.
  unfold B2R. destruct (Prim2SF y) as [s|s| |s m e]; simpl; try (intros H; exfalso; apply H; reflexivity).
  intros _. eauto.
Qed.

Lemma div_rounds x y :
  finite x = true -> B2R y <> 0%R -> rounds (B2R x / B2R y) (x / y).
Proof.
  intros Fx Hy. unfold rounds. rewrite FloatAxioms.div_spec.
  destruct (B2R_nonzero_finite y Hy) as (s & m & e & E). unfold B2R. rewrite E.
  apply SFdiv_rounds. assumption.
Qed.

Lemma leb_of_Rle x y :
  finite x = true -> finite y = true -> (B2R x <= B2R y)%R -> (x <=? y) = true.
Proof. intros. rewrite FloatAxioms.leb_spec. apply SFleb_of_Rle; auto using Prim2SF_valid. Qed.

Lemma leb_Rle x y :
  finite x = true -> finite y = true -> (x <=? y) = true -> (B2R x <= B2R y)%R.
Proof. intros ? ? H. rewrite FloatAxioms.leb_spec in H. apply SFleb_Rle; auto using Prim2SF_valid. Qed.

Lemma ltb_of_Rlt x y :
  finite x = true -> finite y = true -> (B2R x < B2R y)%R -> (x <? y) = true.
Proof. intros. rewrite FloatAxioms.ltb_spec. apply SFltb_of_Rlt; auto using Prim2SF_valid. Qed.

Lemma ltb_Rlt x y :
  finite x = true -> finite y = true -> (x <? y) = true -> (B2R x < B2R y)%R.
Proof. intros ? ? H. rewrite FloatAxioms.ltb_spec in H. apply SFltb_Rlt; auto using Prim2SF_valid. Qed.

Lemma rounds_le X r c :
  rounds X r -> finite c = true -> (X <= B2R c)%R -> (r <=? c) = true.
Proof. intros H Fc Hx. rewrite FloatAxioms.leb_spec. eapply rounds_to_le; eauto using Prim2SF_valid. Qed.

Lemma rounds_ge X r c :
  rounds X r -> finite c = true -> (B2R c <= X)%R -> (c <=? r) = true.
Proof. intros H Fc Hx. rewrite FloatAxioms.leb_spec. eapply rounds_to_ge; eauto using Prim2SF_valid. Qed.

Lemma rounds_mono X Y rx ry :
  rounds X rx -> rounds Y ry -> (X < Y)%R -> (rx <=? ry) = true.
Proof. intros Hx Hy Hlt. rewrite FloatAxioms.leb_spec. eapply rounds_to_mono; eauto. Qed.

Lemma is_nan_spec x : is_nan x = true <-> Prim2SF x = S754_nan.
Proof.
  unfold is_nan. rewrite FloatAxioms.eqb_spec. unfold SFeqb.
  destruct (Prim2SF x) as [s|s| |s m e]; simpl.
  - split; discriminate.
  - destruct s; split; discriminate.
  - split; reflexivity.
  - rewrite Z.compare_refl. change (Pos.compare_cont Eq m m) with (Pos.compare m m).
    rewrite Pos.compare_refl. destruct s; split; discriminate.
Qed.

Lemma rounds_not_nan X r : rounds X r -> is_nan r = false.
Proof.
  intros H. destruct (is_nan r) eqn:E; [|reflexivity].
  apply is_nan_spec in E. exfalso. exact (rounds_to_not_nan _ _ H E).
Qed.

Lemma leb_not_nan_l x y : (x <=? y) = true -> is_nan x = false.
Proof.
  rewrite FloatAxioms.leb_spec. intros H. destruct (is_nan x) eqn:E; [|reflexivity].
  apply is_nan_spec in E. rewrite E in H. discriminate.
Qed.

Lemma leb_not_nan_r x y : (x <=? y) = true -> is_nan y = false.
Proof.
  rewrite FloatAxioms.leb_spec. intros H. destruct (is_nan y) eqn:E; [|reflexivity].
  apply is_nan_spec in E. rewrite E in H. destruct (Prim2SF x); discriminate.
Qed.

Lemma ltb_leb x y : (x <? y) = true -> (x <=? y) = true.
Proof.
  rewrite FloatAxioms.ltb_spec, FloatAxioms.leb_spec. unfold SFltb, SFleb.
  destruct (SFcompare _ _) as [[| |]|]; auto.
Qed.

(** The floats that are not NaN are totally ordered. *)
Lemma SFcompare_total x y :
  x <> S754_nan -> y <> S754_nan -> SFcompare x y <> None.
Proof.
  destruct x as [sx|sx| |sx mx ex], y as [sy|sy| |sy my ey]; simpl; congruence.
Qed.

Lemma SFcompare_antisym x y :
  SFcompare y x = option_map CompOpp (SFcompare x y).
Proof.
  destruct x as [sx|sx| |sx mx ex], y as [sy|sy| |sy my ey]; simpl;
    try reflexivity; try (destruct sx; reflexivity); try (destruct sy; reflexivity);
    try (destruct sx, sy; reflexivity).
  change (Pos.compare_cont Eq mx my) with (Pos.compare mx my).
  change (Pos.compare_cont Eq my mx) with (Pos.compare my mx).
  rewrite (Z.compare_antisym ex ey), (Pos.compare_antisym mx my).
  destruct sx, sy; simpl; try reflexivity;
    destruct (ex ?= ey)%Z; simpl; try reflexivity; destruct (mx ?= my)%positive; reflexivity.
Qed.

Lemma not_ltb_leb x y :
  is_nan x = false -> is_nan y = false -> (x <? y) = false -> (y <=? x) = true.
Proof.
  intros Nx Ny. rewrite FloatAxioms.ltb_spec, FloatAxioms.leb_spec. unfold SFltb, SFleb.
  assert (Hx : Prim2SF x <> S754_nan) by (intros E; apply is_nan_spec in E; congruence).
  assert (Hy : Prim2SF y <> S754_nan) by (intros E; apply is_nan_spec in E; congruence).
  pose proof (SFcompare_total _ _ Hx Hy) as Ht.
  rewrite (SFcompare_antisym (Prim2SF x) (Prim2SF y)).
  destruct (SFcompare (Prim2SF x) (Prim2SF y)) as [[| |]|]; simpl; congruence.
Qed.

(** *** Bounds that survive the operations

    The lemmas below are closed under the infinities: a float bounded above
    by a finite float is finite or the negative infinity. *)

Lemma SF2R_eq_cases x a :
  valid x -> valid a -> SFfinite x = true -> SFfinite a = true -> SF2R x = SF2R a ->
  x = a \/ exists s1 s2, x = S754_zero s1 /\ a = S754_zero s2.
Proof.
  intros Vx Va Fx Fa E.
  destruct x as [sx|sx| |sx mx ex]; try discriminate;
    destruct a as [sa|sa| |sa ma ea]; try discriminate; simpl in E.
  - right. eauto.
  - pose proof (F2R_pos ma ea). destruct sa; lra.
  - pose proof (F2R_pos mx ex). destruct sx; lra.
  - left. destruct (valid_canon _ _ _ Vx) as [Cx _]. destruct (valid_canon _ _ _ Va) as [Ca _].
    pose proof (F2R_pos mx ex). pose proof (F2R_pos ma ea).
    pose proof (canon_compare _ _ _ _ Cx Ca) as Hc.
    assert (Hs : sx = sa) by (destruct sx, sa; try reflexivity; lra).
    subst sa.
    assert (Hv : F2R (Zpos mx) ex = F2R (Zpos ma) ea) by (destruct sx; lra).
    destruct (Z.compare_spec ex ea) as [->|?|?]; try lra.
    change (Pos.compare_cont Eq mx ma) with (Pos.compare mx ma) in Hc.
    destruct (Pos.compare_spec mx ma) as [->|?|?]; try lra. reflexivity.
Qed.

Lemma SFcompare_refl x : x <> S754_nan -> SFcompare x x = Some Eq.
Proof.
  destruct x as [s|s| |s m e]; simpl; try congruence.
  - destruct s; reflexivity.
  - intros _. rewrite Z.compare_refl. change (Pos.compare_cont Eq m m) with (Pos.compare m m).
    rewrite Pos.compare_refl. destruct s; reflexivity.
Qed.

Lemma leb_refl x : is_nan x = false -> (x <=? x) = true.
Proof.
  intros N. rewrite FloatAxioms.leb_spec. unfold SFleb. rewrite SFcompare_refl; [reflexivity|].
  intros E. apply is_nan_spec in E. congruence.
Qed.

Lemma not_nan_SF x : is_nan x = false -> Prim2SF x <> S754_nan.
Proof. intros N E. apply is_nan_spec in E. congruence. Qed.

Lemma SFleb_neg_inf r : r <> S754_nan -> SFleb (S754_infinity true) r = true.
Proof. destruct r as [s|[|]| |s m e]; intros H; try reflexivity; congruence. Qed.

Lemma SFleb_pos_inf r : r <> S754_nan -> SFleb r (S754_infinity false) = true.
Proof. destruct r as [s|[|]| |[|] m e]; intros H; try reflexivity; congruence. Qed.

Lemma leb_upper_cases x a :
  (x <=? a) = true -> finite a = true ->
  Prim2SF x = S754_infinity true \/ (finite x = true /\ (B2R x <= B2R a)%R).
Proof.
  intros H Fa.
  destruct (Prim2SF x) as [s|s| |s m e] eqn:E.
  - right. assert (finite x = true) by (unfold finite; rewrite E; reflexivity).
    split; [assumption|]. apply leb_Rle; assumption.
  - destruct s; [left; reflexivity|].
    rewrite FloatAxioms.leb_spec, E in H. unfold finite in Fa.
    destruct (Prim2SF a); discriminate.
  - rewrite FloatAxioms.leb_spec, E in H. discriminate.
  - right. assert (finite x = true) by (unfold finite; rewrite E; reflexivity).
    split; [assumption|]. apply leb_Rle; assumption.
Qed.

Lemma leb_lower_cases a x :
  (a <=? x) = true -> finite a = true ->
  Prim2SF x = S754_infinity false \/ (finite x = true /\ (B2R a <= B2R x)%R).
Proof.
  intros H Fa.
  destruct (Prim2SF x) as [s|s| |s m e] eqn:E.
  - right. assert (finite x = true) by (unfold finite; rewrite E; reflexivity).
    split; [assumption|]. apply leb_Rle; assumption.
  - destruct s; [|left; reflexivity].
    rewrite FloatAxioms.leb_spec, E in H. unfold finite in Fa.
    destruct (Prim2SF a) as [?|?| |[|] ? ?]; discriminate.
  - rewrite FloatAxioms.leb_spec, E in H. destruct (Prim2SF a); discriminate.
  - right. assert (finite x = true) by (unfold finite; rewrite E; reflexivity).
    split; [assumption|]. apply leb_Rle; assumption.
Qed.

Lemma leb_between_finite lo r hi :
  (lo <=? r) = true -> (r <=? hi) = true -> finite lo = true -> finite hi = true ->
  finite r = true.
Proof.
  intros H1 H2 Flo Fhi.
  destruct (leb_upper_cases _ _ H2 Fhi) as [E|[F _]]; [|assumption].
  destruct (leb_lower_cases _ _ H1 Flo) as [E'|[F _]]; [congruence|assumption].
Qed.

Lemma positive_SF w : (0 < B2R w)%R -> exists m e, Prim2SF w = S754_finite false m e.
Proof.
  unfold B2R. destruct (Prim2SF w) as [s|s| |s m e]; simpl; try lra.
  destruct s; [|eauto]. pose proof (F2R_pos m e). lra.
Qed.

Lemma positive_finite w : (0 < B2R w)%R -> finite w = true.
Proof. intros H. destruct (positive_SF w H) as (m & e & E). unfold finite. rewrite E. reflexivity. Qed.

(** Multiplication by a positive constant is monotone. *)
Lemma mul_le_mono x a w :
  (x <=? a) = true -> finite a = true -> (0 < B2R w)%R -> (x * w <=? a * w) = true.
Proof.
  intros H Fa Hw. pose proof (positive_finite w Hw) as Fw.
  pose proof (mul_rounds a w Fa Fw) as Ra.
  destruct (leb_upper_cases _ _ H Fa) as [E|[Fx Hx]].
  - rewrite FloatAxioms.leb_spec, FloatAxioms.mul_spec. unfold SF64mul. rewrite E.
    destruct (positive_SF w Hw) as (m & e & ->). simpl SFmul.
    apply SFleb_neg_inf. apply not_nan_SF, (rounds_not_nan _ _ Ra).
  - pose proof (mul_rounds x w Fx Fw) as Rx.
    destruct (Rle_lt_or_eq_dec _ _ Hx) as [Hlt|Heq].
    + apply (rounds_mono _ _ _ _ Rx Ra). nra.
    + destruct (SF2R_eq_cases (Prim2SF x) (Prim2SF a)) as [E|(s1 & s2 & E1 & E2)];
        auto using Prim2SF_valid.
      * apply Prim2SF_inj in E. subst x. apply leb_refl, (rounds_not_nan _ _ Ra).
      * rewrite FloatAxioms.leb_spec, !FloatAxioms.mul_spec. unfold SF64mul. rewrite E1, E2.
        destruct (positive_SF w Hw) as (m & e & ->). reflexivity.
Qed.

Lemma mul_le_pivot x a w p :
  (x <=? a) = true -> finite a = true -> (0 < B2R w)%R -> finite p = true ->
  (B2R a * B2R w <= B2R p)%R -> (x * w <=? p) = true.
Proof.
  intros H Fa Hw Fp Hp. pose proof (positive_finite w Hw) as Fw.
  destruct (leb_upper_cases _ _ H Fa) as [E|[Fx Hx]].
  - rewrite FloatAxioms.leb_spec, FloatAxioms.mul_spec. unfold SF64mul. rewrite E.
    destruct (positive_SF w Hw) as (m & e & ->). simpl SFmul.
    apply SFleb_neg_inf. unfold finite in Fp. destruct (Prim2SF p); discriminate.
  - apply (rounds_le _ _ _ (mul_rounds x w Fx Fw) Fp). nra.
Qed.

Lemma div_le_pivot x a w p :
  (x <=? a) = true -> finite a = true -> (0 < B2R w)%R -> finite p = true ->
  (B2R a / B2R w <= B2R p)%R -> (x / w <=? p) = true.
Proof.
  intros H Fa Hw Fp Hp.
  destruct (leb_upper_cases _ _ H Fa) as [E|[Fx Hx]].
  - rewrite FloatAxioms.leb_spec, FloatAxioms.div_spec. unfold SF64div. rewrite E.
    destruct (positive_SF w Hw) as (m & e & ->). simpl SFdiv.
    apply SFleb_neg_inf. unfold finite in Fp. destruct (Prim2SF p); discriminate.
  - apply (rounds_le _ _ _ (div_rounds x w Fx ltac:(lra)) Fp).
    apply Rle_trans with (2 := Hp). unfold Rdiv.
    apply Rmult_le_compat_r; [apply Rlt_le, Rinv_0_lt_compat|]; assumption.
Qed.

Lemma add_le_pivot x y a b p :
  (x <=? a) = true -> (y <=? b) = true -> finite a = true -> finite b = true ->
  finite p = true -> (B2R a + B2R b <= B2R p)%R -> (x + y <=? p) = true.
Proof.
  intros Hx Hy Fa Fb Fp Hp.
  assert (Np : Prim2SF p <> S754_nan) by (unfold finite in Fp; destruct (Prim2SF p); discriminate).
  destruct (leb_upper_cases _ _ Hx Fa) as [Ex|[Fx Bx]];
    destruct (leb_upper_cases _ _ Hy Fb) as [Ey|[Fy By]].
  - rewrite FloatAxioms.leb_spec, FloatAxioms.add_spec. unfold SF64add. rewrite Ex, Ey.
    apply SFleb_neg_inf, Np.
  - rewrite FloatAxioms.leb_spec, FloatAxioms.add_spec. unfold SF64add. rewrite Ex.
    unfold finite in Fy. destruct (Prim2SF y); try discriminate; apply SFleb_neg_inf, Np.
  - rewrite FloatAxioms.leb_spec, FloatAxioms.add_spec. unfold SF64add. rewrite Ey.
    unfold finite in Fx. destruct (Prim2SF x); try discriminate; apply SFleb_neg_inf, Np.
  - apply (rounds_le _ _ _ (add_rounds x y Fx Fy) Fp). lra.
Qed.

(** Subtracting or adding a non negative float moves a finite one the right way. *)
Lemma sub_le_self x y :
  finite x = true -> (0 <=? y) = true -> (x - y <=? x) = true.
Proof.
  intros Fx Hy.
  destruct (leb_lower_cases _ _ Hy eq_refl) as [E|[Fy By]].
  - rewrite FloatAxioms.leb_spec, FloatAxioms.sub_spec. unfold SF64sub. rewrite E.
    unfold finite in Fx. destruct (Prim2SF x); try discriminate; reflexivity.
  - apply (rounds_le _ _ _ (sub_rounds x y Fx Fy) Fx).
    change (B2R 0) with 0%R in By. lra.
Qed.

Lemma add_ge_self x y :
  finite x = true -> (0 <=? y) = true -> (x <=? x + y) = true.
Proof.
  intros Fx Hy.
  destruct (leb_lower_cases _ _ Hy eq_refl) as [E|[Fy By]].
  - rewrite FloatAxioms.leb_spec, FloatAxioms.add_spec. unfold SF64add. rewrite E.
    unfold finite in Fx. destruct (Prim2SF x) as [?|?| |[|] ? ?]; try discriminate; reflexivity.
  - apply (rounds_ge _ _ _ (add_rounds x y Fx Fy) Fx).
    change (B2R 0) with 0%R in By. lra.
Qed.

Lemma mul_nonneg x w :
  (0 <=? x) = true -> (0 < B2R w)%R -> (0 <=? x * w) = true.
Proof.
  intros Hx Hw. pose proof (positive_finite w Hw) as Fw.
  destruct (leb_lower_cases _ _ Hx eq_refl) as [E|[Fx Bx]].
  - rewrite FloatAxioms.leb_spec, FloatAxioms.mul_spec. unfold SF64mul. rewrite E.
    destruct (positive_SF w Hw) as (m & e & ->). reflexivity.
  - apply (rounds_ge _ _ 0 (mul_rounds x w Fx Fw) eq_refl).
    change (B2R 0) with 0%R in *. nra.
Qed.

(** A factor in [0, 1] keeps a finite float finite, on the same side of 0. *)
Lemma mul_contract x w :
  finite x = true -> finite w = true -> (0 <= B2R w <= 1)%R ->
  finite (x * w) = true /\ ((0 <= B2R x)%R -> (0 <=? x * w) = true).
Proof.
  intros Fx Fw Hw. pose proof (mul_rounds x w Fx Fw) as Rm.
  destruct (Rle_dec 0 (B2R x)) as [Hx|Hx].
  - assert (H0 : (0 <=? x * w) = true)
      by (apply (rounds_ge _ _ 0 Rm eq_refl); change (B2R 0) with 0%R; nra).
    split; [|auto].
    apply (leb_between_finite 0 _ x); auto. apply (rounds_le _ _ _ Rm Fx). nra.
  - split; [|intros; lra].
    apply (leb_between_finite x _ 0); auto.
    + apply (rounds_ge _ _ _ Rm Fx). nra.
    + apply (rounds_le _ _ 0 Rm eq_refl). change (B2R 0) with 0%R. nra.
Qed.

Lemma mul_zero_r x w s :
  finite x = true -> Prim2SF w = S754_zero s -> exists s', Prim2SF (x * w) = S754_zero s'.
Proof.
  intros Fx E. rewrite FloatAxioms.mul_spec. unfold SF64mul. rewrite E. unfold finite in Fx.
  destruct (Prim2SF x); try discriminate; simpl; eauto.
Qed.

Lemma mul_zero_l x w s :
  Prim2SF x = S754_zero s -> finite w = true -> exists s', Prim2SF (x * w) = S754_zero s'.
Proof.
  intros E Fw. rewrite FloatAxioms.mul_spec. unfold SF64mul. rewrite E. unfold finite in Fw.
  destruct (Prim2SF w); try discriminate; simpl; eauto.
Qed.

Lemma div_not_nan x w :
  is_nan x = false -> (0 < B2R w)%R -> is_nan (x / w) = false.
Proof.
  intros Nx Hw. destruct (finite x) eqn:Fx.
  - apply (rounds_not_nan _ _ (div_rounds x w Fx ltac:(lra))).
  - destruct (is_nan (x / w)) eqn:E; [|reflexivity]. apply is_nan_spec in E.
    rewrite FloatAxioms.div_spec in E. unfold SF64div in E.
    destruct (positive_SF w Hw) as (m & e & Ew). rewrite Ew in E.
    apply not_nan_SF in Nx. unfold finite in Fx.
    destruct (Prim2SF x); try discriminate; congruence.
Qed.

(** Integer valued floats. *)
Definition int_float (c : float) (k : Z) : bool :=
  match Prim2SF c with
  | S754_zero _ => (k =? 0)%Z
  | S754_finite s m e =>
      ((e <=? 0)%Z && (Zpos m =? Z.abs k * 2 ^ (- e))%Z && Bool.eqb s (k <? 0)%Z)%bool
  | _ => false
  end.

Lemma B2R_int c k : int_float c k = true -> B2R c = IZR k.
Proof.
  unfold int_float, B2R. destruct (Prim2SF c) as [s|s| |s m e]; try discriminate.
  - intros H. apply Z.eqb_eq in H. subst. reflexivity.
  - intros H. apply andb_true_iff in H. destruct H as [H Hs].
    apply andb_true_iff in H. destruct H as [He Hm].
    apply Z.leb_le in He. apply Z.eqb_eq in Hm. apply Bool.eqb_prop in Hs.
    assert (Hv : F2R (Zpos m) e = IZR (Z.abs k)).
    { rewrite Hm. unfold F2R. rewrite mult_IZR, <- bpow_IZR by lia.
      rewrite Rmult_assoc, <- bpow_add. replace (- e + e)%Z with 0%Z by lia.
      unfold bpow. simpl. ring. }
    simpl SF2R. rewrite Hv. subst s. destruct (Z.ltb_spec k 0).
    + rewrite Z.abs_neq by lia. rewrite opp_IZR. ring.
    + rewrite Z.abs_eq by lia. reflexivity.
Qed.

End Binary64.

Import Binary64.

(** ** Rounding to decimals *)

Lemma py_round_zero x nd s : Prim2SF x = S754_zero s -> py_round x nd = x.
Proof. intros E. unfold py_round. rewrite E. reflexivity. Qed.

(** [round] keeps non negative floats non negative. *)
Lemma py_round_nonneg x nd : (0 <=? x)%float = true -> (0 <=? py_round x nd)%float = true.
Proof.
  intros H. unfold py_round.
  destruct (Prim2SF x) as [s|s| |s m e] eqn:E; try assumption.
  assert (s = false) as ->.
  { rewrite FloatAxioms.leb_spec, E in H. destruct s; [discriminate|reflexivity]. }
  destruct (decimal_digits m e nd) as [|k|k]; try reflexivity.
  set (d := Z.to_pos (10 ^ nd)).
  pose proof (SFdiv_rounds (S754_finite false k 0) false d 0 eq_refl) as Hr.
  rewrite FloatAxioms.leb_spec, Prim2SF_SF2Prim by apply (rounds_to_valid _ _ Hr).
  apply (rounds_to_ge _ _ (S754_zero false) Hr eq_refl eq_refl).
  simpl SF2R. pose proof (F2R_pos k 0). pose proof (F2R_pos d 0).
  apply Rlt_le, Rdiv_lt_0_compat; assumption.
Qed.

(** ** Tables

    A dictionary lookup with a default, read as the chain of comparisons it
    stands for. *)

Ltac table_cases :=
  unfold dict_get;
  repeat match goal with
         | |- context [String.eqb ?k ?c] =>
             destruct (String.eqb_spec k c) as [->|?]; [vm_compute; reflexivity|]
         end;
  rewrite ?lookup_insert_ne by congruence; rewrite lookup_empty; reflexivity.

Lemma lower_ascii_idempotent c : ascii_lower (ascii_lower c) = ascii_lower c.
Proof. destruct c as [[] [] [] [] [] [] [] []]; reflexivity. Qed.

Lemma lower_idempotent s : lower (lower s) = lower s.
Proof.
  induction s as [|c s IH]; simpl; [reflexivity|].
  rewrite lower_ascii_idempotent, IH. reflexivity.
Qed.

(** The multipliers as the specification words them, keyed by the lowercased
    string (the code lowercases condition, action and market demand alike). *)
Definition condition_multiplier_of (condition : string) : float :=
  let k := lower condition in
  if String.eqb k "new" then 0.75%float
  else if String.eqb k "lightly-used" then 0.55%float
  else if String.eqb k "good" then 0.40%float
  else if String.eqb k "fair" then 0.25%float
  else if String.eqb k "poor" then 0.10%float
  else if String.eqb k "defective" then 0.05%float
  else 0.30%float.

Definition action_multiplier_of (action : string) : float :=
  let k := lower action in
  if String.eqb k "resale" then 1.0%float
  else if String.eqb k "repair" then 0.6%float
  else if String.eqb k "recycle" then 0.05%float
  else if String.eqb k "donate" then 0.0%float
  else 0.30%float.

Definition demand_adjustment_of (demand : string) : float :=
  let k := lower demand in
  if String.eqb k "high" then 1.2%float
  else if String.eqb k "medium" then 1.0%float
  else if String.eqb k "low" then 0.8%float
  else 1.0%float.

Lemma condition_multiplier_lookup k :
  dict_get DispositionPredictor.condition_multiplier k 0.3%float
  = if String.eqb k "new" then 0.75%float
    else if String.eqb k "lightly-used" then 0.55%float
    else if String.eqb k "good" then 0.40%float
    else if String.eqb k "fair" then 0.25%float
    else if String.eqb k "poor" then 0.10%float
    else if String.eqb k "defective" then 0.05%float
    else 0.30%float.
Proof. unfold DispositionPredictor.condition_multiplier. table_cases. Qed.

Lemma action_multiplier_lookup k :
  dict_get DispositionPredictor.action_multiplier k 0.3%float
  = if String.eqb k "resale" then 1.0%float
    else if String.eqb k "repair" then 0.6%float
    else if String.eqb k "recycle" then 0.05%float
    else if String.eqb k "donate" then 0.0%float
    else 0.30%float.
Proof. unfold DispositionPredictor.action_multiplier. table_cases. Qed.

Lemma demand_adjustment_lookup k :
  dict_get DispositionPredictor.demand_adjustment_map k 1.0%float
  = if String.eqb k "high" then 1.2%float
    else if String.eqb k "medium" then 1.0%float
    else if String.eqb k "low" then 0.8%float
    else 1.0%float.
Proof. unfold DispositionPredictor.demand_adjustment_map. table_cases. Qed.

(** A float constant in [0, 1], and a positive one: checked by evaluation,
    used through the real value. *)
Definition in_unit (c : float) : bool := ((0 <=? c) && (c <=? 1))%float.
Definition is_positive (c : float) : bool := ((0 <? c) && finite c)%float.

Lemma B2R_zero : B2R 0 = 0%R.
Proof. reflexivity. Qed.

Lemma B2R_one : B2R 1 = 1%R.
Proof. apply (B2R_int 1 1). reflexivity. Qed.

Lemma in_unit_spec c : in_unit c = true -> finite c = true /\ (0 <= B2R c <= 1)%R.
Proof.
  unfold in_unit. intros H. apply andb_true_iff in H. destruct H as [H0 H1].
  assert (F : finite c = true) by (apply (leb_between_finite 0 c 1); auto).
  split; [assumption|]. rewrite <- B2R_zero, <- B2R_one.
  split; apply leb_Rle; auto.
Qed.

Lemma is_positive_spec c : is_positive c = true -> (0 < B2R c)%R.
Proof.
  unfold is_positive. intros H. apply andb_true_iff in H. destruct H as [H0 F].
  rewrite <- B2R_zero. apply ltb_Rlt; auto.
Qed.

Lemma condition_multiplier_unit c : in_unit (condition_multiplier_of c) = true.
Proof.
  unfold condition_multiplier_of.
  repeat match goal with |- context [String.eqb ?k ?s] => destruct (String.eqb k s) end;
    reflexivity.
Qed.

Lemma action_multiplier_unit a : in_unit (action_multiplier_of a) = true.
Proof.
  unfold action_multiplier_of.
  repeat match goal with |- context [String.eqb ?k ?s] => destruct (String.eqb k s) end;
    reflexivity.
Qed.

Lemma demand_adjustment_positive d : is_positive (demand_adjustment_of d) = true.
Proof.
  unfold demand_adjustment_of.
  repeat match goal with |- context [String.eqb ?k ?s] => destruct (String.eqb k s) end;
    reflexivity.
Qed.

(** ** Estimated recovery value *)

(** C1. The estimated value is the price times the condition, action and
    demand multipliers of the tables, rounded to 2 decimals; on a finite non
    negative price it is non negative, and on a finite price it is 0 for the
    action donate. *)
Theorem estimated_value_formula (item : ReturnItem) (action : string) :
  DispositionPredictor._calculate_estimated_value item action
  = py_round (original_price item * condition_multiplier_of (condition item)
              * action_multiplier_of action * demand_adjustment_of (market_demand item))%float 2
  /\ (finite (original_price item) = true ->
      (0 <=? original_price item)%float = true ->
      (0 <=? DispositionPredictor._calculate_estimated_value item action)%float = true)
  /\ (finite (original_price item) = true ->
      lower action = "donate" ->
      (DispositionPredictor._calculate_estimated_value item action =? 0)%float = true).
Proof.
  assert (E : DispositionPredictor._calculate_estimated_value item action
    = py_round (original_price item * condition_multiplier_of (condition item)
                * action_multiplier_of action * demand_adjustment_of (market_demand item))%float 2).
  { unfold DispositionPredictor._calculate_estimated_value.
    rewrite condition_multiplier_lookup, action_multiplier_lookup, demand_adjustment_lookup.
    reflexivity. }
  split; [exact E|]. rewrite E. clear E.
  destruct (in_unit_spec _ (condition_multiplier_unit (condition item))) as [Fc Hc].
  destruct (in_unit_spec _ (action_multiplier_unit action)) as [Fa Ha].
  pose proof (is_positive_spec _ (demand_adjustment_positive (market_demand item))) as Hd.
  set (p := original_price item). set (cf := condition_multiplier_of (condition item)) in *.
  set (af := action_multiplier_of action) in *.
  set (da := demand_adjustment_of (market_demand item)) in *.
  split.
  - intros Fp Hp.
    assert (Bp : (0 <= B2R p)%R) by (rewrite <- B2R_zero; apply leb_Rle; auto).
    destruct (mul_contract p cf Fp Fc Hc) as [F1 H1]. specialize (H1 Bp).
    assert (B1 : (0 <= B2R (p * cf))%R) by (rewrite <- B2R_zero; apply leb_Rle; auto).
    destruct (mul_contract (p * cf) af F1 Fa Ha) as [F2 H2]. specialize (H2 B1).
    apply py_round_nonneg, mul_nonneg; assumption.
  - intros Fp Hdon.
    destruct (mul_contract p cf Fp Fc Hc) as [F1 _].
    assert (Eaf : af = 0%float) by (unfold af, action_multiplier_of; rewrite Hdon; reflexivity).
    destruct (mul_zero_r (p * cf) af false F1 ltac:(rewrite Eaf; reflexivity)) as [s2 E2].
    destruct (mul_zero_l (p * cf * af) da s2 E2 (positive_finite _ Hd)) as [s3 E3].
    rewrite (py_round_zero _ 2 s3 E3), FloatAxioms.eqb_spec, E3. reflexivity.
Qed.

(** ** Condition encoding *)

Lemma condition_map_lookup k :
  dict_get FeatureEngineering.condition_map k 0.5%float
  = if String.eqb k "new" then 1.0%float
    else if String.eqb k "lightly-used" then 0.8%float
    else if String.eqb k "good" then 0.6%float
    else if String.eqb k "fair" then 0.4%float
    else if String.eqb k "poor" then 0.2%float
    else if String.eqb k "defective" then 0.0%float
    else 0.5%float.
Proof. unfold FeatureEngineering.condition_map. table_cases. Qed.

(** C8. The condition encoder is defined on every string, reads it up to
    case (encoding the lowercased string changes nothing), returns a score
    between 0 and 1, the six listed scores on the six known conditions and
    0.5 on every other string. *)
Theorem encode_condition_total (s : string) :
  (0 <=? FeatureEngineering._encode_condition s)%float = true
  /\ (FeatureEngineering._encode_condition s <=? 1)%float = true
  /\ FeatureEngineering._encode_condition (lower s) = FeatureEngineering._encode_condition s
  /\ (lower s = "new" -> FeatureEngineering._encode_condition s = 1.0%float)
  /\ (lower s = "lightly-used" -> FeatureEngineering._encode_condition s = 0.8%float)
  /\ (lower s = "good" -> FeatureEngineering._encode_condition s = 0.6%float)
  /\ (lower s = "fair" -> FeatureEngineering._encode_condition s = 0.4%float)
  /\ (lower s = "poor" -> FeatureEngineering._encode_condition s = 0.2%float)
  /\ (lower s = "defective" -> FeatureEngineering._encode_condition s = 0.0%float)
  /\ (lower s <> "new" -> lower s <> "lightly-used" -> lower s <> "good" ->
      lower s <> "fair" -> lower s <> "poor" -> lower s <> "defective" ->
      FeatureEngineering._encode_condition s = 0.5%float).
Proof.
  unfold FeatureEngineering._encode_condition.
  rewrite lower_idempotent, condition_map_lookup.
  repeat split; try (intros ->; reflexivity);
    repeat match goal with
           | |- context [String.eqb ?k ?c] => destruct (String.eqb_spec k c)
           end; try reflexivity; intros; congruence.
Qed.

(** ** Marketplace selection *)

(** C3. No marketplace unless the action is resale (read up to case, as the
    code lowercases it); for resale the first rule that applies decides, in
    the order: value above 10000, value above 2000, category Fashion,
    category Electronics, anything else. *)
Theorem select_marketplace_priority (action category : string) (value : float) :
  (lower action <> "resale" ->
   DispositionPredictor._select_marketplace action category value = None)
  /\ (lower action = "resale" ->
      ((10000 <? value)%float = true ->
       DispositionPredictor._select_marketplace action category value = Some "Flipkart")
      /\ ((10000 <? value)%float = false -> (2000 <? value)%float = true ->
          DispositionPredictor._select_marketplace action category value = Some "Flipkart 2GUD")
      /\ ((10000 <? value)%float = false -> (2000 <? value)%float = false ->
          category = "Fashion" ->
          DispositionPredictor._select_marketplace action category value = Some "Myntra")
      /\ ((10000 <? value)%float = false -> (2000 <? value)%float = false ->
          category <> "Fashion" -> category = "Electronics" ->
          DispositionPredictor._select_marketplace action category value
          = Some "Amazon Renewed")
      /\ ((10000 <? value)%float = false -> (2000 <? value)%float = false ->
          category <> "Fashion" -> category <> "Electronics" ->
          DispositionPredictor._select_marketplace action category value
          = Some "Walmart Marketplace")).
Proof.
  unfold DispositionPredictor._select_marketplace. split.
  - intros Hne. destruct (String.eqb_spec (lower action) "resale"); [contradiction|reflexivity].
  - intros ->. simpl negb. cbv iota.
    repeat split; intros;
      repeat match goal with
             | H : _ = true |- _ => rewrite H
             | H : _ = false |- _ => rewrite H
             end; try reflexivity;
      repeat match goal with
             | |- context [String.eqb ?k ?c] => destruct (String.eqb_spec k c)
             end; try reflexivity; congruence.
Qed.

(** ** Untrained models *)

(** C5, as the code has it. An untrained predictor and an untrained
    forecaster raise [ValueError] with their fixed messages before anything
    else is computed, so no result, partial or not, comes back. *)
Theorem untrained_raises_ValueError :
  (forall (self : DispositionPredictor.t) (item : ReturnItem),
      DispositionPredictor.is_trained self = false ->
      DispositionPredictor.predict self item
      = Raise (ValueError "Model must be trained before making predictions"))
  /\ (forall (datetime : Type) (now : datetime) (add_days : datetime -> Z -> datetime)
        (month weekday day : datetime -> Z) (np_std np_mean np_var : list float -> float)
        (np_polyfit_slope : list float -> list float -> float)
        (self : ValueForecaster.t) (periods : Z) (category : option string),
      ValueForecaster.is_trained self = false ->
      ValueForecaster.forecast datetime now add_days month weekday day
        np_std np_mean np_var np_polyfit_slope self periods category
      = Raise (ValueError "Model must be trained before forecasting")).
Proof.
  split.
  - intros self item H. unfold DispositionPredictor.predict. rewrite H. reflexivity.
  - intros. unfold ValueForecaster.forecast. rewrite H. reflexivity.
Qed.

(** ** Action names and case *)

Lemma estimated_value_lower item action :
  DispositionPredictor._calculate_estimated_value item (lower action)
  = DispositionPredictor._calculate_estimated_value item action.
Proof. unfold DispositionPredictor._calculate_estimated_value. rewrite lower_idempotent. reflexivity. Qed.

(** C9. An action that names resale, repair, recycle or donate up to case
    without being written in lowercase is valued, timed and given a
    marketplace as the lowercase action, yet the reasoning text is the
    generic sentence with the confidence. *)
Theorem mixed_case_action_inconsistency
    (item : ReturnItem) (action category : string) (value confidence : float) :
  lower action = "resale" \/ lower action = "repair" \/
  lower action = "recycle" \/ lower action = "donate" ->
  action <> lower action ->
  DispositionPredictor._calculate_estimated_value item action
  = DispositionPredictor._calculate_estimated_value item (lower action)
  /\ DispositionPredictor._calculate_co2_impact item action
     = DispositionPredictor._calculate_co2_impact item (lower action)
  /\ DispositionPredictor._calculate_waste_impact item action
     = DispositionPredictor._calculate_waste_impact item (lower action)
  /\ DispositionPredictor._estimate_processing_time action category
     = DispositionPredictor._estimate_processing_time (lower action) category
  /\ DispositionPredictor._select_marketplace action category value
     = DispositionPredictor._select_marketplace (lower action) category value
  /\ DispositionPredictor._generate_reasoning item action confidence
     = DispositionPredictor.base_reason item +:+ ". Confidence: "
       +:+ format_percent confidence 1.
Proof.
  intros Hin Hne.
  unfold DispositionPredictor._calculate_estimated_value,
    DispositionPredictor._calculate_co2_impact, DispositionPredictor._calculate_waste_impact,
    DispositionPredictor._estimate_processing_time, DispositionPredictor._select_marketplace.
  rewrite !lower_idempotent. repeat split.
  unfold DispositionPredictor._generate_reasoning.
  repeat match goal with
         | |- context [String.eqb action ?c] =>
             destruct (String.eqb_spec action c) as [E|_];
             [exfalso; apply Hne; rewrite E; reflexivity|]
         end.
  reflexivity.
Qed.

(** ** Risk scoring on partial input *)

Definition risk_input (return_rate value_recovery_rate defect_rate demand_volatility
                         avg_processing_time : float) : gmap string float :=
  <["return_rate" := return_rate]> (<["value_recovery_rate" := value_recovery_rate]>
  (<["defect_rate" := defect_rate]> (<["demand_volatility" := demand_volatility]>
  (<["avg_processing_time" := avg_processing_time]> ∅)))).

Lemma dict_get_insert_missing (data : gmap string float) k k' :
  data !! k = None -> dict_get (<[k := 0%float]> data) k' 0%float = dict_get data k' 0%float.
Proof.
  intros H. unfold dict_get. destruct (decide (k = k')) as [->|Hne].
  - rewrite lookup_insert_eq, H. reflexivity.
  - rewrite lookup_insert_ne by assumption. reflexivity.
Qed.

(** C10. The risk score is defined on every input mapping; a missing field
    counts as 0 (adding it with value 0 changes nothing), and on the empty
    mapping the components are 0, 100, 0, 0, 0, the score 25.0 and the
    level Low. *)
Theorem risk_score_partial_input :
  (forall (data : gmap string float) (k : string),
      data !! k = None ->
      RiskAssessment.calculate_risk_score (<[k := 0%float]> data)
      = RiskAssessment.calculate_risk_score data)
  /\ RiskAssessment.component_scores (RiskAssessment.calculate_risk_score ∅) !! "volume_risk"
     = Some 0%float
  /\ RiskAssessment.component_scores (RiskAssessment.calculate_risk_score ∅) !! "value_risk"
     = Some 100%float
  /\ RiskAssessment.component_scores (RiskAssessment.calculate_risk_score ∅) !! "quality_risk"
     = Some 0%float
  /\ RiskAssessment.component_scores (RiskAssessment.calculate_risk_score ∅) !! "market_risk"
     = Some 0%float
  /\ RiskAssessment.component_scores (RiskAssessment.calculate_risk_score ∅)
       !! "operational_risk" = Some 0%float
  /\ RiskAssessment.overall_score (RiskAssessment.calculate_risk_score ∅) = 25.0%float
  /\ RiskAssessment.risk_level (RiskAssessment.calculate_risk_score ∅) = "Low".
Proof.
  split.
  - intros data k H. unfold RiskAssessment.calculate_risk_score, RiskAssessment.component_scores_of.
    rewrite !(dict_get_insert_missing data k) by assumption. reflexivity.
  - repeat split; vm_compute; reflexivity.
Qed.

(** ** Anomaly detection on a baseline without variance *)

Definition constant_history : list AnomalyDetector.Row :=
  [ AnomalyDetector.Build_Row "2024-01-01" "Electronics" 10;
    AnomalyDetector.Build_Row "2024-01-02" "Electronics" 10 ].

Definition fitted_on_constant_history : AnomalyDetector.t :=
  AnomalyDetector.fit (AnomalyDetector.init 2.5) constant_history.

Definition one_busier_day : list AnomalyDetector.Row :=
  [ AnomalyDetector.Build_Row "2024-02-01" "Electronics" 12 ].

(** C2, what the code does. Fitted on two days of 10 returns each, the
    baseline has mean 10 and standard deviation 0; a day of 12 returns then
    divides by that 0, gets an infinite z-score and is reported as a volume
    anomaly of high severity (the category loop reports nothing here). *)
Theorem zero_std_baseline_flags_volume :
  AnomalyDetector.baseline_stats fitted_on_constant_history
  = Some {| AnomalyDetector.daily_mean := 10; AnomalyDetector.daily_std := 0;
            AnomalyDetector.category_means := {["Electronics" := 10%float]} |}
  /\ AnomalyDetector.detect_anomalies fitted_on_constant_history one_busier_day
     = Ok [ {| AnomalyDetector.anomaly_type := "volume_anomaly";
               AnomalyDetector.anomaly_key := ("date", "2024-02-01");
               AnomalyDetector.anomaly_value := 12;
               AnomalyDetector.anomaly_expected := 10;
               AnomalyDetector.anomaly_severity := "high";
               AnomalyDetector.anomaly_description
                 := "Unusual return volume: 12 vs expected 10" |} ].
Proof. split; vm_compute; reflexivity. Qed.

(** ** Sample inputs *)

Definition sample_item (category condition market_demand : string) (price : float) : ReturnItem :=
  {| sku := "SAMPLE-123";
     product_name := "Bluetooth Headphones";
     category := category;
     condition := condition;
     return_reason := "Sound quality not as expected";
     original_price := price;
     customer_age := 28;
     purchase_channel := "online";
     location := "Mumbai";
     return_date := 739000;
     manufacturing_date := 738820;
     warranty_status := "active";
     material_composition := ["Plastic"; "Electronics"; "Metal"];
     seasonality := "medium";
     market_demand := market_demand |}.

(** A predictor whose fitted pipeline answers [action] with confidence 0.9. *)
Definition predictor_answering (trained : bool) (action : string) : DispositionPredictor.t :=
  {| DispositionPredictor.is_trained := trained;
     DispositionPredictor.classify := fun _ => (action, 0.9%float) |}.

(** C5, against the claim. The exception an untrained predictor raises is
    not of a class named NotTrainedError. *)
Lemma untrained_predict_not_NotTrainedError :
  ~ exists msg,
      DispositionPredictor.predict (predictor_answering false "resale")
        (sample_item "Electronics" "lightly-used" "high" 2500)
      = Raise (mk_exn "NotTrainedError" msg).
Proof. intros [msg H]. vm_compute in H. discriminate. Qed.

(** ** Marketplace of a prediction *)

(** C4, against the claim. An Electronics item of price 15000 in good
    condition, predicted resale, is worth 6000 and goes to Flipkart 2GUD. *)
Lemma resale_15000_electronics_not_always_flipkart :
  exists r,
    DispositionPredictor.predict (predictor_answering true "resale")
      (sample_item "Electronics" "good" "medium" 15000) = Ok r
    /\ recommended_action r = "resale"
    /\ estimated_value r = 6000%float
    /\ marketplace r = Some "Flipkart 2GUD"
    /\ marketplace r <> Some "Flipkart".
Proof. eexists. split; [vm_compute; reflexivity|]. repeat split. discriminate. Qed.

Ltac eval_marketplace :=
  match goal with
  | |- context [DispositionPredictor._select_marketplace ?a ?c ?v] =>
      let r := eval vm_compute in (DispositionPredictor._select_marketplace a c v) in
      replace (DispositionPredictor._select_marketplace a c v) with r
        by (vm_compute; reflexivity)
  end.

Lemma estimated_value_eq item action :
  DispositionPredictor._calculate_estimated_value item action
  = py_round (original_price item * condition_multiplier_of (condition item)
              * action_multiplier_of action * demand_adjustment_of (market_demand item))%float 2.
Proof.
  unfold DispositionPredictor._calculate_estimated_value.
  rewrite condition_multiplier_lookup, action_multiplier_lookup, demand_adjustment_lookup.
  reflexivity.
Qed.

(** C4, as the code has it. For a trained predictor that recommends resale:
    an Electronics item of price 15000 goes to Flipkart exactly when its
    condition is new and its market demand is not low (only then does the
    estimated value exceed 10000); a Fashion item of price 1500 always goes
    to Myntra. *)
Theorem resale_marketplace_by_value
    (self : DispositionPredictor.t) (item : ReturnItem) (conf : float) :
  DispositionPredictor.is_trained self = true ->
  DispositionPredictor.classify self item = ("resale", conf) ->
  exists r,
    DispositionPredictor.predict self item = Ok r
    /\ recommended_action r = "resale"
    /\ (original_price item = 15000%float -> category item = "Electronics" ->
        (marketplace r = Some "Flipkart"
         <-> lower (condition item) = "new" /\ lower (market_demand item) <> "low"))
    /\ (original_price item = 1500%float -> category item = "Fashion" ->
        marketplace r = Some "Myntra").
Proof.
  intros Ht Hc. unfold DispositionPredictor.predict. rewrite Ht, Hc. simpl negb. cbv iota.
  eexists. split; [reflexivity|]. cbn [recommended_action marketplace].
  split; [reflexivity|].
  rewrite estimated_value_eq. unfold condition_multiplier_of, demand_adjustment_of.
  split; intros Hp Hcat; rewrite Hp, Hcat;
    repeat match goal with
           | |- context [String.eqb (lower ?k) ?c] => destruct (String.eqb_spec (lower k) c)
           end;
    eval_marketplace; try reflexivity;
    (split; [intros; first [discriminate | split; congruence] | intros [? ?]; congruence]).
Qed.

(** ** Risk score: components, weighted sum and level *)

Section RiskComponents.

#[local] Open Scope float_scope.

Lemma py_min_le_one t : is_nan t = false -> (py_min t 1 <=? 1) = true.
Proof.
  intros N. unfold py_min. destruct (1 <? t) eqn:E; [reflexivity|].
  apply not_ltb_leb; auto.
Qed.

Lemma scaled_le_100 m : (m <=? 1) = true -> (m * 100 <=? 100) = true.
Proof.
  intros H. apply (mul_le_pivot m 1 100 100); auto.
  - rewrite (B2R_int 100 100 eq_refl). lra.
  - rewrite B2R_one, (B2R_int 100 100 eq_refl). lra.
Qed.

(** A component of the form [min(x / w, 1.0) * 100] is at most 100. *)
Lemma capped_component_le_100 x w :
  is_nan x = false -> is_positive w = true -> (py_min (x / w) 1 * 100 <=? 100) = true.
Proof.
  intros N Hw. apply scaled_le_100, py_min_le_one, div_not_nan; auto using is_positive_spec.
Qed.

Lemma py_max_zero_nonneg b : (0 <=? py_max 0 b) = true.
Proof.
  unfold py_max. destruct (0 <? b) eqn:E; [apply ltb_leb; assumption|reflexivity].
Qed.

(** The value component [max(0, (0.6 - r) / 0.6) * 100] is never negative. *)
Lemma value_component_nonneg r : (0 <=? py_max 0 ((0.6 - r) / 0.6) * 100) = true.
Proof.
  apply mul_nonneg; [apply py_max_zero_nonneg|].
  rewrite (B2R_int 100 100 eq_refl). lra.
Qed.

(** It is at most 100 when the recovery rate is not negative. *)
Lemma value_component_le_100 r :
  (0 <=? r) = true -> (py_max 0 ((0.6 - r) / 0.6) * 100 <=? 100) = true.
Proof.
  intros Hr. apply scaled_le_100.
  assert (P6 : (0 < B2R 0.6)%R) by (apply is_positive_spec; reflexivity).
  assert (Hb : ((0.6 - r) / 0.6 <=? 1) = true).
  { apply (div_le_pivot _ 0.6 0.6 1); auto.
    - apply sub_le_self; auto.
    - rewrite B2R_one. apply Req_le. field. lra. }
  unfold py_max. destruct (0 <? (0.6 - r) / 0.6); [assumption|reflexivity].
Qed.

(** The weighted sum of components that are at most 100 is at most 100. *)
Lemma weighted_sum_le_100 v val q m o :
  (v <=? 100) = true -> (val <=? 100) = true -> (q <=? 100) = true ->
  (m <=? 100) = true -> (o <=? 100) = true ->
  (0 + v * 0.3 + val * 0.25 + q * 0.2 + m * 0.15 + o * 0.1 <=? 100) = true.
Proof.
  intros Hv Hval Hq Hm Ho.
  assert (P1 : (v * 0.3 <=? 30) = true)
    by (apply (mul_le_mono v 100 0.3); auto; apply is_positive_spec; reflexivity).
  assert (P2 : (val * 0.25 <=? 25) = true)
    by (apply (mul_le_mono val 100 0.25); auto; apply is_positive_spec; reflexivity).
  assert (P3 : (q * 0.2 <=? 20) = true)
    by (apply (mul_le_mono q 100 0.2); auto; apply is_positive_spec; reflexivity).
  assert (P4 : (m * 0.15 <=? 15) = true)
    by (apply (mul_le_mono m 100 0.15); auto; apply is_positive_spec; reflexivity).
  assert (P5 : (o * 0.1 <=? 10) = true)
    by (apply (mul_le_mono o 100 0.1); auto; apply is_positive_spec; reflexivity).
  assert (S1 : (0 + v * 0.3 <=? 30) = true).
  { apply (add_le_pivot _ _ 0 30 30); auto.
    rewrite B2R_zero, (B2R_int 30 30 eq_refl). lra. }
  assert (S2 : (0 + v * 0.3 + val * 0.25 <=? 55) = true).
  { apply (add_le_pivot _ _ 30 25 55); auto.
    rewrite (B2R_int 30 30 eq_refl), (B2R_int 25 25 eq_refl), (B2R_int 55 55 eq_refl). lra. }
  assert (S3 : (0 + v * 0.3 + val * 0.25 + q * 0.2 <=? 75) = true).
  { apply (add_le_pivot _ _ 55 20 75); auto.
    rewrite (B2R_int 55 55 eq_refl), (B2R_int 20 20 eq_refl), (B2R_int 75 75 eq_refl). lra. }
  assert (S4 : (0 + v * 0.3 + val * 0.25 + q * 0.2 + m * 0.15 <=? 90) = true).
  { apply (add_le_pivot _ _ 75 15 90); auto.
    rewrite (B2R_int 75 75 eq_refl), (B2R_int 15 15 eq_refl), (B2R_int 90 90 eq_refl). lra. }
  apply (add_le_pivot _ _ 90 10 100); auto.
  rewrite (B2R_int 90 90 eq_refl), (B2R_int 10 10 eq_refl), (B2R_int 100 100 eq_refl). lra.
Qed.

End RiskComponents.

(** A float above a finite bound is above every smaller finite bound. *)
Lemma leb_weaken_l (a b x : float) :
  finite a = true -> finite b = true -> (B2R a <= B2R b)%R ->
  (b <=? x)%float = true -> (a <=? x)%float = true.
Proof.
  intros Fa Fb Hab H. destruct (leb_lower_cases b x H Fb) as [E|[F B]].
  - rewrite FloatAxioms.leb_spec, E. apply SFleb_pos_inf.
    unfold finite in Fa. destruct (Prim2SF a); discriminate.
  - apply leb_of_Rle; auto. lra.
Qed.

(** The five scores, read back from the dictionary they are written to. *)
Lemma component_scores_lookup (data : gmap string float) :
  let scores := RiskAssessment.component_scores_of data in
  scores !!! "volume_risk" = (py_min (dict_get data "return_rate" 0 / 0.15) 1.0 * 100)%float
  /\ scores !!! "value_risk"
     = (py_max 0 ((0.6 - dict_get data "value_recovery_rate" 0) / 0.6) * 100)%float
  /\ scores !!! "quality_risk" = (py_min (dict_get data "defect_rate" 0 / 0.1) 1.0 * 100)%float
  /\ scores !!! "market_risk"
     = (py_min (dict_get data "demand_volatility" 0 / 0.3) 1.0 * 100)%float
  /\ scores !!! "operational_risk"
     = (py_min (dict_get data "avg_processing_time" 0 / 7) 1.0 * 100)%float.
Proof.
  unfold RiskAssessment.component_scores_of. cbv zeta.
  repeat split; rewrite lookup_total_alt;
    rewrite ?lookup_insert_ne by discriminate; rewrite lookup_insert_eq; reflexivity.
Qed.

Lemma dict_get_not_nan (data : gmap string float) k :
  (forall x, data !! k = Some x -> is_nan x = false) -> is_nan (dict_get data k 0%float) = false.
Proof.
  intros H. unfold dict_get. destruct (data !! k) as [x|]; [apply H|]; reflexivity.
Qed.

(** C6, against the claim. With a negative recovery rate the value
    component exceeds 100, and with the other components at their cap so does
    the weighted sum. *)
Lemma value_risk_not_capped :
  let scores := RiskAssessment.component_scores_of (risk_input 0.2 (-1) 0.2 0.5 10) in
  (100 <? scores !!! "value_risk")%float = true
  /\ (100 <? RiskAssessment.weighted_score scores)%float = true.
Proof. split; vm_compute; reflexivity. Qed.

(** C6, as the code has it. The score is the weighted sum of the five
    components, added in the order of [risk_factors]; the volume, quality,
    market and operational components are capped at 100 and the value
    component is floored at 0, so that the sum is at most 100 whenever the
    recovery rate is not negative (no input being NaN); the level follows the
    unrounded sum through the thresholds 80, 60 and 40; the sample input of
    the repository scores 57.5, level Medium. *)
Theorem risk_score_formula (data : gmap string float) :
  let scores := RiskAssessment.component_scores_of data in
  let overall := RiskAssessment.weighted_score scores in
  let report := RiskAssessment.calculate_risk_score data in
  overall = (0 + scores !!! "volume_risk" * 0.3 + scores !!! "value_risk" * 0.25
             + scores !!! "quality_risk" * 0.2 + scores !!! "market_risk" * 0.15
             + scores !!! "operational_risk" * 0.1)%float
  /\ RiskAssessment.overall_score report = py_round overall 1
  /\ RiskAssessment.component_scores report = scores
  /\ ((80 <=? overall)%float = true -> RiskAssessment.risk_level report = "Critical")
  /\ ((80 <=? overall)%float = false -> (60 <=? overall)%float = true ->
      RiskAssessment.risk_level report = "High")
  /\ ((60 <=? overall)%float = false -> (40 <=? overall)%float = true ->
      RiskAssessment.risk_level report = "Medium")
  /\ ((40 <=? overall)%float = false -> RiskAssessment.risk_level report = "Low")
  /\ (0 <=? scores !!! "value_risk")%float = true
  /\ ((forall k x, data !! k = Some x -> is_nan x = false) ->
      (scores !!! "volume_risk" <=? 100)%float = true
      /\ (scores !!! "quality_risk" <=? 100)%float = true
      /\ (scores !!! "market_risk" <=? 100)%float = true
      /\ (scores !!! "operational_risk" <=? 100)%float = true
      /\ ((0 <=? dict_get data "value_recovery_rate" 0)%float = true ->
          (scores !!! "value_risk" <=? 100)%float = true
          /\ (overall <=? 100)%float = true))
  /\ (data = risk_input 0.12 0.65 0.08 0.25 3.5 ->
      RiskAssessment.overall_score report = 57.5%float
      /\ RiskAssessment.risk_level report = "Medium").
Proof.
  intros scores overall report.
  destruct (component_scores_lookup data) as (Ev & Eval & Eq & Em & Eo). fold scores in Ev, Eval, Eq, Em, Eo.
  assert (Eoverall : overall
    = (0 + scores !!! "volume_risk" * 0.3 + scores !!! "value_risk" * 0.25
       + scores !!! "quality_risk" * 0.2 + scores !!! "market_risk" * 0.15
       + scores !!! "operational_risk" * 0.1)%float) by reflexivity.
  split; [exact Eoverall|]. split; [reflexivity|]. split; [reflexivity|].
  assert (Elevel : RiskAssessment.risk_level report = RiskAssessment.risk_level_of overall)
    by reflexivity.
  rewrite Elevel. unfold RiskAssessment.risk_level_of.
  split; [intros ->; reflexivity|].
  split; [intros -> ->; reflexivity|].
  assert (W86 : (80 <=? overall)%float = true -> (60 <=? overall)%float = true).
  { apply leb_weaken_l; auto.
    rewrite (B2R_int 60 60 eq_refl), (B2R_int 80 80 eq_refl). lra. }
  assert (W64 : (60 <=? overall)%float = true -> (40 <=? overall)%float = true).
  { apply leb_weaken_l; auto.
    rewrite (B2R_int 40 40 eq_refl), (B2R_int 60 60 eq_refl). lra. }
  split; [intros H60 H40|].
  { assert (H80 : (80 <=? overall)%float = false)
      by (apply not_true_is_false; intros H; specialize (W86 H); congruence).
    rewrite H80, H60, H40. reflexivity. }
  split; [intros H40|].
  { assert (H60 : (60 <=? overall)%float = false)
      by (apply not_true_is_false; intros H; specialize (W64 H); congruence).
    assert (H80 : (80 <=? overall)%float = false)
      by (apply not_true_is_false; intros H; specialize (W86 H); congruence).
    rewrite H80, H60, H40. reflexivity. }
  split; [rewrite Eval; apply value_component_nonneg|].
  split.
  - intros Hnan.
    assert (Hv : (scores !!! "volume_risk" <=? 100)%float = true)
      by (rewrite Ev; apply capped_component_le_100; [apply dict_get_not_nan, Hnan|reflexivity]).
    assert (Hq : (scores !!! "quality_risk" <=? 100)%float = true)
      by (rewrite Eq; apply capped_component_le_100; [apply dict_get_not_nan, Hnan|reflexivity]).
    assert (Hm : (scores !!! "market_risk" <=? 100)%float = true)
      by (rewrite Em; apply capped_component_le_100; [apply dict_get_not_nan, Hnan|reflexivity]).
    assert (Ho : (scores !!! "operational_risk" <=? 100)%float = true)
      by (rewrite Eo; apply capped_component_le_100; [apply dict_get_not_nan, Hnan|reflexivity]).
    repeat (split; [assumption|]).
    intros Hr.
    assert (Hval : (scores !!! "value_risk" <=? 100)%float = true)
      by (rewrite Eval; apply value_component_le_100, Hr).
    split; [assumption|]. rewrite Eoverall. apply weighted_sum_le_100; assumption.
  - intros ->. split; vm_compute; reflexivity.
Qed.

(** ** Forecast entries *)

Lemma mul_nonneg_l (w x : float) :
  (0 < B2R w)%R -> (0 <=? x)%float = true -> (0 <=? w * x)%float = true.
Proof.
  intros Hw Hx. pose proof (positive_finite w Hw) as Fw.
  destruct (leb_lower_cases 0 x Hx eq_refl) as [E|[Fx Bx]].
  - rewrite FloatAxioms.leb_spec, FloatAxioms.mul_spec. unfold SF64mul. rewrite E.
    destruct (positive_SF w Hw) as (m & e & ->). reflexivity.
  - apply (rounds_ge _ _ 0%float (mul_rounds w x Fw Fx) eq_refl).
    rewrite B2R_zero in *. nra.
Qed.

Lemma zip_map_lookup {A B : Type} (g : A -> B) (l : list A) (i : nat) :
  zip l (map g l) !! i = (fun p => (p, g p)) <$> l !! i.
Proof.
  revert i. induction l as [|x l IH]; intros [|i]; simpl; try reflexivity. apply IH.
Qed.

(** The band around a finite prediction contains it, for a spread that is
    not negative. *)
Lemma band_contains (pred std_error : float) :
  finite pred = true -> (0 <=? std_error)%float = true ->
  (pred - 1.96 * std_error <=? pred)%float = true
  /\ (pred <=? pred + 1.96 * std_error)%float = true.
Proof.
  intros Fp Hs.
  assert (Hd : (0 <=? 1.96 * std_error)%float = true)
    by (apply mul_nonneg_l; [apply is_positive_spec; reflexivity|assumption]).
  split; [apply sub_le_self|apply add_ge_self]; assumption.
Qed.

(** C7. A trained forecaster asked for [n >= 1] periods, whose regressor returns
    one finite prediction per feature row and whose [np.std] is not negative,
    returns [n] entries; the entry at position [i] (counted from 0) has period
    [i + 1], carries the prediction of the [i]-th feature row, the one dated
    [30 * i] days from now, and lies within its bounds. *)
Theorem forecast_entries
    (datetime : Type) (now : datetime) (add_days : datetime -> Z -> datetime)
    (month weekday day : datetime -> Z) (np_std np_mean np_var : list float -> float)
    (np_polyfit_slope : list float -> list float -> float)
    (self : ValueForecaster.t) (n : Z) (category : option string) :
  let features :=
    ValueForecaster._generate_future_features datetime now add_days month weekday day
      n category in
  let preds :=
    ValueForecaster.model_predict self (ValueForecaster.scaler_transform self features) in
  ValueForecaster.is_trained self = true ->
  (1 <= n)%Z ->
  length preds = length features ->
  Forall (fun p => finite p = true) preds ->
  (0 <=? np_std preds)%float = true ->
  exists res,
    ValueForecaster.forecast datetime now add_days month weekday day
      np_std np_mean np_var np_polyfit_slope self n category = Ok res
    /\ Z.of_nat (length (predictions res)) = n
    /\ forall (i : nat) (e : ForecastEntry),
        predictions res !! i = Some e ->
        period e = (Z.of_nat i + 1)%Z
        /\ preds !! i = Some (predicted_value e)
        /\ (lower_bound e <=? predicted_value e)%float = true
        /\ (predicted_value e <=? upper_bound e)%float = true.
Proof.
  intros features preds Ht Hn Hlen Hfin Hstd.
  unfold ValueForecaster.forecast. rewrite Ht. simpl negb. cbv iota.
  fold features. fold preds.
  eexists. split; [reflexivity|]. cbn [predictions]. split.
  - rewrite length_imap, length_zip, length_map, Nat.min_id, Hlen.
    unfold features, ValueForecaster._generate_future_features.
    rewrite length_map, length_seqZ. lia.
  - intros i e. rewrite list_lookup_imap, zip_map_lookup.
    destruct (preds !! i) as [p|] eqn:Ep; [|discriminate].
    simpl. intros [= <-]. cbn [period predicted_value lower_bound upper_bound fst snd].
    split; [reflexivity|]. split; [reflexivity|].
    apply band_contains.
    + rewrite Forall_forall in Hfin. apply Hfin. apply list_elem_of_lookup. eauto.
    + apply mul_nonneg; [assumption|apply is_positive_spec; reflexivity].
Qed.

(** ** The theorems at concrete inputs *)

Lemma estimated_value_formula_witness :
  (0 <=? DispositionPredictor._calculate_estimated_value
           (sample_item "Electronics" "New" "High" 15000) "resale")%float = true
  /\ (DispositionPredictor._calculate_estimated_value
        (sample_item "Electronics" "New" "High" 15000) "Donate" =? 0)%float = true.
Proof.
  split.
  - destruct (estimated_value_formula (sample_item "Electronics" "New" "High" 15000) "resale")
      as (_ & H & _).
    apply H; reflexivity.
  - destruct (estimated_value_formula (sample_item "Electronics" "New" "High" 15000) "Donate")
      as (_ & _ & H).
    apply H; reflexivity.
Defined.

Lemma encode_condition_total_witness :
  FeatureEngineering._encode_condition "Lightly-Used" = 0.8%float
  /\ FeatureEngineering._encode_condition "refurbished" = 0.5%float.
Proof.
  split.
  - destruct (encode_condition_total "Lightly-Used") as (_ & _ & _ & _ & H & _).
    apply H. reflexivity.
  - destruct (encode_condition_total "refurbished") as (_ & _ & _ & _ & _ & _ & _ & _ & _ & H).
    apply H; discriminate.
Defined.

Lemma select_marketplace_priority_witness :
  DispositionPredictor._select_marketplace "donate" "Fashion" 20000 = None
  /\ DispositionPredictor._select_marketplace "Resale" "Fashion" 1350 = Some "Myntra"
  /\ DispositionPredictor._select_marketplace "resale" "Fashion" 2500 = Some "Flipkart 2GUD".
Proof.
  split; [|split].
  - apply (proj1 (select_marketplace_priority "donate" "Fashion" 20000)). discriminate.
  - destruct (proj2 (select_marketplace_priority "Resale" "Fashion" 1350) eq_refl)
      as (_ & _ & H & _).
    apply H; reflexivity.
  - destruct (proj2 (select_marketplace_priority "resale" "Fashion" 2500) eq_refl)
      as (_ & H & _).
    apply H; reflexivity.
Defined.

Lemma resale_marketplace_by_value_witness :
  (exists r,
      DispositionPredictor.predict (predictor_answering true "resale")
        (sample_item "Fashion" "good" "medium" 1500) = Ok r
      /\ marketplace r = Some "Myntra")
  /\ (exists r,
         DispositionPredictor.predict (predictor_answering true "resale")
           (sample_item "Electronics" "new" "medium" 15000) = Ok r
         /\ marketplace r = Some "Flipkart").
Proof.
  split.
  - destruct (resale_marketplace_by_value (predictor_answering true "resale")
                (sample_item "Fashion" "good" "medium" 1500) 0.9%float eq_refl eq_refl)
      as (r & Hr & _ & _ & H).
    exists r. split; [exact Hr|]. apply H; reflexivity.
  - destruct (resale_marketplace_by_value (predictor_answering true "resale")
                (sample_item "Electronics" "new" "medium" 15000) 0.9%float eq_refl eq_refl)
      as (r & Hr & _ & H & _).
    exists r. split; [exact Hr|]. apply H; try reflexivity. split; [reflexivity|discriminate].
Defined.

Definition untrained_forecaster : ValueForecaster.t :=
  {| ValueForecaster.is_trained := false;
     ValueForecaster.scaler_transform := fun rows => rows;
     ValueForecaster.model_predict := fun rows => map (fun _ => 0%float) rows |}.

(** A regressor for the examples: 1000 plus 100 times the quarter of the row. *)
Definition sample_forecaster : ValueForecaster.t :=
  {| ValueForecaster.is_trained := true;
     ValueForecaster.scaler_transform := fun rows => rows;
     ValueForecaster.model_predict :=
       fun rows => map (fun row => (1000 + 100 * nth 1 row 0)%float) rows |}.

(** A calendar of 30-day months for the examples: a date is a day number. *)
Definition sample_month (d : Z) : Z := ((d / 30) mod 12 + 1)%Z.
Definition sample_weekday (d : Z) : Z := (d mod 7)%Z.
Definition sample_day (d : Z) : Z := (d mod 30 + 1)%Z.

(** The population standard deviation, summed left to right. *)
Definition sample_std (xs : list float) : float :=
  let n := float_of_int (Z.of_nat (length xs)) in
  let avg := (fold_left PrimFloat.add xs 0%float / n)%float in
  PrimFloat.sqrt
    (fold_left PrimFloat.add (map (fun x => ((x - avg) * (x - avg))%float) xs) 0%float / n)%float.

Definition sample_forecast (self : ValueForecaster.t) (n : Z) : result ForecastResult :=
  ValueForecaster.forecast Z 0%Z Z.add sample_month sample_weekday sample_day
    sample_std (fun _ => 0%float) (fun _ => 0%float) (fun _ _ => 0%float)
    self n (Some "Electronics").

Lemma untrained_raises_ValueError_witness :
  DispositionPredictor.predict (predictor_answering false "resale")
    (sample_item "Electronics" "lightly-used" "high" 2500)
  = Raise (ValueError "Model must be trained before making predictions")
  /\ sample_forecast untrained_forecaster 6
     = Raise (ValueError "Model must be trained before forecasting").
Proof.
  split.
  - apply (proj1 untrained_raises_ValueError). reflexivity.
  - apply (proj2 untrained_raises_ValueError). reflexivity.
Defined.

Lemma forecast_entries_witness :
  exists res,
    sample_forecast sample_forecaster 6 = Ok res
    /\ Z.of_nat (length (predictions res)) = 6%Z
    /\ forall (i : nat) (e : ForecastEntry),
        predictions res !! i = Some e ->
        period e = (Z.of_nat i + 1)%Z
        /\ (lower_bound e <=? predicted_value e)%float = true
        /\ (predicted_value e <=? upper_bound e)%float = true.
Proof.
  destruct (forecast_entries Z 0%Z Z.add sample_month sample_weekday sample_day
              sample_std (fun _ => 0%float) (fun _ => 0%float) (fun _ _ => 0%float)
              sample_forecaster 6 (Some "Electronics"))
    as (res & Hres & Hlen & Hentries).
  - reflexivity.
  - lia.
  - reflexivity.
  - vm_compute. repeat constructor.
  - vm_compute. reflexivity.
  - exists res. split; [exact Hres|]. split; [exact Hlen|].
    intros i e He. destruct (Hentries i e He) as (Hp & _ & Hlo & Hhi). auto.
Defined.

Lemma risk_input_not_nan (a b c d e : float) :
  is_nan a = false -> is_nan b = false -> is_nan c = false -> is_nan d = false ->
  is_nan e = false ->
  forall k x, risk_input a b c d e !! k = Some x -> is_nan x = false.
Proof.
  intros Ha Hb Hc Hd He k x. unfold risk_input.
  repeat (rewrite lookup_insert; case_decide; [intros [= <-]; assumption|]).
  rewrite lookup_empty. discriminate.
Qed.

Lemma risk_score_formula_witness :
  (RiskAssessment.weighted_score
     (RiskAssessment.component_scores_of (risk_input 0.2 0.3 0.2 0.5 10)) <=? 100)%float = true
  /\ RiskAssessment.overall_score
       (RiskAssessment.calculate_risk_score (risk_input 0.12 0.65 0.08 0.25 3.5)) = 57.5%float
  /\ RiskAssessment.risk_level
       (RiskAssessment.calculate_risk_score (risk_input 0.12 0.65 0.08 0.25 3.5)) = "Medium".
Proof.
  split.
  - destruct (risk_score_formula (risk_input 0.2 0.3 0.2 0.5 10))
      as (_ & _ & _ & _ & _ & _ & _ & _ & H & _).
    destruct H as (_ & _ & _ & _ & H).
    + apply risk_input_not_nan; reflexivity.
    + apply H. reflexivity.
  - destruct (risk_score_formula (risk_input 0.12 0.65 0.08 0.25 3.5))
      as (_ & _ & _ & _ & _ & _ & _ & _ & _ & H).
    apply H. reflexivity.
Defined.

Lemma mixed_case_action_inconsistency_witness :
  DispositionPredictor._calculate_estimated_value
    (sample_item "Electronics" "lightly-used" "high" 2500) "Resale"
  = DispositionPredictor._calculate_estimated_value
      (sample_item "Electronics" "lightly-used" "high" 2500) "resale"
  /\ DispositionPredictor._select_marketplace "Resale" "Electronics" 1650
     = DispositionPredictor._select_marketplace "resale" "Electronics" 1650
  /\ DispositionPredictor._generate_reasoning
       (sample_item "Electronics" "lightly-used" "high" 2500) "Resale" 0.9
     = "Item in very good condition. Confidence: 90.0%".
Proof.
  destruct (mixed_case_action_inconsistency
              (sample_item "Electronics" "lightly-used" "high" 2500)
              "Resale" "Electronics" 1650 0.9)
    as (Hv & _ & _ & _ & Hm & Hr).
  - left. reflexivity.
  - discriminate.
  - split; [exact Hv|]. split; [exact Hm|]. rewrite Hr. reflexivity.
Defined.

Lemma risk_score_partial_input_witness :
  RiskAssessment.calculate_risk_score (<["defect_rate" := 0%float]> ∅)
  = RiskAssessment.calculate_risk_score ∅.
Proof.
  apply (proj1 risk_score_partial_input). apply lookup_empty.
Defined.

(** * Further properties of the engine *)

(** ** Order of the floats *)

Lemma ltb_upper_cases x a :
  (x <? a)%float = true -> finite a = true ->
  Prim2SF x = S754_infinity true \/ (finite x = true /\ (B2R x < B2R a)%R).
Proof.
  intros H Fa. destruct (leb_upper_cases x a (ltb_leb _ _ H) Fa) as [E|[Fx _]]; [auto|].
  right. split; [assumption|]. apply ltb_Rlt; assumption.
Qed.

Lemma ltb_neg_inf x a :
  Prim2SF x = S754_infinity true -> finite a = true -> (x <? a)%float = true.
Proof.
  intros E Fa. rewrite FloatAxioms.ltb_spec, E. unfold finite in Fa.
  destruct (Prim2SF a) as [s|s| |s m e]; try discriminate; reflexivity.
Qed.

Lemma leb_neg_inf_inv x b :
  (x <=? b)%float = true -> Prim2SF b = S754_infinity true -> Prim2SF x = S754_infinity true.
Proof.
  rewrite FloatAxioms.leb_spec. intros H E. rewrite E in H.
  destruct (Prim2SF x) as [s|s| |s m e]; try discriminate.
  destruct s; [reflexivity|discriminate].
Qed.

Lemma leb_ltb_trans a b c :
  (a <=? b)%float = true -> (b <? c)%float = true -> finite c = true -> (a <? c)%float = true.
Proof.
  intros Hab Hbc Fc. destruct (ltb_upper_cases b c Hbc Fc) as [E|[Fb Hlt]].
  - apply ltb_neg_inf; [|assumption]. apply (leb_neg_inf_inv a b); assumption.
  - destruct (leb_upper_cases a b Hab Fb) as [E|[Fa Hle]].
    + apply ltb_neg_inf; assumption.
    + apply ltb_of_Rlt; try assumption. lra.
Qed.

(** ** Price ranges *)

(** X8. The price range score is one of 0.2, 0.4, 0.6, 0.8 and 1.0, is 1.0
    for a NaN price, and never decreases when the price grows. *)
Theorem price_category_monotone (a b : float) :
  In (FeatureEngineering._get_price_category a) [0.2; 0.4; 0.6; 0.8; 1.0]%float
  /\ (is_nan a = true -> FeatureEngineering._get_price_category a = 1.0%float)
  /\ ((a <=? b)%float = true ->
      (FeatureEngineering._get_price_category a <=? FeatureEngineering._get_price_category b)%float
      = true).
Proof.
  unfold FeatureEngineering._get_price_category. split; [|split].
  - destruct (a <? 500)%float; [simpl; auto|].
    destruct (a <? 2000)%float; [simpl; auto|].
    destruct (a <? 10000)%float; [simpl; auto|].
    destruct (a <? 50000)%float; simpl; auto 6.
  - intros N. apply is_nan_spec in N.
    rewrite !FloatAxioms.ltb_spec, N. reflexivity.
  - intros Hab.
    assert (T : forall c, finite c = true -> (b <? c)%float = true -> (a <? c)%float = true).
    { intros c Fc Hbc. apply (leb_ltb_trans a b c); assumption. }
    pose proof (T 500%float eq_refl) as T1. pose proof (T 2000%float eq_refl) as T2.
    pose proof (T 10000%float eq_refl) as T3. pose proof (T 50000%float eq_refl) as T4.
    destruct (b <? 500)%float; [rewrite T1 by reflexivity; reflexivity|].
    destruct (b <? 2000)%float;
      [rewrite T2 by reflexivity; destruct (a <? 500)%float; reflexivity|].
    destruct (b <? 10000)%float;
      [rewrite T3 by reflexivity; destruct (a <? 500)%float, (a <? 2000)%float; reflexivity|].
    destruct (b <? 50000)%float;
      [rewrite T4 by reflexivity;
       destruct (a <? 500)%float, (a <? 2000)%float, (a <? 10000)%float; reflexivity|].
    destruct (a <? 500)%float, (a <? 2000)%float, (a <? 10000)%float, (a <? 50000)%float;
      reflexivity.
Qed.

(** ** Encoders of the market descriptors *)

Lemma seasonality_lookup k :
  dict_get FeatureEngineering.seasonality_map k 0.6%float
  = if String.eqb k "high" then 1.0%float
    else if String.eqb k "medium" then 0.6%float
    else if String.eqb k "low" then 0.3%float
    else 0.6%float.
Proof. unfold FeatureEngineering.seasonality_map. table_cases. Qed.

Lemma demand_lookup k :
  dict_get FeatureEngineering.demand_map k 0.6%float
  = if String.eqb k "high" then 1.0%float
    else if String.eqb k "medium" then 0.6%float
    else if String.eqb k "low" then 0.3%float
    else 0.6%float.
Proof. unfold FeatureEngineering.demand_map. table_cases. Qed.

Lemma channel_lookup k :
  dict_get FeatureEngineering.channel_map k 0.7%float
  = if String.eqb k "online" then 0.8%float
    else if String.eqb k "mobile-app" then 0.9%float
    else if String.eqb k "store" then 0.6%float
    else 0.7%float.
Proof. unfold FeatureEngineering.channel_map. table_cases. Qed.

Lemma category_lookup k :
  dict_get FeatureEngineering.category_map k 0.5%float
  = if String.eqb k "Electronics" then 0.9%float
    else if String.eqb k "Appliances" then 0.8%float
    else if String.eqb k "Fashion" then 0.6%float
    else if String.eqb k "Home & Kitchen" then 0.5%float
    else if String.eqb k "Books" then 0.3%float
    else if String.eqb k "Toys" then 0.4%float
    else 0.5%float.
Proof. unfold FeatureEngineering.category_map. table_cases. Qed.

Ltac eqb_cases :=
  repeat match goal with
         | |- context [String.eqb ?k ?c] => destruct (String.eqb_spec k c)
         end.

(** X9. The seasonality and demand encoders are the same function, read
    their argument up to case, and score every string other than high and
    low as medium, 0.6. *)
Theorem seasonality_and_demand_encoders (s : string) :
  FeatureEngineering._encode_seasonality s = FeatureEngineering._encode_demand s
  /\ FeatureEngineering._encode_demand (lower s) = FeatureEngineering._encode_demand s
  /\ (lower s = "high" -> FeatureEngineering._encode_demand s = 1.0%float)
  /\ (lower s = "low" -> FeatureEngineering._encode_demand s = 0.3%float)
  /\ (lower s <> "high" -> lower s <> "low" ->
      FeatureEngineering._encode_demand s = 0.6%float).
Proof.
  unfold FeatureEngineering._encode_seasonality, FeatureEngineering._encode_demand.
  rewrite lower_idempotent, seasonality_lookup, demand_lookup.
  repeat split; try (intros ->; reflexivity).
  intros H1 H2. eqb_cases; try reflexivity; congruence.
Qed.

(** ** Processing time and landfill weight *)

Lemma base_times_lookup k :
  dict_get DispositionPredictor.base_times k 3%Z
  = if String.eqb k "resale" then 2%Z
    else if String.eqb k "repair" then 5%Z
    else if String.eqb k "recycle" then 1%Z
    else if String.eqb k "donate" then 3%Z
    else 3%Z.
Proof. unfold DispositionPredictor.base_times. table_cases. Qed.

Lemma category_multiplier_lookup k :
  dict_get DispositionPredictor.category_multiplier k 1.0%float
  = if String.eqb k "Electronics" then 1.3%float
    else if String.eqb k "Appliances" then 1.5%float
    else if String.eqb k "Fashion" then 0.8%float
    else if String.eqb k "Home & Kitchen" then 1.0%float
    else 1.0%float.
Proof. unfold DispositionPredictor.category_multiplier. table_cases. Qed.

Lemma category_weight_lookup k :
  dict_get DispositionPredictor.category_weight k 0.5%float
  = if String.eqb k "Electronics" then 0.8%float
    else if String.eqb k "Appliances" then 2.5%float
    else if String.eqb k "Fashion" then 0.3%float
    else if String.eqb k "Home & Kitchen" then 0.6%float
    else 0.5%float.
Proof. unfold DispositionPredictor.category_weight. table_cases. Qed.

Lemma waste_action_factor_lookup k :
  dict_get DispositionPredictor.waste_action_factor k 0.5%float
  = if String.eqb k "resale" then 0.95%float
    else if String.eqb k "repair" then 0.85%float
    else if String.eqb k "recycle" then 0.60%float
    else if String.eqb k "donate" then 0.90%float
    else 0.5%float.
Proof. unfold DispositionPredictor.waste_action_factor. table_cases. Qed.

Lemma base_co2_lookup k :
  dict_get DispositionPredictor.base_co2_per_rupee k 0.001%float
  = if String.eqb k "resale" then 0.003%float
    else if String.eqb k "repair" then 0.002%float
    else if String.eqb k "recycle" then 0.001%float
    else if String.eqb k "donate" then 0.0025%float
    else 0.001%float.
Proof. unfold DispositionPredictor.base_co2_per_rupee. table_cases. Qed.

(** The tests of a table, taken as booleans: every combination is evaluated. *)
Ltac eqb_bools :=
  repeat match goal with
         | |- context [if String.eqb ?k ?c then _ else _] =>
             is_var k; destruct (String.eqb k c); cbv iota
         end.

(** X5. The processing time is between 1 and 8 days for every action and
    category; within a category recycle is the fastest and repair the
    slowest, and resale is never slower than donate. *)
Theorem processing_time_bounds (action category : string) :
  let days := fun a => DispositionPredictor._estimate_processing_time a category in
  (1 <= days action <= 8)%Z
  /\ (days "recycle" <= days action <= days "repair")%Z
  /\ (days "recycle" <= days "resale" <= days "donate")%Z.
Proof.
  cbv zeta.
  assert (H : ((1 <=? DispositionPredictor._estimate_processing_time action category)
               && (DispositionPredictor._estimate_processing_time action category <=? 8)
               && (DispositionPredictor._estimate_processing_time "recycle" category
                   <=? DispositionPredictor._estimate_processing_time action category)
               && (DispositionPredictor._estimate_processing_time action category
                   <=? DispositionPredictor._estimate_processing_time "repair" category)
               && (DispositionPredictor._estimate_processing_time "recycle" category
                   <=? DispositionPredictor._estimate_processing_time "resale" category)
               && (DispositionPredictor._estimate_processing_time "resale" category
                   <=? DispositionPredictor._estimate_processing_time "donate" category))%Z
              = true).
  { unfold DispositionPredictor._estimate_processing_time.
    rewrite !base_times_lookup, !category_multiplier_lookup.
    change (lower "recycle") with "recycle". change (lower "repair") with "repair".
    change (lower "resale") with "resale". change (lower "donate") with "donate".
    generalize (lower action). intros a.
    eqb_bools; vm_compute; reflexivity. }
  rewrite !andb_true_iff, !Z.leb_le in H. lia.
Qed.

(** X4. The landfill weight avoided lies between 0.15 and 2.38 kg for every
    item and action, resale avoiding the most, then donate, repair and
    recycle. *)
Theorem waste_impact_bounds (item : ReturnItem) (action : string) :
  let kg := fun a => DispositionPredictor._calculate_waste_impact item a in
  (0.15 <=? kg action)%float = true
  /\ (kg action <=? 2.38)%float = true
  /\ (kg action <=? kg "resale")%float = true
  /\ (kg "recycle" <=? kg "repair")%float = true
  /\ (kg "repair" <=? kg "donate")%float = true
  /\ (kg "donate" <=? kg "resale")%float = true.
Proof.
  cbv zeta. unfold DispositionPredictor._calculate_waste_impact.
  rewrite !category_weight_lookup, !waste_action_factor_lookup.
  change (lower "recycle") with "recycle". change (lower "repair") with "repair".
  change (lower "resale") with "resale". change (lower "donate") with "donate".
  generalize (lower action) (category item). intros a c.
  eqb_bools; vm_compute; repeat split; reflexivity.
Qed.

(** ** Categories are matched as written *)

Lemma leb_not_ltb x y : (x <=? y)%float = true -> (y <? x)%float = false.
Proof.
  rewrite FloatAxioms.leb_spec, FloatAxioms.ltb_spec. unfold SFleb, SFltb.
  rewrite (SFcompare_antisym (Prim2SF x) (Prim2SF y)).
  destruct (SFcompare (Prim2SF x) (Prim2SF y)) as [[| |]|]; simpl; congruence.
Qed.

(** X6. The category is matched as it is written: an item whose category is
    not exactly one of the four table keys (for instance electronics in
    lower case) gets the default landfill weight 0.5, the base processing
    time of its action, the marketplace Walmart Marketplace for a resale
    value of at most 2000, and, unless it is Books or Toys, the default
    category score 0.5. *)
Theorem category_is_matched_exactly (item : ReturnItem) (action : string) (value : float) :
  category item <> "Electronics" -> category item <> "Appliances" ->
  category item <> "Fashion" -> category item <> "Home & Kitchen" ->
  DispositionPredictor._calculate_waste_impact item action
  = py_round (0.5 * dict_get DispositionPredictor.waste_action_factor (lower action) 0.5)%float 2
  /\ DispositionPredictor._estimate_processing_time action (category item)
     = dict_get DispositionPredictor.base_times (lower action) 3%Z
  /\ ((value <=? 2000)%float = true ->
      DispositionPredictor._select_marketplace "resale" (category item) value
      = Some "Walmart Marketplace")
  /\ (category item <> "Books" -> category item <> "Toys" ->
      FeatureEngineering._encode_category (category item) = 0.5%float).
Proof.
  intros H1 H2 H3 H4.
  assert (E1 : String.eqb (category item) "Electronics" = false) by (apply String.eqb_neq; assumption).
  assert (E2 : String.eqb (category item) "Appliances" = false) by (apply String.eqb_neq; assumption).
  assert (E3 : String.eqb (category item) "Fashion" = false) by (apply String.eqb_neq; assumption).
  assert (E4 : String.eqb (category item) "Home & Kitchen" = false)
    by (apply String.eqb_neq; assumption).
  split; [|split; [|split]].
  - unfold DispositionPredictor._calculate_waste_impact.
    rewrite category_weight_lookup, E1, E2, E3, E4. reflexivity.
  - unfold DispositionPredictor._estimate_processing_time.
    rewrite category_multiplier_lookup, E1, E2, E3, E4, base_times_lookup.
    generalize (lower action). intros a. eqb_bools; vm_compute; reflexivity.
  - intros Hv. unfold DispositionPredictor._select_marketplace.
    change (negb (String.eqb (lower "resale") "resale")) with false. cbv iota.
    rewrite (leb_not_ltb _ _ Hv).
    assert (Hv' : (value <=? 10000)%float = true).
    { apply ltb_leb. apply (leb_ltb_trans value 2000 10000); auto. }
    rewrite (leb_not_ltb _ _ Hv'), E1, E3. reflexivity.
  - intros H5 H6. unfold FeatureEngineering._encode_category.
    rewrite category_lookup, E1, E2, E3, E4.
    rewrite (proj2 (String.eqb_neq _ _) H5), (proj2 (String.eqb_neq _ _) H6). reflexivity.
Qed.

(** ** Sentiment of the return reason *)

Lemma prefix_app w a b : String.prefix w a = true -> String.prefix w (a +:+ b) = true.
Proof.
  revert a. induction w as [|c w IH]; intros a; [intros _; destruct (a +:+ b); reflexivity|].
  destruct a as [|c' a]; simpl; [discriminate|].
  destruct (ascii_dec c c'); [apply IH|discriminate].
Qed.




Lemma count_positive {A : Type} (p : A -> bool) (l : list A) :
  (0 <? Z.of_nat (length (List.filter p l)))%Z = existsb p l.
Proof.
  induction l as [|x l IH]; [reflexivity|]. simpl. destruct (p x); [|assumption].
  simpl. apply Z.ltb_lt. lia.
Qed.

(** Whether one of the words occurs in the lowercased reason. *)
Definition mentions (words : list string) (reason : string) : bool :=
  existsb (fun word => str_in word (lower reason)) words.

Lemma sentiment_eq reason :
  FeatureEngineering._analyze_reason_sentiment reason
  = if mentions FeatureEngineering.negative_words reason then 0.2%float
    else if mentions FeatureEngineering.neutral_words reason then 0.6%float
    else 0.8%float.
Proof.
  unfold FeatureEngineering._analyze_reason_sentiment. cbv zeta.
  rewrite !count_positive. reflexivity.
Qed.





(** ** Rounding to decimals is monotone *)

(** [k] is the integer nearest to [x], the even one of the two on a tie. *)
Definition nearest_even (x : R) (k : Z) : Prop :=
  (Rabs (x - IZR k) <= 1 / 2)%R /\ (Rabs (x - IZR k) = (1 / 2)%R -> Z.even k = true).

Lemma Rabs_bound x a : (Rabs x <= a)%R -> (- a <= x <= a)%R.
Proof. unfold Rabs. destruct (Rcase_abs x); lra. Qed.

Lemma nearest_even_mono x y kx ky :
  (x <= y)%R -> nearest_even x kx -> nearest_even y ky -> (kx <= ky)%Z.
Proof.
  intros Hxy [Hx Ex] [Hy Ey].
  destruct (Z_le_gt_dec kx ky) as [|Hgt]; [assumption|exfalso].
  assert (Hk : (IZR ky + 1 <= IZR kx)%R) by (rewrite <- plus_IZR; apply IZR_le; lia).
  apply Rabs_bound in Hx. apply Rabs_bound in Hy.
  assert (E1 : (x - IZR kx = - (1 / 2))%R) by lra.
  assert (E2 : (y - IZR ky = 1 / 2)%R) by lra.
  assert (E3 : IZR kx = (IZR ky + 1)%R) by lra.
  rewrite <- plus_IZR in E3. apply eq_IZR in E3.
  assert (Z.even kx = true) by (apply Ex; rewrite E1, Rabs_Ropp, Rabs_pos_eq; lra).
  assert (Z.even ky = true) by (apply Ey; rewrite E2, Rabs_pos_eq; lra).
  subst kx. rewrite Z.even_add in *. simpl in *. destruct (Z.even ky); discriminate.
Qed.

Lemma nearest_even_exact k : nearest_even (IZR k) k.
Proof.
  unfold nearest_even. replace (IZR k - IZR k)%R with 0%R by ring. rewrite Rabs_R0.
  split; lra.
Qed.

Lemma div_half_even_spec n d :
  (0 <= n)%Z -> (0 < d)%Z -> nearest_even (IZR n / IZR d) (div_half_even n d).
Proof.
  intros Hn Hd. unfold div_half_even.
  pose proof (Z.div_mod n d ltac:(lia)) as E. pose proof (Z.mod_pos_bound n d Hd) as B.
  set (q := (n / d)%Z) in *. set (r := (n mod d)%Z) in *.
  assert (D : (0 < IZR d)%R) by (apply IZR_lt; lia).
  assert (X : (IZR n / IZR d = IZR q + IZR r / IZR d)%R).
  { rewrite E, plus_IZR, mult_IZR. field. lra. }
  assert (R0 : (0 <= IZR r / IZR d)%R).
  { apply Rmult_le_pos; [apply IZR_le; lia|]. apply Rlt_le, Rinv_0_lt_compat, D. }
  assert (T : forall c : R, (IZR r / IZR d = c <-> IZR r = c * IZR d)%R).
  { intros c. split; intros H; [rewrite <- H; field; lra|rewrite H; field; lra]. }
  unfold nearest_even. rewrite X.
  destruct (Z.compare_spec (2 * r) d) as [H|H|H].
  - assert (Hh : (IZR r / IZR d = 1 / 2)%R).
    { apply T. rewrite <- H, mult_IZR. lra. }
    destruct (Z.even q) eqn:Ev.
    + replace (IZR q + IZR r / IZR d - IZR q)%R with (1 / 2)%R by lra.
      rewrite Rabs_pos_eq by lra. split; [lra|auto].
    + replace (IZR q + IZR r / IZR d - IZR (q + 1))%R with (- (1 / 2))%R
        by (rewrite plus_IZR; lra).
      rewrite Rabs_Ropp, Rabs_pos_eq by lra. split; [lra|]. intros _.
      rewrite Z.even_add, Ev. reflexivity.
  - assert (Hh : (IZR r / IZR d < 1 / 2)%R).
    { apply (Rmult_lt_reg_r (IZR d)); [assumption|].
      replace (IZR r / IZR d * IZR d)%R with (IZR r) by (field; lra).
      apply IZR_lt in H. rewrite mult_IZR in H. lra. }
    replace (IZR q + IZR r / IZR d - IZR q)%R with (IZR r / IZR d)%R by lra.
    rewrite Rabs_pos_eq by lra. split; lra.
  - assert (Hh : (1 / 2 < IZR r / IZR d)%R).
    { apply (Rmult_lt_reg_r (IZR d)); [assumption|].
      replace (IZR r / IZR d * IZR d)%R with (IZR r) by (field; lra).
      apply IZR_lt in H. rewrite mult_IZR in H. lra. }
    assert (Hl : (IZR r / IZR d < 1)%R).
    { apply (Rmult_lt_reg_r (IZR d)); [assumption|].
      replace (IZR r / IZR d * IZR d)%R with (IZR r) by (field; lra).
      assert (IZR r < IZR d)%R by (apply IZR_lt; lia). lra. }
    replace (IZR q + IZR r / IZR d - IZR (q + 1))%R with (- (1 - IZR r / IZR d))%R
      by (rewrite plus_IZR; lra).
    rewrite Rabs_Ropp, Rabs_pos_eq by lra. split; lra.
Qed.

Lemma decimal_digits_spec m e nd :
  (0 <= nd)%Z -> nearest_even (F2R (Zpos m) e * IZR (10 ^ nd)) (decimal_digits m e nd).
Proof.
  intros Hnd. unfold decimal_digits.
  assert (P10 : (0 < 10 ^ nd)%Z) by (apply Z.pow_pos_nonneg; lia).
  destruct (Z.leb_spec 0 e) as [He|He].
  - replace (F2R (Zpos m) e * IZR (10 ^ nd))%R with (IZR (Zpos m * 2 ^ e * 10 ^ nd)).
    + apply nearest_even_exact.
    + unfold F2R. rewrite (bpow_IZR e He), !mult_IZR. reflexivity.
  - replace (F2R (Zpos m) e * IZR (10 ^ nd))%R
      with (IZR (Zpos m * 10 ^ nd) / IZR (2 ^ (- e)))%R.
    + apply div_half_even_spec; [lia|]. apply Z.pow_pos_nonneg; lia.
    + unfold F2R. rewrite mult_IZR.
      assert (B : (bpow e * bpow (- e) = 1)%R).
      { rewrite <- bpow_add. replace (e + - e)%Z with 0%Z by lia. reflexivity. }
      rewrite (bpow_IZR (- e)) in B by lia.
      assert (0 < IZR (2 ^ (- e)))%R by (apply IZR_lt, Z.pow_pos_nonneg; lia).
      apply (Rmult_eq_reg_r (IZR (2 ^ (- e)))); [|lra].
      replace (IZR (Z.pos m) * IZR (10 ^ nd) / IZR (2 ^ (- e)) * IZR (2 ^ (- e)))%R
        with (IZR (Z.pos m) * IZR (10 ^ nd))%R by (field; lra).
      transitivity (IZR (Z.pos m) * IZR (10 ^ nd) * (bpow e * IZR (2 ^ (- e))))%R; [|ring].
      rewrite B. ring.
Qed.

Lemma decimal_digits_nonneg m e nd : (0 <= nd)%Z -> (0 <= decimal_digits m e nd)%Z.
Proof.
  intros Hnd. destruct (decimal_digits_spec m e nd Hnd) as [H _].
  apply Rabs_bound in H.
  assert (0 < F2R (Zpos m) e * IZR (10 ^ nd))%R.
  { apply Rmult_lt_0_compat; [apply F2R_pos|]. apply IZR_lt, Z.pow_pos_nonneg; lia. }
  destruct (Z_le_gt_dec 0 (decimal_digits m e nd)) as [|Hneg]; [assumption|exfalso].
  assert (IZR (decimal_digits m e nd) <= -1)%R by (apply IZR_le; lia). lra.
Qed.

(** The float that [round] returns on a positive finite number: its decimal
    digits over the power of ten, rounded. *)
Lemma py_round_pos_rounds x m e nd :
  Prim2SF x = S754_finite false m e -> (0 <= nd)%Z ->
  rounds (IZR (decimal_digits m e nd) / IZR (10 ^ nd)) (py_round x nd).
Proof.
  intros E Hnd. unfold py_round, rounds. rewrite E.
  pose proof (decimal_digits_nonneg m e nd Hnd) as Hk.
  assert (P10 : (0 < 10 ^ nd)%Z) by (apply Z.pow_pos_nonneg; lia).
  destruct (decimal_digits m e nd) as [|k|k]; [| |lia].
  - eapply rounds_to_ext; [|apply (rounds_to_zero false)]. unfold Rdiv. ring.
  - set (d := Z.to_pos (10 ^ nd)).
    pose proof (SFdiv_rounds (S754_finite false k 0) false d 0 eq_refl) as Hr.
    rewrite Prim2SF_SF2Prim by apply (rounds_to_valid _ _ Hr).
    eapply rounds_to_ext; [|exact Hr]. simpl SF2R. unfold F2R.
    change (bpow 0) with 1%R. unfold d. rewrite Z2Pos.id by assumption. rewrite !Rmult_1_r.
    reflexivity.
Qed.

Lemma zero_leb x z s : Prim2SF x = S754_zero s -> (x <=? z)%float = (0 <=? z)%float.
Proof. intros E. rewrite !FloatAxioms.leb_spec, E. reflexivity. Qed.

Lemma leb_zero x z s : Prim2SF z = S754_zero s -> (x <=? z)%float = (x <=? 0)%float.
Proof.
  intros E. rewrite !FloatAxioms.leb_spec, E. unfold SFleb.
  change (Prim2SF 0) with (S754_zero false).
  destruct (Prim2SF x) as [sx|sx| |sx mx ex]; reflexivity.
Qed.

Lemma leb_pos_inf x z :
  is_nan x = false -> Prim2SF z = S754_infinity false -> (x <=? z)%float = true.
Proof.
  intros N E. rewrite FloatAxioms.leb_spec, E. apply SFleb_pos_inf, not_nan_SF, N.
Qed.

Lemma finite_SF x s m e : Prim2SF x = S754_finite s m e -> finite x = true.
Proof. unfold finite. intros ->. reflexivity. Qed.

Lemma B2R_SF x s m e :
  Prim2SF x = S754_finite s m e -> B2R x = if s then (- F2R (Zpos m) e)%R else F2R (Zpos m) e.
Proof. unfold B2R. intros ->. reflexivity. Qed.

Lemma nonneg_sign x s m e :
  (0 <=? x)%float = true -> Prim2SF x = S754_finite s m e -> s = false.
Proof.
  intros H E. rewrite FloatAxioms.leb_spec, E in H. destruct s; [discriminate|reflexivity].
Qed.

Lemma py_round_monotone (x y : float) (nd : Z) :
  (0 <= nd)%Z -> (0 <=? x)%float = true -> (x <=? y)%float = true ->
  (py_round x nd <=? py_round y nd)%float = true.
Proof.
  intros Hnd H0 Hxy.
  assert (H0y : (0 <=? py_round y nd)%float = true).
  { apply py_round_nonneg. destruct (Prim2SF x) as [sx|sx| |sx mx ex] eqn:Ex.
    - rewrite <- (zero_leb x y sx Ex). assumption.
    - rewrite FloatAxioms.leb_spec, Ex in H0. destruct sx; [discriminate|].
      rewrite FloatAxioms.leb_spec, Ex in Hxy. rewrite FloatAxioms.leb_spec.
      destruct (Prim2SF y) as [sy|sy| |sy my ey]; try discriminate; destruct sy; try discriminate;
        reflexivity.
    - apply leb_not_nan_l in Hxy. apply is_nan_spec in Ex. congruence.
    - pose proof (nonneg_sign _ _ _ _ H0 Ex) as ->.
      rewrite FloatAxioms.leb_spec, Ex in Hxy. rewrite FloatAxioms.leb_spec.
      destruct (Prim2SF y) as [sy|sy| |sy my ey]; try discriminate; destruct sy; try discriminate;
        reflexivity. }
  destruct (Prim2SF x) as [sx|sx| |sx mx ex] eqn:Ex.
  - rewrite (py_round_zero x nd sx Ex), (zero_leb x _ sx Ex). assumption.
  - assert (py_round x nd = x) as -> by (unfold py_round; rewrite Ex; reflexivity).
    rewrite FloatAxioms.leb_spec, Ex in H0. destruct sx; [discriminate|].
    assert (Ey : Prim2SF y = S754_infinity false).
    { rewrite FloatAxioms.leb_spec, Ex in Hxy.
      destruct (Prim2SF y) as [sy|sy| |sy my ey]; try discriminate;
        destruct sy; try discriminate; reflexivity. }
    assert (py_round y nd = y) as -> by (unfold py_round; rewrite Ey; reflexivity).
    assumption.
  - apply leb_not_nan_l in Hxy. apply is_nan_spec in Ex. congruence.
  - pose proof (nonneg_sign _ _ _ _ H0 Ex) as ->.
    pose proof (py_round_pos_rounds x mx ex nd Ex Hnd) as Rx.
    destruct (Prim2SF y) as [sy|sy| |sy my ey] eqn:Ey.
    + exfalso. rewrite (leb_zero x y sy Ey) in Hxy.
      pose proof (leb_Rle x 0 (finite_SF _ _ _ _ Ex) eq_refl Hxy) as H.
      rewrite (B2R_SF _ _ _ _ Ex), B2R_zero in H. pose proof (F2R_pos mx ex). lra.
    + assert (sy = false) as ->.
      { rewrite FloatAxioms.leb_spec, Ex, Ey in Hxy. destruct sy; [discriminate|reflexivity]. }
      assert (py_round y nd = y) as -> by (unfold py_round; rewrite Ey; reflexivity).
      apply leb_pos_inf; [|assumption]. apply (rounds_not_nan _ _ Rx).
    + apply leb_not_nan_r in Hxy. apply is_nan_spec in Ey. congruence.
    + pose proof (leb_Rle x y (finite_SF _ _ _ _ Ex) (finite_SF _ _ _ _ Ey) Hxy) as H.
      rewrite (B2R_SF _ _ _ _ Ex), (B2R_SF _ _ _ _ Ey) in H.
      pose proof (F2R_pos mx ex). pose proof (F2R_pos my ey).
      destruct sy; [lra|].
      pose proof (py_round_pos_rounds y my ey nd Ey Hnd) as Ry.
      assert (P10 : (0 < IZR (10 ^ nd))%R) by (apply IZR_lt, Z.pow_pos_nonneg; lia).
      assert (Hk : (decimal_digits mx ex nd <= decimal_digits my ey nd)%Z).
      { apply (nearest_even_mono (F2R (Zpos mx) ex * IZR (10 ^ nd))
                 (F2R (Zpos my) ey * IZR (10 ^ nd))).
        - apply Rmult_le_compat_r; lra.
        - apply decimal_digits_spec, Hnd.
        - apply decimal_digits_spec, Hnd. }
      destruct (Z.eq_dec (decimal_digits mx ex nd) (decimal_digits my ey nd)) as [Ek|Nk].
      * assert (py_round x nd = py_round y nd) as ->
          by (unfold py_round; rewrite Ex, Ey, Ek; reflexivity).
        apply leb_refl. apply (rounds_not_nan _ _ Ry).
      * apply (rounds_mono _ _ _ _ Rx Ry).
        apply Rmult_lt_compat_r; [apply Rinv_0_lt_compat, P10|]. apply IZR_lt. lia.
Qed.

(** ** Products of non negative floats *)

Lemma B2R_zero_inv w : finite w = true -> B2R w = 0%R -> exists s, Prim2SF w = S754_zero s.
Proof.
  unfold finite, B2R. destruct (Prim2SF w) as [s|s| |s m e]; try discriminate; [eauto|].
  intros _ H. simpl in H. pose proof (F2R_pos m e). destruct s; lra.
Qed.

Lemma zeros_leb x z sx sz :
  Prim2SF x = S754_zero sx -> Prim2SF z = S754_zero sz -> (x <=? z)%float = true.
Proof. intros Ex Ez. rewrite FloatAxioms.leb_spec, Ex, Ez. reflexivity. Qed.

Lemma float_eq_cases a b :
  finite a = true -> finite b = true -> B2R a = B2R b ->
  a = b \/ exists sa sb, Prim2SF a = S754_zero sa /\ Prim2SF b = S754_zero sb.
Proof.
  intros Fa Fb E.
  destruct (SF2R_eq_cases (Prim2SF a) (Prim2SF b) (Prim2SF_valid a) (Prim2SF_valid b) Fa Fb E)
    as [H|H]; [left; apply FloatAxioms.Prim2SF_inj, H|right; exact H].
Qed.

(** Multiplication of a non negative float is monotone in the other factor. *)
Lemma mul_le_mono_r t a1 a2 :
  finite t = true -> (0 <= B2R t)%R -> (a1 <=? a2)%float = true ->
  finite a1 = true -> finite a2 = true -> (t * a1 <=? t * a2)%float = true.
Proof.
  intros Ft Ht Ha F1 F2.
  pose proof (leb_Rle _ _ F1 F2 Ha) as Hr.
  pose proof (mul_rounds t a1 Ft F1) as R1. pose proof (mul_rounds t a2 Ft F2) as R2.
  destruct (Req_dec (B2R t) 0) as [T0|T0].
  - destruct (B2R_zero_inv t Ft T0) as [s Et].
    destruct (mul_zero_l t a1 s Et F1) as [s1 E1]. destruct (mul_zero_l t a2 s Et F2) as [s2 E2].
    exact (zeros_leb _ _ _ _ E1 E2).
  - destruct (Req_dec (B2R a1) (B2R a2)) as [E|N].
    + destruct (float_eq_cases a1 a2 F1 F2 E) as [->|(s1 & s2 & E1 & E2)].
      * apply leb_refl. apply (rounds_not_nan _ _ R2).
      * destruct (mul_zero_r t a1 s1 Ft E1) as [z1 Z1].
        destruct (mul_zero_r t a2 s2 Ft E2) as [z2 Z2].
        exact (zeros_leb _ _ _ _ Z1 Z2).
    + apply (rounds_mono _ _ _ _ R1 R2). nra.
Qed.

(** Multiplication by a non negative float is monotone on the non negative
    floats. *)
Lemma mul_le_mono0 x y w :
  (0 <=? x)%float = true -> (x <=? y)%float = true -> finite y = true ->
  finite w = true -> (0 <= B2R w)%R -> (x * w <=? y * w)%float = true.
Proof.
  intros H0 Hxy Fy Fw Hw.
  assert (Fx : finite x = true) by (apply (leb_between_finite 0 x y); auto).
  destruct (Req_dec (B2R w) 0) as [W0|W0].
  - destruct (B2R_zero_inv w Fw W0) as [s Ew].
    destruct (mul_zero_r x w s Fx Ew) as [s1 E1]. destruct (mul_zero_r y w s Fy Ew) as [s2 E2].
    exact (zeros_leb _ _ _ _ E1 E2).
  - apply mul_le_mono; auto. lra.
Qed.

Lemma mul_nonneg0 x w :
  (0 <=? x)%float = true -> finite x = true -> finite w = true -> (0 <= B2R w)%R ->
  (0 <=? x * w)%float = true.
Proof.
  intros H0 Fx Fw Hw.
  pose proof (leb_Rle 0 x eq_refl Fx H0) as Hx. rewrite B2R_zero in Hx.
  apply (rounds_ge _ _ 0 (mul_rounds x w Fx Fw) eq_refl). rewrite B2R_zero. nra.
Qed.

Lemma condition_multiplier_positive c : is_positive (condition_multiplier_of c) = true.
Proof.
  unfold condition_multiplier_of. generalize (lower c). intros k. cbv zeta.
  eqb_bools; reflexivity.
Qed.

(** The product that [_calculate_estimated_value] rounds, for a price that is
    not negative: it is not negative and grows with the price and with the
    action multiplier. *)
Lemma value_product (p1 p2 c a1 a2 d : float) :
  (0 <=? p1)%float = true -> (p1 <=? p2)%float = true -> finite p2 = true ->
  in_unit c = true -> is_positive c = true ->
  in_unit a1 = true -> in_unit a2 = true -> (a1 <=? a2)%float = true ->
  is_positive d = true ->
  (0 <=? p1 * c * a1 * d)%float = true
  /\ (p1 * c * a1 * d <=? p2 * c * a2 * d)%float = true.
Proof.
  intros H0 H12 F2 Uc Pc U1 U2 Ha Pd.
  assert (F1 : finite p1 = true) by (apply (leb_between_finite 0 p1 p2); auto).
  destruct (in_unit_spec c Uc) as [Fc Rc]. pose proof (is_positive_spec c Pc) as Pc'.
  destruct (in_unit_spec a1 U1) as [Fa1 Ra1]. destruct (in_unit_spec a2 U2) as [Fa2 Ra2].
  pose proof (is_positive_spec d Pd) as Pd'.
  destruct (mul_contract p1 c F1 Fc Rc) as [Ft1 _].
  destruct (mul_contract p2 c F2 Fc Rc) as [Ft2 _].
  assert (T0 : (0 <=? p1 * c)%float = true) by (apply mul_nonneg; assumption).
  assert (T12 : (p1 * c <=? p2 * c)%float = true) by (apply mul_le_mono; assumption).
  assert (T0' : (0 <=? p2 * c)%float = true).
  { apply mul_nonneg; [|assumption].
    apply leb_of_Rle; [reflexivity|assumption|].
    pose proof (leb_Rle 0 p1 eq_refl F1 H0). pose proof (leb_Rle p1 p2 F1 F2 H12). lra. }
  destruct (mul_contract (p1 * c) a1 Ft1 Fa1 Ra1) as [Fu1 _].
  destruct (mul_contract (p2 * c) a2 Ft2 Fa2 Ra2) as [Fu2 _].
  destruct (mul_contract (p2 * c) a1 Ft2 Fa1 Ra1) as [Fu21 _].
  assert (U0 : (0 <=? p1 * c * a1)%float = true) by (apply mul_nonneg0; auto; lra).
  assert (U12 : (p1 * c * a1 <=? p2 * c * a2)%float = true).
  { assert (S1 : (p1 * c * a1 <=? p2 * c * a1)%float = true)
      by (apply mul_le_mono0; auto; lra).
    assert (S2 : (p2 * c * a1 <=? p2 * c * a2)%float = true).
    { apply mul_le_mono_r; auto.
      pose proof (leb_Rle 0 (p2 * c) eq_refl Ft2 T0') as H. rewrite B2R_zero in H. exact H. }
    apply leb_of_Rle; auto.
    pose proof (leb_Rle _ _ Fu1 Fu21 S1). pose proof (leb_Rle _ _ Fu21 Fu2 S2). lra. }
  split; [apply mul_nonneg; assumption|apply mul_le_mono; assumption].
Qed.

(** ** Estimated value, price and action *)

(** The item with another original price. *)
Definition with_price (item : ReturnItem) (price : float) : ReturnItem :=
  {| sku := sku item;
     product_name := product_name item;
     category := category item;
     condition := condition item;
     return_reason := return_reason item;
     original_price := price;
     customer_age := customer_age item;
     purchase_channel := purchase_channel item;
     location := location item;
     return_date := return_date item;
     manufacturing_date := manufacturing_date item;
     warranty_status := warranty_status item;
     material_composition := material_composition item;
     seasonality := seasonality item;
     market_demand := market_demand item |}.

(** X1. The estimated value never decreases when the original price grows,
    everything else in the item and the action being the same, for prices
    that are finite and not negative. *)
Theorem estimated_value_grows_with_price (item : ReturnItem) (action : string)
    (p1 p2 : float) :
  (0 <=? p1)%float = true -> (p1 <=? p2)%float = true -> finite p2 = true ->
  (DispositionPredictor._calculate_estimated_value (with_price item p1) action
   <=? DispositionPredictor._calculate_estimated_value (with_price item p2) action)%float = true.
Proof.
  intros H0 H12 F2. rewrite !estimated_value_eq.
  cbn [with_price original_price condition market_demand].
  assert (Na : is_nan (action_multiplier_of action) = false)
    by (unfold action_multiplier_of; generalize (lower action); intros k; cbv zeta;
        eqb_bools; reflexivity).
  destruct (value_product p1 p2 (condition_multiplier_of (condition item))
              (action_multiplier_of action) (action_multiplier_of action)
              (demand_adjustment_of (market_demand item)) H0 H12 F2
              (condition_multiplier_unit _) (condition_multiplier_positive _)
              (action_multiplier_unit _) (action_multiplier_unit _) (leb_refl _ Na)
              (demand_adjustment_positive _)) as [P0 P12].
  apply py_round_monotone; [lia|assumption|assumption].
Qed.

Lemma value_by_multiplier (item : ReturnItem) (a b : string) :
  (0 <=? original_price item)%float = true -> finite (original_price item) = true ->
  (action_multiplier_of a <=? action_multiplier_of b)%float = true ->
  (DispositionPredictor._calculate_estimated_value item a
   <=? DispositionPredictor._calculate_estimated_value item b)%float = true.
Proof.
  intros H0 F Hab. rewrite !estimated_value_eq.
  destruct (value_product (original_price item) (original_price item)
              (condition_multiplier_of (condition item))
              (action_multiplier_of a) (action_multiplier_of b)
              (demand_adjustment_of (market_demand item)) H0
              (leb_refl _ (leb_not_nan_r _ _ H0)) F
              (condition_multiplier_unit _) (condition_multiplier_positive _)
              (action_multiplier_unit _) (action_multiplier_unit _) Hab
              (demand_adjustment_positive _)) as [P0 P12].
  apply py_round_monotone; [lia|assumption|assumption].
Qed.

(** X2. For a finite price that is not negative, donate gives the least
    estimated value and resale the greatest, with recycle, then repair in
    between; an action that is none of the four is valued with the
    multiplier 0.3, between recycle and repair. *)
Theorem estimated_value_by_action (item : ReturnItem) (action : string) :
  let value := DispositionPredictor._calculate_estimated_value item in
  (0 <=? original_price item)%float = true -> finite (original_price item) = true ->
  (value "donate" <=? value action)%float = true
  /\ (value action <=? value "resale")%float = true
  /\ (value "donate" <=? value "recycle")%float = true
  /\ (value "recycle" <=? value "repair")%float = true
  /\ (value "repair" <=? value "resale")%float = true
  /\ (lower action <> "resale" -> lower action <> "repair" ->
      lower action <> "recycle" -> lower action <> "donate" ->
      (value "recycle" <=? value action)%float = true
      /\ (value action <=? value "repair")%float = true).
Proof.
  cbv zeta. intros H0 F.
  repeat split; intros; apply value_by_multiplier; auto; unfold action_multiplier_of;
    try (change (lower "donate") with "donate"); try (change (lower "resale") with "resale");
    try (change (lower "recycle") with "recycle"); try (change (lower "repair") with "repair");
    repeat match goal with
           | H : lower action <> _ |- _ => apply String.eqb_neq in H; rewrite H; clear H
           end;
    generalize (lower action); intros a; eqb_bools; reflexivity.
Qed.

(** ** CO2 savings *)

Lemma co2_eq item action :
  DispositionPredictor._calculate_co2_impact item action
  = py_round (original_price item
              * (let k := lower action in
                 if String.eqb k "resale" then 0.003
                 else if String.eqb k "repair" then 0.002
                 else if String.eqb k "recycle" then 0.001
                 else if String.eqb k "donate" then 0.0025
                 else 0.001))%float 2.
Proof.
  unfold DispositionPredictor._calculate_co2_impact. rewrite base_co2_lookup. reflexivity.
Qed.

Lemma scaled_product (p1 p2 f1 f2 : float) :
  (0 <=? p1)%float = true -> (p1 <=? p2)%float = true -> finite p2 = true ->
  in_unit f1 = true -> is_positive f1 = true -> in_unit f2 = true ->
  (f1 <=? f2)%float = true ->
  (0 <=? p1 * f1)%float = true /\ (p1 * f1 <=? p2 * f2)%float = true.
Proof.
  intros H0 H12 F2 U1 P1 U2 Hf.
  assert (F1 : finite p1 = true) by (apply (leb_between_finite 0 p1 p2); auto).
  destruct (in_unit_spec f1 U1) as [Ff1 R1]. destruct (in_unit_spec f2 U2) as [Ff2 R2].
  pose proof (is_positive_spec f1 P1) as P1'.
  destruct (mul_contract p1 f1 F1 Ff1 R1) as [Fa _].
  destruct (mul_contract p2 f1 F2 Ff1 R1) as [Fb _].
  destruct (mul_contract p2 f2 F2 Ff2 R2) as [Fc _].
  split; [apply mul_nonneg; assumption|].
  assert (S1 : (p1 * f1 <=? p2 * f1)%float = true) by (apply mul_le_mono; assumption).
  assert (S2 : (p2 * f1 <=? p2 * f2)%float = true).
  { apply mul_le_mono_r; auto.
    pose proof (leb_Rle 0 p1 eq_refl F1 H0) as A. pose proof (leb_Rle p1 p2 F1 F2 H12) as B.
    rewrite B2R_zero in A. lra. }
  apply leb_of_Rle; auto.
  pose proof (leb_Rle _ _ Fa Fb S1). pose proof (leb_Rle _ _ Fb Fc S2). lra.
Qed.

(** X3. The CO2 saving is not negative and never decreases with the price
    (finite, not negative); for one price it is ordered recycle, repair,
    donate, resale, and an action that is not resale, repair or donate saves
    what recycle saves. *)
Theorem co2_saved_order (item : ReturnItem) (action : string) (p1 p2 : float) :
  let co2 := fun price a => DispositionPredictor._calculate_co2_impact (with_price item price) a in
  (0 <=? p1)%float = true -> (p1 <=? p2)%float = true -> finite p2 = true ->
  (0 <=? co2 p1 action)%float = true
  /\ (co2 p1 action <=? co2 p2 action)%float = true
  /\ (co2 p1 "recycle" <=? co2 p1 action)%float = true
  /\ (co2 p1 action <=? co2 p1 "resale")%float = true
  /\ (co2 p1 "recycle" <=? co2 p1 "repair")%float = true
  /\ (co2 p1 "repair" <=? co2 p1 "donate")%float = true
  /\ (co2 p1 "donate" <=? co2 p1 "resale")%float = true
  /\ (lower action <> "resale" -> lower action <> "repair" -> lower action <> "donate" ->
      co2 p1 action = co2 p1 "recycle").
Proof.
  cbv beta zeta. intros H0 H12 F2. rewrite !co2_eq. cbn [with_price original_price].
  change (lower "recycle") with "recycle". change (lower "resale") with "resale".
  change (lower "repair") with "repair". change (lower "donate") with "donate".
  cbv zeta. cbn [String.eqb Ascii.eqb Bool.eqb]. cbv iota.
  assert (F1 : finite p1 = true) by (apply (leb_between_finite 0 p1 p2); auto).
  assert (N1 : is_nan p1 = false) by (apply (leb_not_nan_r _ _ H0)).
  assert (H11 : (p1 <=? p1)%float = true) by (apply leb_refl, N1).
  generalize (lower action). intros a.
  assert (M : forall q1 q2 f1 f2 : float,
            (0 <=? q1)%float = true -> (q1 <=? q2)%float = true -> finite q2 = true ->
            in_unit f1 = true -> is_positive f1 = true -> in_unit f2 = true ->
            (f1 <=? f2)%float = true ->
            (py_round (q1 * f1) 2 <=? py_round (q2 * f2) 2)%float = true).
  { intros q1 q2 f1 f2 A B C D E F G.
    destruct (scaled_product q1 q2 f1 f2 A B C D E F G) as [S0 S1].
    apply py_round_monotone; [lia|assumption|assumption]. }
  split; [|split; [|split; [|split; [|split; [|split; [|split]]]]]].
  - apply py_round_nonneg. eqb_bools;
      (apply mul_nonneg; [assumption|apply is_positive_spec; reflexivity]).
  - eqb_bools; apply M; auto.
  - eqb_bools; apply M; auto.
  - eqb_bools; apply M; auto.
  - apply M; auto.
  - apply M; auto.
  - apply M; auto.
  - intros A B C. apply String.eqb_neq in A, B, C. rewrite A, B, C.
    destruct (String.eqb a "recycle"); reflexivity.
Qed.

(** ** Positive floats *)

(** The least positive binary64 number. *)
Definition tiny : float := 0x1p-1074%float.

Lemma B2R_tiny : B2R tiny = bpow (-1074).
Proof.
  unfold B2R. change (Prim2SF tiny) with (S754_finite false 1 (-1074)).
  cbn [SF2R]. unfold F2R. apply Rmult_1_l.
Qed.

Lemma tiny_pos : (0 < B2R tiny)%R.
Proof. rewrite B2R_tiny. apply bpow_gt_0. Qed.

(** Finite floats are multiples of the least positive one. *)
Lemma float_grid x : finite x = true -> exists k : Z, B2R x = (IZR k * bpow (-1074))%R.
Proof.
  unfold finite, B2R. pose proof (Prim2SF_valid x) as V.
  destruct (Prim2SF x) as [s|s| |s m e]; try discriminate; intros _.
  - exists 0%Z. simpl. ring.
  - destruct (valid_canon _ _ _ V) as [(_ & He & _) _].
    pose proof (F2R_shift (Zpos m) (-1074) (e + 1074) ltac:(lia)) as E.
    replace (-1074 + (e + 1074))%Z with e in E by lia.
    simpl SF2R. rewrite E. unfold F2R.
    destruct s; [exists (- (Zpos m * 2 ^ (e + 1074)))%Z; rewrite opp_IZR; ring
                |exists (Zpos m * 2 ^ (e + 1074))%Z; reflexivity].
Qed.

Lemma grid_gap x y :
  finite x = true -> finite y = true -> (B2R x < B2R y)%R -> (B2R tiny <= B2R y - B2R x)%R.
Proof.
  intros Fx Fy H. destruct (float_grid x Fx) as [kx Ex]. destruct (float_grid y Fy) as [ky Ey].
  rewrite Ex, Ey, B2R_tiny in *. pose proof (bpow_gt_0 (-1074)) as U.
  assert (kx < ky)%Z.
  { apply lt_IZR. apply (Rmult_lt_reg_r (bpow (-1074))); assumption. }
  assert (IZR kx + 1 <= IZR ky)%R by (rewrite <- plus_IZR; apply IZR_le; lia).
  nra.
Qed.

Lemma ltb_lower_cases a x :
  (a <? x)%float = true -> finite a = true ->
  Prim2SF x = S754_infinity false \/ (finite x = true /\ (B2R a < B2R x)%R).
Proof.
  intros H Fa. destruct (leb_lower_cases a x (ltb_leb _ _ H) Fa) as [E|[Fx _]]; [auto|].
  right. split; [assumption|]. apply ltb_Rlt; assumption.
Qed.

Lemma ltb_pos_inf a x :
  finite a = true -> Prim2SF x = S754_infinity false -> (a <? x)%float = true.
Proof.
  intros Fa E. rewrite FloatAxioms.ltb_spec, E. unfold finite in Fa.
  destruct (Prim2SF a) as [s|s| |s m e]; try discriminate; reflexivity.
Qed.

Lemma above_ltb x : (tiny <=? x)%float = true -> (0 <? x)%float = true.
Proof.
  intros H. destruct (leb_lower_cases tiny x H eq_refl) as [E|[Fx Hx]].
  - apply ltb_pos_inf; [reflexivity|assumption].
  - apply ltb_of_Rlt; [reflexivity|assumption|]. rewrite B2R_zero. pose proof tiny_pos. lra.
Qed.

Lemma ltb_above x : (0 <? x)%float = true -> (tiny <=? x)%float = true.
Proof.
  intros H. destruct (ltb_lower_cases 0 x H eq_refl) as [E|[Fx Hx]].
  - rewrite FloatAxioms.leb_spec, E. reflexivity.
  - apply leb_of_Rle; [reflexivity|assumption|].
    pose proof (grid_gap 0 x eq_refl Fx Hx) as G. rewrite B2R_zero in *. lra.
Qed.

Lemma sub_above a r :
  finite a = true -> finite r = true -> (B2R r < B2R a)%R -> (tiny <=? a - r)%float = true.
Proof.
  intros Fa Fr H. apply (rounds_ge _ _ tiny (sub_rounds a r Fa Fr) eq_refl).
  apply grid_gap; assumption.
Qed.

Lemma div_above x w :
  (tiny <=? x)%float = true -> (0 < B2R w <= 1)%R -> (tiny <=? x / w)%float = true.
Proof.
  intros H Hw. destruct (leb_lower_cases tiny x H eq_refl) as [E|[Fx Hx]].
  - destruct (positive_SF w (proj1 Hw)) as (m & e & Ew).
    rewrite FloatAxioms.leb_spec, FloatAxioms.div_spec. unfold SF64div. rewrite E, Ew. reflexivity.
  - assert (Hn : B2R w <> 0%R) by lra.
    apply (rounds_ge _ _ tiny (div_rounds x w Fx Hn) eq_refl).
    pose proof tiny_pos as T. apply (Rle_trans _ (B2R x)); [assumption|].
    apply (Rmult_le_reg_r (B2R w)); [lra|].
    replace (B2R x / B2R w * B2R w)%R with (B2R x) by (field; lra). nra.
Qed.

Lemma mul_above x w :
  (tiny <=? x)%float = true -> finite w = true -> (1 <= B2R w)%R ->
  (tiny <=? x * w)%float = true.
Proof.
  intros H Fw Hw. destruct (leb_lower_cases tiny x H eq_refl) as [E|[Fx Hx]].
  - destruct (positive_SF w ltac:(lra)) as (m & e & Ew).
    rewrite FloatAxioms.leb_spec, FloatAxioms.mul_spec. unfold SF64mul. rewrite E, Ew. reflexivity.
  - apply (rounds_ge _ _ tiny (mul_rounds x w Fx Fw) eq_refl). pose proof tiny_pos. nra.
Qed.

(** ** The value component of the risk score *)

Lemma B2R_06 : (0 < B2R 0.6 <= 1)%R.
Proof.
  split; [apply is_positive_spec; reflexivity|].
  apply (in_unit_spec 0.6%float). reflexivity.
Qed.

Lemma value_component_zero r :
  (0.6 <=? r)%float = true -> (py_max 0 ((0.6 - r) / 0.6) * 100)%float = 0%float.
Proof.
  intros H.
  assert (S : (0.6 - r <=? 0)%float = true).
  { destruct (leb_lower_cases 0.6 r H eq_refl) as [E|[Fr Hr]].
    - rewrite FloatAxioms.leb_spec, FloatAxioms.sub_spec. unfold SF64sub. rewrite E. reflexivity.
    - apply (rounds_le _ _ 0 (sub_rounds 0.6 r eq_refl Fr) eq_refl). rewrite B2R_zero. lra. }
  assert (D : ((0.6 - r) / 0.6 <=? 0)%float = true).
  { apply (div_le_pivot _ 0 0.6 0); auto; [apply B2R_06|].
    rewrite B2R_zero. unfold Rdiv. rewrite Rmult_0_l. lra. }
  unfold py_max. rewrite (leb_not_ltb _ _ D). reflexivity.
Qed.

Lemma value_component_positive r :
  (r <? 0.6)%float = true -> (tiny <=? py_max 0 ((0.6 - r) / 0.6) * 100)%float = true.
Proof.
  intros H.
  assert (S : (tiny <=? 0.6 - r)%float = true).
  { destruct (ltb_upper_cases r 0.6 H eq_refl) as [E|[Fr Hr]].
    - rewrite FloatAxioms.leb_spec, FloatAxioms.sub_spec. unfold SF64sub. rewrite E. reflexivity.
    - apply sub_above; auto. }
  assert (D : (tiny <=? (0.6 - r) / 0.6)%float = true) by (apply div_above; [assumption|apply B2R_06]).
  unfold py_max. rewrite (above_ltb _ D).
  apply mul_above; [assumption|reflexivity|]. rewrite (B2R_int 100 100 eq_refl). lra.
Qed.

(** X18. For a recovery rate that is not NaN, the value component of the
    risk score is 0 when the recovery rate reaches the target 0.6, and
    positive exactly when it is below the target. *)
Theorem value_risk_zero_iff_target_met (data : gmap string float) :
  let recovery_rate := dict_get data "value_recovery_rate" 0%float in
  let value_risk := RiskAssessment.component_scores_of data !!! "value_risk" in
  is_nan recovery_rate = false ->
  ((0.6 <=? recovery_rate)%float = true -> value_risk = 0%float)
  /\ ((0 <? value_risk)%float = true <-> (recovery_rate <? 0.6)%float = true).
Proof.
  cbv zeta. intros N.
  destruct (component_scores_lookup data) as (_ & -> & _).
  set (r := dict_get data "value_recovery_rate" 0%float) in *.
  split; [apply value_component_zero|]. split.
  - intros P. destruct (r <? 0.6)%float eqn:L; [reflexivity|exfalso].
    assert (H : (0.6 <=? r)%float = true) by (apply not_ltb_leb; auto).
    rewrite (value_component_zero r H) in P. discriminate.
  - intros L. apply above_ltb, value_component_positive, L.
Qed.

(** ** Bounds of the risk report *)

Lemma div_nonneg x w : (0 <=? x)%float = true -> (0 < B2R w)%R -> (0 <=? x / w)%float = true.
Proof.
  intros H Hw. destruct (leb_lower_cases 0 x H eq_refl) as [E|[Fx Hx]].
  - destruct (positive_SF w Hw) as (m & e & Ew).
    rewrite FloatAxioms.leb_spec, FloatAxioms.div_spec. unfold SF64div. rewrite E, Ew. reflexivity.
  - assert (Hn : B2R w <> 0%R) by lra.
    apply (rounds_ge _ _ 0 (div_rounds x w Fx Hn) eq_refl). rewrite B2R_zero in *.
    apply Rmult_le_pos; [assumption|]. apply Rlt_le, Rinv_0_lt_compat, Hw.
Qed.

Lemma py_min_nonneg t : (0 <=? t)%float = true -> (0 <=? py_min t 1)%float = true.
Proof. intros H. unfold py_min. destruct (1 <? t)%float; [reflexivity|assumption]. Qed.

Lemma add_nonneg x y :
  (0 <=? x)%float = true -> (0 <=? y)%float = true -> (0 <=? x + y)%float = true.
Proof.
  intros Hx Hy.
  destruct (leb_lower_cases 0 x Hx eq_refl) as [Ex|[Fx Rx]];
    destruct (leb_lower_cases 0 y Hy eq_refl) as [Ey|[Fy Ry]].
  - rewrite FloatAxioms.leb_spec, FloatAxioms.add_spec. unfold SF64add. rewrite Ex, Ey. reflexivity.
  - rewrite FloatAxioms.leb_spec, FloatAxioms.add_spec. unfold SF64add. rewrite Ex.
    unfold finite in Fy. destruct (Prim2SF y); try discriminate; reflexivity.
  - rewrite FloatAxioms.leb_spec, FloatAxioms.add_spec. unfold SF64add. rewrite Ey.
    unfold finite in Fx. destruct (Prim2SF x); try discriminate; reflexivity.
  - apply (rounds_ge _ _ 0 (add_rounds x y Fx Fy) eq_refl). rewrite B2R_zero in *. lra.
Qed.

Lemma capped_component_nonneg x w :
  (0 <=? x)%float = true -> is_positive w = true ->
  (0 <=? py_min (x / w) 1 * 100)%float = true.
Proof.
  intros H Hw. apply mul_nonneg; [|rewrite (B2R_int 100 100 eq_refl); lra].
  apply py_min_nonneg, div_nonneg; [assumption|apply is_positive_spec, Hw].
Qed.

Lemma weighted_sum_nonneg v val q m o :
  (0 <=? v)%float = true -> (0 <=? val)%float = true -> (0 <=? q)%float = true ->
  (0 <=? m)%float = true -> (0 <=? o)%float = true ->
  (0 <=? 0 + v * 0.3 + val * 0.25 + q * 0.2 + m * 0.15 + o * 0.1)%float = true.
Proof.
  intros Hv Hval Hq Hm Ho.
  repeat apply add_nonneg; try reflexivity;
    (apply mul_nonneg; [assumption|apply is_positive_spec; reflexivity]).
Qed.

Lemma dict_get_nonneg (data : gmap string float) k :
  (forall k x, data !! k = Some x -> (0 <=? x)%float = true) ->
  (0 <=? dict_get data k 0)%float = true.
Proof.
  intros H. unfold dict_get. destruct (data !! k) as [x|] eqn:E; [apply (H k x E)|reflexivity].
Qed.

(** X16. When no input of the risk assessment is negative, the reported
    overall score and the five component scores are between 0 and 100. *)
Theorem risk_report_within_bounds (data : gmap string float) :
  (forall k x, data !! k = Some x -> (0 <=? x)%float = true) ->
  let report := RiskAssessment.calculate_risk_score data in
  (0 <=? RiskAssessment.overall_score report)%float = true
  /\ (RiskAssessment.overall_score report <=? 100)%float = true
  /\ forall factor weight,
       In (factor, weight) RiskAssessment.risk_factors ->
       (0 <=? RiskAssessment.component_scores report !!! factor)%float = true
       /\ (RiskAssessment.component_scores report !!! factor <=? 100)%float = true.
Proof.
  intros H report.
  set (scores := RiskAssessment.component_scores_of data).
  set (overall := RiskAssessment.weighted_score scores).
  assert (Eoverall : overall
    = (0 + scores !!! "volume_risk" * 0.3 + scores !!! "value_risk" * 0.25
       + scores !!! "quality_risk" * 0.2 + scores !!! "market_risk" * 0.15
       + scores !!! "operational_risk" * 0.1)%float) by reflexivity.
  destruct (component_scores_lookup data) as (Ev & Eval & Eq & Em & Eo).
  fold scores in Ev, Eval, Eq, Em, Eo.
  pose proof (fun k => dict_get_nonneg data k H) as G.
  pose proof (fun k => leb_not_nan_r _ _ (G k)) as N.
  assert (Bv : (0 <=? scores !!! "volume_risk")%float = true
               /\ (scores !!! "volume_risk" <=? 100)%float = true).
  { rewrite Ev. split; [apply capped_component_nonneg|apply capped_component_le_100]; auto. }
  assert (Bval : (0 <=? scores !!! "value_risk")%float = true
                 /\ (scores !!! "value_risk" <=? 100)%float = true).
  { rewrite Eval. split; [apply value_component_nonneg|apply value_component_le_100]; auto. }
  assert (Bq : (0 <=? scores !!! "quality_risk")%float = true
               /\ (scores !!! "quality_risk" <=? 100)%float = true).
  { rewrite Eq. split; [apply capped_component_nonneg|apply capped_component_le_100]; auto. }
  assert (Bm : (0 <=? scores !!! "market_risk")%float = true
               /\ (scores !!! "market_risk" <=? 100)%float = true).
  { rewrite Em. split; [apply capped_component_nonneg|apply capped_component_le_100]; auto. }
  assert (Bo : (0 <=? scores !!! "operational_risk")%float = true
               /\ (scores !!! "operational_risk" <=? 100)%float = true).
  { rewrite Eo. split; [apply capped_component_nonneg|apply capped_component_le_100]; auto. }
  assert (O0 : (0 <=? overall)%float = true)
    by (rewrite Eoverall; apply weighted_sum_nonneg; tauto).
  assert (O100 : (overall <=? 100)%float = true)
    by (rewrite Eoverall; apply weighted_sum_le_100; tauto).
  change (RiskAssessment.overall_score report) with (py_round overall 1).
  change (RiskAssessment.component_scores report) with scores.
  split; [apply py_round_nonneg, O0|]. split.
  - assert (E : py_round 100 1 = 100%float) by (vm_compute; reflexivity).
    rewrite <- E. apply py_round_monotone; [lia|assumption|assumption].
  - intros factor weight Hin. simpl in Hin.
    destruct Hin as [E|[E|[E|[E|[E|[]]]]]]; injection E as <- _; assumption.
Qed.

(** ** Monotone float operations *)

(** A rounded result whose exact value is a float has that value. *)
Lemma rounds_exact X r c :
  rounds X r -> finite c = true -> B2R c = X -> finite r = true /\ B2R r = X.
Proof.
  intros H Fc E.
  assert (L : (r <=? c)%float = true) by (apply (rounds_le _ _ c H Fc); lra).
  assert (G : (c <=? r)%float = true) by (apply (rounds_ge _ _ c H Fc); lra).
  assert (Fr : finite r = true) by (apply (leb_between_finite c r c); auto).
  split; [assumption|].
  pose proof (leb_Rle _ _ Fr Fc L). pose proof (leb_Rle _ _ Fc Fr G). lra.
Qed.

(** Two rounded results are ordered as their exact values, once the case of
    equal exact values is settled: the results are the same float, or the
    value is a float. *)
Lemma rounds_leb X1 X2 r1 r2 :
  rounds X1 r1 -> rounds X2 r2 -> (X1 <= X2)%R ->
  (X1 = X2 -> r1 = r2 \/ exists c, finite c = true /\ B2R c = X1) ->
  (r1 <=? r2)%float = true.
Proof.
  intros R1 R2 [Hlt|Heq] Hsame; [exact (rounds_mono _ _ _ _ R1 R2 Hlt)|].
  destruct (Hsame Heq) as [->|(c & Fc & Ec)].
  - apply leb_refl, (rounds_not_nan _ _ R2).
  - destruct (rounds_exact _ _ c R1 Fc Ec) as [F1 E1].
    destruct (rounds_exact _ _ c R2 Fc ltac:(lra)) as [F2 E2].
    apply leb_of_Rle; auto. lra.
Qed.

Lemma same_or_zero x1 x2 :
  finite x1 = true -> finite x2 = true -> B2R x1 = B2R x2 ->
  x1 = x2 \/ (B2R x1 = 0%R /\ B2R x2 = 0%R).
Proof.
  intros F1 F2 E. destruct (float_eq_cases x1 x2 F1 F2 E) as [H|(s1 & s2 & E1 & E2)]; [auto|].
  right. unfold B2R. rewrite E1, E2. split; reflexivity.
Qed.

Lemma zero_float : finite 0 = true /\ B2R 0 = 0%R.
Proof. split; reflexivity. Qed.

Lemma mul_leb_mono x1 x2 w :
  finite x1 = true -> finite x2 = true -> (x1 <=? x2)%float = true ->
  finite w = true -> (0 <= B2R w)%R -> (x1 * w <=? x2 * w)%float = true.
Proof.
  intros F1 F2 H Fw Hw. pose proof (leb_Rle _ _ F1 F2 H) as Hr.
  apply (rounds_leb _ _ _ _ (mul_rounds x1 w F1 Fw) (mul_rounds x2 w F2 Fw)); [nra|].
  intros E. destruct (Req_dec (B2R w) 0) as [W0|W0].
  - right. exists 0%float. split; [reflexivity|]. rewrite W0, B2R_zero. ring.
  - assert (E' : B2R x1 = B2R x2) by nra.
    destruct (same_or_zero x1 x2 F1 F2 E') as [->|[Z1 Z2]]; [auto|].
    right. exists 0%float. split; [reflexivity|]. rewrite Z1, B2R_zero. ring.
Qed.

Lemma div_leb_mono x1 x2 w :
  finite x1 = true -> finite x2 = true -> (x1 <=? x2)%float = true ->
  (0 < B2R w)%R -> (x1 / w <=? x2 / w)%float = true.
Proof.
  intros F1 F2 H Hw. pose proof (leb_Rle _ _ F1 F2 H) as Hr.
  assert (Hn : B2R w <> 0%R) by lra.
  assert (Hi : (0 < / B2R w)%R) by (apply Rinv_0_lt_compat, Hw).
  apply (rounds_leb _ _ _ _ (div_rounds x1 w F1 Hn) (div_rounds x2 w F2 Hn)).
  - unfold Rdiv. nra.
  - intros E. assert (E' : B2R x1 = B2R x2).
    { unfold Rdiv in E. apply (Rmult_eq_reg_r (/ B2R w)); [assumption|lra]. }
    destruct (same_or_zero x1 x2 F1 F2 E') as [->|[Z1 Z2]]; [auto|].
    right. exists 0%float. split; [reflexivity|]. rewrite Z1, B2R_zero. unfold Rdiv. ring.
Qed.

Lemma add_leb_mono x1 x2 y1 y2 :
  finite x1 = true -> finite x2 = true -> (x1 <=? x2)%float = true ->
  finite y1 = true -> finite y2 = true -> (y1 <=? y2)%float = true ->
  (x1 + y1 <=? x2 + y2)%float = true.
Proof.
  intros Fx1 Fx2 Hx Fy1 Fy2 Hy.
  pose proof (leb_Rle _ _ Fx1 Fx2 Hx) as Rx. pose proof (leb_Rle _ _ Fy1 Fy2 Hy) as Ry.
  apply (rounds_leb _ _ _ _ (add_rounds x1 y1 Fx1 Fy1) (add_rounds x2 y2 Fx2 Fy2)); [lra|].
  intros E. assert (Ex : B2R x1 = B2R x2) by lra. assert (Ey : B2R y1 = B2R y2) by lra.
  destruct (same_or_zero x1 x2 Fx1 Fx2 Ex) as [->|[Zx1 Zx2]].
  - destruct (same_or_zero y1 y2 Fy1 Fy2 Ey) as [->|[Zy1 Zy2]]; [auto|].
    right. exists x2. split; [assumption|]. rewrite Zy1. ring.
  - right. exists y1. split; [assumption|]. rewrite Zx1. ring.
Qed.

Lemma sub_leb_anti a r1 r2 :
  finite a = true -> finite r1 = true -> finite r2 = true -> (r2 <=? r1)%float = true ->
  (a - r1 <=? a - r2)%float = true.
Proof.
  intros Fa F1 F2 H. pose proof (leb_Rle _ _ F2 F1 H) as Hr.
  apply (rounds_leb _ _ _ _ (sub_rounds a r1 Fa F1) (sub_rounds a r2 Fa F2)); [lra|].
  intros E. assert (E' : B2R r1 = B2R r2) by lra.
  destruct (same_or_zero r1 r2 F1 F2 E') as [->|[Z1 Z2]]; [auto|].
  right. exists a. split; [assumption|]. rewrite Z1. ring.
Qed.

Lemma ltb_leb_trans c a b :
  finite c = true -> (c <? a)%float = true -> (a <=? b)%float = true -> (c <? b)%float = true.
Proof.
  intros Fc Hca Hab. destruct (ltb_lower_cases c a Hca Fc) as [E|[Fa Hlt]].
  - apply ltb_pos_inf; [assumption|].
    rewrite FloatAxioms.leb_spec, E in Hab.
    destruct (Prim2SF b) as [s|s| |s m e]; try discriminate; destruct s; try discriminate;
      reflexivity.
  - destruct (leb_lower_cases a b Hab Fa) as [E|[Fb Hle]].
    + apply ltb_pos_inf; assumption.
    + apply ltb_of_Rlt; auto. lra.
Qed.

Lemma py_min_mono t1 t2 :
  (t1 <=? t2)%float = true -> (py_min t1 1 <=? py_min t2 1)%float = true.
Proof.
  intros H. unfold py_min.
  destruct (1 <? t1)%float eqn:L1.
  - rewrite (ltb_leb_trans 1 t1 t2 eq_refl L1 H). reflexivity.
  - destruct (1 <? t2)%float eqn:L2; [|assumption].
    apply not_ltb_leb; [reflexivity|apply (leb_not_nan_l _ _ H)|assumption].
Qed.

Lemma py_max_mono t1 t2 :
  (t1 <=? t2)%float = true -> (py_max 0 t1 <=? py_max 0 t2)%float = true.
Proof.
  intros H. unfold py_max.
  destruct (0 <? t1)%float eqn:L1.
  - rewrite (ltb_leb_trans 0 t1 t2 eq_refl L1 H). assumption.
  - destruct (0 <? t2)%float eqn:L2; [apply ltb_leb, L2|reflexivity].
Qed.

(** ** The risk score grows with every risk *)

Definition largest : float := 0x1.fffffffffffffp+1023%float.

Lemma finite_ge_lowest x : finite x = true -> (B2R (- largest) <= B2R x)%R.
Proof.
  unfold finite, B2R. pose proof (Prim2SF_valid x) as V.
  change (Prim2SF (- largest)) with (S754_finite true (2 ^ 53 - 1) 971).
  cbn [SF2R]. pose proof (F2R_pos (2 ^ 53 - 1) 971) as P.
  destruct (Prim2SF x) as [s|s| |s m e]; try discriminate; intros _; cbn [SF2R]; [lra|].
  destruct s; [|pose proof (F2R_pos m e); lra].
  destruct (valid_canon _ _ _ V) as [((_ & Hm) & _ & _) He].
  assert (F2R (Zpos m) e <= F2R (Zpos m) 971)%R.
  { unfold F2R. pose proof (bpow_le e 971 He). assert (0 < IZR (Zpos m))%R by (apply IZR_lt; lia).
    nra. }
  assert (F2R (Zpos m) 971 <= F2R (Zpos (2 ^ 53 - 1)) 971)%R by (apply F2R_le; lia).
  lra.
Qed.

Lemma unit_finite m : (0 <=? m)%float = true -> (m <=? 1)%float = true -> finite m = true.
Proof. intros H0 H1. apply (leb_between_finite 0 m 1); auto. Qed.

Lemma capped_component_mono x1 x2 w :
  finite x1 = true -> finite x2 = true -> (0 <=? x1)%float = true ->
  (x1 <=? x2)%float = true -> is_positive w = true ->
  (py_min (x1 / w) 1 * 100 <=? py_min (x2 / w) 1 * 100)%float = true.
Proof.
  intros F1 F2 H0 H12 Pw. pose proof (is_positive_spec w Pw) as Hw.
  assert (H02 : (0 <=? x2)%float = true).
  { apply leb_of_Rle; [reflexivity|assumption|].
    pose proof (leb_Rle 0 x1 eq_refl F1 H0). pose proof (leb_Rle x1 x2 F1 F2 H12). lra. }
  assert (D : (x1 / w <=? x2 / w)%float = true) by (apply div_leb_mono; assumption).
  assert (M : (py_min (x1 / w) 1 <=? py_min (x2 / w) 1)%float = true) by (apply py_min_mono, D).
  apply mul_leb_mono; auto.
  - apply unit_finite; [apply py_min_nonneg, div_nonneg; assumption|].
    apply py_min_le_one, div_not_nan; [apply (leb_not_nan_r _ _ H0)|assumption].
  - apply unit_finite; [apply py_min_nonneg, div_nonneg; assumption|].
    apply py_min_le_one, div_not_nan; [apply (leb_not_nan_r _ _ H02)|assumption].
  - rewrite (B2R_int 100 100 eq_refl). lra.
Qed.

Lemma recovery_gap_finite r :
  finite r = true -> (0 <=? r)%float = true -> finite (0.6 - r) = true.
Proof.
  intros Fr H0. pose proof (leb_Rle 0 r eq_refl Fr H0) as Hr. rewrite B2R_zero in Hr.
  pose proof (sub_rounds 0.6 r eq_refl Fr) as R.
  apply (leb_between_finite (- largest) _ 0.6); try reflexivity.
  - apply (rounds_ge _ _ (- largest)%float R eq_refl).
    pose proof (finite_ge_lowest (- r)) as L.
    assert (Fo : finite (- r) = true).
    { unfold finite in *. rewrite FloatAxioms.opp_spec. destruct (Prim2SF r); auto. }
    assert (Eo : B2R (- r) = (- B2R r)%R).
    { unfold B2R. rewrite FloatAxioms.opp_spec. destruct (Prim2SF r) as [s|s| |s m e]; simpl;
        try lra. destruct s; simpl; lra. }
    specialize (L Fo). rewrite Eo in L. pose proof (proj1 B2R_06). lra.
  - apply (rounds_le _ _ 0.6%float R eq_refl). lra.
Qed.

Lemma recovery_share_le_one r :
  (0 <=? r)%float = true -> (py_max 0 ((0.6 - r) / 0.6) <=? 1)%float = true.
Proof.
  intros Hr.
  assert (Hb : ((0.6 - r) / 0.6 <=? 1)%float = true).
  { apply (div_le_pivot _ 0.6 0.6 1); auto.
    - apply sub_le_self; auto.
    - apply B2R_06.
    - rewrite B2R_one. apply Req_le. field. pose proof (proj1 B2R_06). lra. }
  unfold py_max. destruct (0 <? (0.6 - r) / 0.6)%float; [assumption|reflexivity].
Qed.

Lemma value_component_mono r1 r2 :
  finite r1 = true -> finite r2 = true -> (0 <=? r2)%float = true ->
  (r2 <=? r1)%float = true ->
  (py_max 0 ((0.6 - r1) / 0.6) * 100 <=? py_max 0 ((0.6 - r2) / 0.6) * 100)%float = true.
Proof.
  intros F1 F2 H0 H21.
  assert (H01 : (0 <=? r1)%float = true).
  { apply leb_of_Rle; [reflexivity|assumption|].
    pose proof (leb_Rle 0 r2 eq_refl F2 H0). pose proof (leb_Rle r2 r1 F2 F1 H21). lra. }
  assert (S : (0.6 - r1 <=? 0.6 - r2)%float = true) by (apply sub_leb_anti; auto).
  assert (D : ((0.6 - r1) / 0.6 <=? (0.6 - r2) / 0.6)%float = true).
  { apply div_leb_mono; auto using recovery_gap_finite. apply B2R_06. }
  apply mul_leb_mono.
  - apply unit_finite; [apply py_max_zero_nonneg|apply recovery_share_le_one, H01].
  - apply unit_finite; [apply py_max_zero_nonneg|apply recovery_share_le_one, H0].
  - apply py_max_mono, D.
  - reflexivity.
  - rewrite (B2R_int 100 100 eq_refl). lra.
Qed.

(** The terms of the weighted sum and its partial sums are finite and not
    negative for components between 0 and 100.  *)
Lemma weighted_sum_finite v val q m o :
  (0 <=? v)%float = true -> (v <=? 100)%float = true ->
  (0 <=? val)%float = true -> (val <=? 100)%float = true ->
  (0 <=? q)%float = true -> (q <=? 100)%float = true ->
  (0 <=? m)%float = true -> (m <=? 100)%float = true ->
  (0 <=? o)%float = true -> (o <=? 100)%float = true ->
  finite (v * 0.3) = true /\ finite (val * 0.25) = true /\ finite (q * 0.2) = true
  /\ finite (m * 0.15) = true /\ finite (o * 0.1) = true
  /\ finite (0 + v * 0.3) = true
  /\ finite (0 + v * 0.3 + val * 0.25) = true
  /\ finite (0 + v * 0.3 + val * 0.25 + q * 0.2) = true
  /\ finite (0 + v * 0.3 + val * 0.25 + q * 0.2 + m * 0.15) = true.
Proof.
  intros Lv Hv Lval Hval Lq Hq Lm Hm Lo Ho.
  assert (W : forall w, is_positive w = true -> (0 < B2R w)%R) by apply is_positive_spec.
  assert (P1 : (v * 0.3 <=? 30)%float = true) by (apply (mul_le_mono v 100 0.3); auto).
  assert (P2 : (val * 0.25 <=? 25)%float = true) by (apply (mul_le_mono val 100 0.25); auto).
  assert (P3 : (q * 0.2 <=? 20)%float = true) by (apply (mul_le_mono q 100 0.2); auto).
  assert (P4 : (m * 0.15 <=? 15)%float = true) by (apply (mul_le_mono m 100 0.15); auto).
  assert (P5 : (o * 0.1 <=? 10)%float = true) by (apply (mul_le_mono o 100 0.1); auto).
  assert (N1 : (0 <=? v * 0.3)%float = true) by (apply mul_nonneg; auto).
  assert (N2 : (0 <=? val * 0.25)%float = true) by (apply mul_nonneg; auto).
  assert (N3 : (0 <=? q * 0.2)%float = true) by (apply mul_nonneg; auto).
  assert (N4 : (0 <=? m * 0.15)%float = true) by (apply mul_nonneg; auto).
  assert (N5 : (0 <=? o * 0.1)%float = true) by (apply mul_nonneg; auto).
  assert (S1 : (0 + v * 0.3 <=? 30)%float = true).
  { apply (add_le_pivot _ _ 0 30 30); auto.
    rewrite B2R_zero, (B2R_int 30 30 eq_refl). lra. }
  assert (S2 : (0 + v * 0.3 + val * 0.25 <=? 55)%float = true).
  { apply (add_le_pivot _ _ 30 25 55); auto.
    rewrite (B2R_int 30 30 eq_refl), (B2R_int 25 25 eq_refl), (B2R_int 55 55 eq_refl). lra. }
  assert (S3 : (0 + v * 0.3 + val * 0.25 + q * 0.2 <=? 75)%float = true).
  { apply (add_le_pivot _ _ 55 20 75); auto.
    rewrite (B2R_int 55 55 eq_refl), (B2R_int 20 20 eq_refl), (B2R_int 75 75 eq_refl). lra. }
  assert (S4 : (0 + v * 0.3 + val * 0.25 + q * 0.2 + m * 0.15 <=? 90)%float = true).
  { apply (add_le_pivot _ _ 75 15 90); auto.
    rewrite (B2R_int 75 75 eq_refl), (B2R_int 15 15 eq_refl), (B2R_int 90 90 eq_refl). lra. }
  assert (B : forall x c, (0 <=? x)%float = true -> (x <=? c)%float = true ->
                          finite c = true -> finite x = true)
    by (intros x c A1 A2 A3; apply (leb_between_finite 0 x c); auto).
  repeat split; eapply B; eauto; repeat apply add_nonneg; auto.
Qed.

Lemma weighted_sum_mono v1 val1 q1 m1 o1 v2 val2 q2 m2 o2 :
  (0 <=? v1)%float = true -> (v1 <=? v2)%float = true -> (v2 <=? 100)%float = true ->
  (0 <=? val1)%float = true -> (val1 <=? val2)%float = true -> (val2 <=? 100)%float = true ->
  (0 <=? q1)%float = true -> (q1 <=? q2)%float = true -> (q2 <=? 100)%float = true ->
  (0 <=? m1)%float = true -> (m1 <=? m2)%float = true -> (m2 <=? 100)%float = true ->
  (0 <=? o1)%float = true -> (o1 <=? o2)%float = true -> (o2 <=? 100)%float = true ->
  (0 + v1 * 0.3 + val1 * 0.25 + q1 * 0.2 + m1 * 0.15 + o1 * 0.1
   <=? 0 + v2 * 0.3 + val2 * 0.25 + q2 * 0.2 + m2 * 0.15 + o2 * 0.1)%float = true.
Proof.
  intros Lv Mv Hv Lval Mval Hval Lq Mq Hq Lm Mm Hm Lo Mo Ho.
  assert (T : forall a b c : float,
            (a <=? b)%float = true -> (b <=? c)%float = true -> finite c = true ->
            (0 <=? a)%float = true -> finite a = true /\ finite b = true
            /\ (0 <=? b)%float = true /\ (a <=? c)%float = true).
  { intros a b c A1 A2 Fc A0.
    assert (Fb : finite b = true).
    { destruct (leb_upper_cases b c A2 Fc) as [E|[Fb _]]; [|assumption]. exfalso.
      pose proof (leb_neg_inf_inv a b A1 E) as Ea.
      rewrite FloatAxioms.leb_spec, Ea in A0. discriminate. }
    assert (Fa : finite a = true) by (apply (leb_between_finite 0 a b); auto).
    pose proof (leb_Rle _ _ Fa Fb A1). pose proof (leb_Rle _ _ Fb Fc A2).
    pose proof (leb_Rle 0 a eq_refl Fa A0).
    repeat split; auto; apply leb_of_Rle; auto; lra. }
  destruct (T v1 v2 100%float Mv Hv eq_refl Lv) as (Fv1 & Fv2 & Lv2 & Hv1).
  destruct (T val1 val2 100%float Mval Hval eq_refl Lval) as (Fval1 & Fval2 & Lval2 & Hval1).
  destruct (T q1 q2 100%float Mq Hq eq_refl Lq) as (Fq1 & Fq2 & Lq2 & Hq1).
  destruct (T m1 m2 100%float Mm Hm eq_refl Lm) as (Fm1 & Fm2 & Lm2 & Hm1).
  destruct (T o1 o2 100%float Mo Ho eq_refl Lo) as (Fo1 & Fo2 & Lo2 & Ho1).
  destruct (weighted_sum_finite v1 val1 q1 m1 o1 Lv Hv1 Lval Hval1 Lq Hq1 Lm Hm1 Lo Ho1)
    as (A1 & A2 & A3 & A4 & A5 & B1 & B2 & B3 & B4).
  destruct (weighted_sum_finite v2 val2 q2 m2 o2 Lv2 Hv Lval2 Hval Lq2 Hq Lm2 Hm Lo2 Ho)
    as (C1 & C2 & C3 & C4 & C5 & D1 & D2 & D3 & D4).
  assert (W : forall w, in_unit w = true -> finite w = true /\ (0 <= B2R w)%R).
  { intros w U. destruct (in_unit_spec w U) as [F [R _]]. auto. }
  repeat (apply add_leb_mono; auto);
    apply mul_leb_mono; auto; apply W; reflexivity.
Qed.

(** The rates of an assessment: finite and not negative. *)
Definition valid_rates (data : gmap string float) : Prop :=
  forall k x, data !! k = Some x -> finite x = true /\ (0 <=? x)%float = true.

Lemma valid_rates_get (data : gmap string float) k :
  valid_rates data ->
  finite (dict_get data k 0%float) = true /\ (0 <=? dict_get data k 0%float)%float = true.
Proof.
  intros H. unfold dict_get. destruct (data !! k) as [x|] eqn:E; [apply (H k x E)|].
  split; reflexivity.
Qed.

(** X17. For finite inputs that are not negative, an assessment that is at
    least as bad on every input (higher return rate, defect rate, volatility
    and processing time, lower recovery rate) never gets a lower risk score,
    before or after rounding. *)
Theorem risk_score_monotone (better worse : gmap string float) :
  valid_rates better -> valid_rates worse ->
  (forall k, In k ["return_rate"; "defect_rate"; "demand_volatility"; "avg_processing_time"] ->
             (dict_get better k 0 <=? dict_get worse k 0%float)%float = true) ->
  (dict_get worse "value_recovery_rate" 0 <=? dict_get better "value_recovery_rate" 0%float)%float
  = true ->
  (RiskAssessment.weighted_score (RiskAssessment.component_scores_of better)
   <=? RiskAssessment.weighted_score (RiskAssessment.component_scores_of worse))%float = true
  /\ (RiskAssessment.overall_score (RiskAssessment.calculate_risk_score better)
      <=? RiskAssessment.overall_score (RiskAssessment.calculate_risk_score worse))%float = true.
Proof.
  intros Vb Vw Hup Hrec.
  set (sb := RiskAssessment.component_scores_of better).
  set (sw := RiskAssessment.component_scores_of worse).
  assert (Eb : RiskAssessment.weighted_score sb
    = (0 + sb !!! "volume_risk" * 0.3 + sb !!! "value_risk" * 0.25
       + sb !!! "quality_risk" * 0.2 + sb !!! "market_risk" * 0.15
       + sb !!! "operational_risk" * 0.1)%float) by reflexivity.
  assert (Ew : RiskAssessment.weighted_score sw
    = (0 + sw !!! "volume_risk" * 0.3 + sw !!! "value_risk" * 0.25
       + sw !!! "quality_risk" * 0.2 + sw !!! "market_risk" * 0.15
       + sw !!! "operational_risk" * 0.1)%float) by reflexivity.
  destruct (component_scores_lookup better) as (Bv & Bval & Bq & Bm & Bo).
  destruct (component_scores_lookup worse) as (Wv & Wval & Wq & Wm & Wo).
  fold sb in Bv, Bval, Bq, Bm, Bo. fold sw in Wv, Wval, Wq, Wm, Wo.
  pose proof (fun k => proj1 (valid_rates_get better k Vb)) as Fb.
  pose proof (fun k => proj2 (valid_rates_get better k Vb)) as Nb.
  pose proof (fun k => proj1 (valid_rates_get worse k Vw)) as Fw.
  pose proof (fun k => proj2 (valid_rates_get worse k Vw)) as Nw.
  pose proof (fun k => leb_not_nan_r _ _ (Nb k)) as NNb.
  pose proof (fun k => leb_not_nan_r _ _ (Nw k)) as NNw.
  assert (M : (RiskAssessment.weighted_score sb <=? RiskAssessment.weighted_score sw)%float
              = true).
  { rewrite Eb, Ew, Bv, Bval, Bq, Bm, Bo, Wv, Wval, Wq, Wm, Wo.
    apply weighted_sum_mono;
      first [ apply capped_component_nonneg; auto
            | apply capped_component_le_100; auto
            | apply value_component_nonneg
            | apply value_component_le_100; auto
            | apply capped_component_mono; auto; apply Hup; simpl; auto
            | apply value_component_mono; auto ]. }
  split; [exact M|].
  change (RiskAssessment.overall_score (RiskAssessment.calculate_risk_score better))
    with (py_round (RiskAssessment.weighted_score sb) 1).
  change (RiskAssessment.overall_score (RiskAssessment.calculate_risk_score worse))
    with (py_round (RiskAssessment.weighted_score sw) 1).
  apply py_round_monotone; [lia| |exact M].
  rewrite Eb, Bv, Bval, Bq, Bm, Bo.
  apply weighted_sum_nonneg;
    first [apply capped_component_nonneg; auto | apply value_component_nonneg].
Qed.

(** ** Hub assignment *)








(** X21. Without items every hub is assigned an empty list; without hubs,
    one item or more raises IndexError. *)
Theorem hub_assignment_without_hubs (return_items : list ReturnItem)
    (hub_capacities : list (string * Z)) :
  SmartReturnsPredictionEngine.optimize_hub_assignment [] hub_capacities
  = Ok (map (fun '(hub_id, _) => (hub_id, [])) hub_capacities)
  /\ (return_items <> [] ->
      SmartReturnsPredictionEngine.optimize_hub_assignment return_items []
      = Raise (IndexError "list index out of range")).
Proof.
  split; [reflexivity|].
  destruct return_items as [|item items]; [congruence|]. intros _.
  unfold SmartReturnsPredictionEngine.optimize_hub_assignment. simpl.
  induction items as [|i items IH]; [reflexivity|]. simpl. exact IH.
Qed.

(** ** Training the engine *)

Section TrainModels.

Variables ReturnsFrame TimeSeriesFrame : Type.
Variable _prepare_disposition_data : ReturnsFrame -> result (list (ReturnItem * string)).
Variable fit_pipeline :
  (ReturnItem -> string * float) -> list (ReturnItem * string) ->
  (ReturnItem -> string * float) * result (list (string * float)).
Variable fit_models :
  (list (list float) -> list (list float)) -> (list (list float) -> list float) ->
  TimeSeriesFrame ->
  (list (list float) -> list (list float)) * (list (list float) -> list float)
  * result (list (string * float)).

Variable datetime : Type.
Variable now : datetime.
Variable add_days : datetime -> Z -> datetime.
Variables month weekday day : datetime -> Z.
Variables np_std np_mean np_var : list float -> float.
Variable np_polyfit_slope : list float -> list float -> float.

Let train_models :=
  SmartReturnsPredictionEngine.train_models ReturnsFrame TimeSeriesFrame
    _prepare_disposition_data fit_pipeline fit_models.

Let forecast_demand :=
  SmartReturnsPredictionEngine.forecast_demand datetime now add_days month weekday day
    np_std np_mean np_var np_polyfit_slope.

Ltac run_training :=
  unfold train_models, SmartReturnsPredictionEngine.train_models, bind, ret, lift,
    SmartReturnsPredictionEngine.on_predictor, SmartReturnsPredictionEngine.on_forecaster,
    SmartReturnsPredictionEngine.on_detector, SmartReturnsPredictionEngine.set_models_trained,
    modify, DispositionPredictor.train, ValueForecaster.train.

(** X22. When train_models returns, models_trained is set, whatever the
    training data held: a model whose data set was missing is as it was, so
    an untrained predictor or forecaster still raises ValueError and an
    unfitted detector KeyError on data that is not empty; a predictor or
    forecaster whose data set was present is trained, and the detector is
    fitted on the historical data given. *)
Theorem trained_flag_without_models
    (training_data : SmartReturnsPredictionEngine.TrainingData ReturnsFrame TimeSeriesFrame)
    (self self' : SmartReturnsPredictionEngine.t)
    (results : list (string * SmartReturnsPredictionEngine.report)) :
  train_models training_data self = (self', Ok results) ->
  SmartReturnsPredictionEngine.models_trained self' = true
  /\ (SmartReturnsPredictionEngine.returns _ _ training_data = None ->
      DispositionPredictor.is_trained (SmartReturnsPredictionEngine.disposition_predictor self)
      = false ->
      forall item,
        SmartReturnsPredictionEngine.predict_disposition self' item
        = Raise (ValueError "Model must be trained before making predictions"))
  /\ (SmartReturnsPredictionEngine.time_series _ _ training_data = None ->
      ValueForecaster.is_trained (SmartReturnsPredictionEngine.value_forecaster self) = false ->
      forall periods category,
        forecast_demand self' periods category
        = Raise (ValueError "Model must be trained before forecasting"))
  /\ (SmartReturnsPredictionEngine.historical _ _ training_data = None ->
      AnomalyDetector.baseline_stats (SmartReturnsPredictionEngine.anomaly_detector self) = None ->
      forall row rows,
        SmartReturnsPredictionEngine.detect_anomalies self' (row :: rows)
        = Raise (AnomalyDetector.KeyError "daily_mean"))
  /\ (SmartReturnsPredictionEngine.returns _ _ training_data <> None ->
      DispositionPredictor.is_trained (SmartReturnsPredictionEngine.disposition_predictor self')
      = true)
  /\ (SmartReturnsPredictionEngine.time_series _ _ training_data <> None ->
      ValueForecaster.is_trained (SmartReturnsPredictionEngine.value_forecaster self') = true)
  /\ (forall frame,
        SmartReturnsPredictionEngine.historical _ _ training_data = Some frame ->
        SmartReturnsPredictionEngine.anomaly_detector self'
        = AnomalyDetector.fit (SmartReturnsPredictionEngine.anomaly_detector self) frame).
Proof.
  run_training.
  destruct training_data as [returns time_series historical].
  cbn [SmartReturnsPredictionEngine.returns SmartReturnsPredictionEngine.time_series
       SmartReturnsPredictionEngine.historical].
  destruct self as [predictor forecaster detector flag].
  cbn [SmartReturnsPredictionEngine.disposition_predictor
       SmartReturnsPredictionEngine.value_forecaster
       SmartReturnsPredictionEngine.anomaly_detector
       SmartReturnsPredictionEngine.models_trained].
  unfold SmartReturnsPredictionEngine.predict_disposition, forecast_demand,
    SmartReturnsPredictionEngine.forecast_demand, SmartReturnsPredictionEngine.detect_anomalies.
  destruct returns as [rf|];
    [destruct (_prepare_disposition_data rf) as [data|e]; [|discriminate];
     destruct (fit_pipeline _ data) as [pipeline [m|e]]; [|discriminate]|];
    (destruct time_series as [tf|];
     [destruct (fit_models _ _ tf) as [[scaler model] [m'|e]]; [|discriminate]|]);
    destruct historical as [hf|]; intros [= <- <-]; cbn;
    repeat split; intros; try congruence;
    match goal with
    | H : DispositionPredictor.is_trained _ = false |- _ =>
        unfold DispositionPredictor.predict; rewrite H; reflexivity
    | H : ValueForecaster.is_trained _ = false |- _ =>
        unfold ValueForecaster.forecast; rewrite H; reflexivity
    | H : AnomalyDetector.baseline_stats _ = None |- _ =>
        unfold AnomalyDetector.detect_anomalies; rewrite H; reflexivity
    end.
Qed.

(** X23. When train_models raises, models_trained is left as it was, yet a
    predictor whose own training had succeeded before the failure stays
    trained. *)
Theorem failed_training_is_partial
    (training_data : SmartReturnsPredictionEngine.TrainingData ReturnsFrame TimeSeriesFrame)
    (self self' : SmartReturnsPredictionEngine.t) (e : exn) :
  train_models training_data self = (self', Raise e) ->
  SmartReturnsPredictionEngine.models_trained self'
  = SmartReturnsPredictionEngine.models_trained self
  /\ (forall frame data metrics,
        SmartReturnsPredictionEngine.returns _ _ training_data = Some frame ->
        _prepare_disposition_data frame = Ok data ->
        snd (fit_pipeline
               (DispositionPredictor.classify
                  (SmartReturnsPredictionEngine.disposition_predictor self)) data)
        = Ok metrics ->
        DispositionPredictor.is_trained (SmartReturnsPredictionEngine.disposition_predictor self')
        = true).
Proof.
  run_training.
  destruct training_data as [returns time_series historical].
  cbn [SmartReturnsPredictionEngine.returns SmartReturnsPredictionEngine.time_series
       SmartReturnsPredictionEngine.historical].
  destruct self as [predictor forecaster detector flag].
  cbn [SmartReturnsPredictionEngine.disposition_predictor
       SmartReturnsPredictionEngine.value_forecaster
       SmartReturnsPredictionEngine.anomaly_detector
       SmartReturnsPredictionEngine.models_trained].
  destruct returns as [rf|];
    [destruct (_prepare_disposition_data rf) as [data|e0] eqn:Ep;
     [destruct (fit_pipeline _ data) as [pipeline [m|e1]] eqn:Ef|]|];
    try (destruct time_series as [tf|];
         [destruct (fit_models _ _ tf) as [[scaler model] [m'|e2]]|];
         destruct historical as [hf|]);
    intros [= <- <-] || discriminate; cbn;
    (split; [reflexivity|]); intros frame data' metrics [= <-] Hp Hf;
    try reflexivity; try congruence.
  all: rewrite Ep in Hp; injection Hp as <-; simpl in Ef, Hf; rewrite Ef in Hf; discriminate.
Qed.

End TrainModels.

(** ** What a prediction carries *)

Lemma prefix_refl_app (w rest : string) : String.prefix w (w +:+ rest) = true.
Proof.
  induction w as [|c w IH]; [destruct rest; reflexivity|].
  simpl. destruct (ascii_dec c c); [assumption|congruence].
Qed.

Lemma prefix_append_both (a w s : string) :
  String.prefix w s = true -> String.prefix (a +:+ w) (a +:+ s) = true.
Proof.
  intros H. induction a as [|c a IH]; [assumption|].
  simpl. destruct (ascii_dec c c); [assumption|congruence].
Qed.

(** X7. A trained predictor returns a result that carries the action and
    confidence of its classifier, names a marketplace exactly when the
    action is resale up to case, and whose reasoning starts with the
    condition sentence, followed by a comma for the four lowercase actions. *)
Theorem prediction_fields (self : DispositionPredictor.t) (item : ReturnItem) :
  DispositionPredictor.is_trained self = true ->
  exists r,
    DispositionPredictor.predict self item = Ok r
    /\ (recommended_action r, confidence r) = DispositionPredictor.classify self item
    /\ (marketplace r <> None <-> lower (recommended_action r) = "resale")
    /\ String.prefix "Item in " (reasoning r) = true
    /\ (forall action, In action ["resale"; "repair"; "recycle"; "donate"] ->
        recommended_action r = action ->
        String.prefix (DispositionPredictor.base_reason item +:+ ", ") (reasoning r) = true).
Proof.
  intros Ht. unfold DispositionPredictor.predict. rewrite Ht. cbn [negb].
  destruct (DispositionPredictor.classify self item) as [action conf].
  eexists. split; [reflexivity|]. cbn [recommended_action confidence marketplace reasoning].
  split; [reflexivity|]. split; [|split].
  - unfold DispositionPredictor._select_marketplace.
    destruct (String.eqb_spec (lower action) "resale") as [E|E]; cbn [negb].
    + split; [auto|]. intros _.
      repeat match goal with |- context [if ?b then _ else _] => destruct b end; discriminate.
    + split; [congruence|contradiction].
  - unfold DispositionPredictor._generate_reasoning, DispositionPredictor.base_reason.
    repeat match goal with |- context [if ?b then _ else _] => destruct b end;
      apply prefix_app, prefix_refl_app.
  - intros a Ha ->. unfold DispositionPredictor._generate_reasoning.
    simpl in Ha. destruct Ha as [<-|[<-|[<-|[<-|[]]]]]; cbn [String.eqb Ascii.eqb Bool.eqb];
      cbv iota; apply prefix_append_both; reflexivity.
Qed.

(** ** Forecast results *)

Section ForecastProperties.

Variable datetime : Type.
Variable now : datetime.
Variable add_days : datetime -> Z -> datetime.
Variables month weekday day : datetime -> Z.
Variables np_std np_mean np_var : list float -> float.
Variable np_polyfit_slope : list float -> list float -> float.

Let forecast :=
  ValueForecaster.forecast datetime now add_days month weekday day
    np_std np_mean np_var np_polyfit_slope.

Let future_features :=
  ValueForecaster._generate_future_features datetime now add_days month weekday day.

(** X12. A forecast reports every prediction of the regressor, in order,
    with periods 1, 2, ... and the interval of each entry; its seasonality
    factor is 0.0 below four predictions and never exceeds 1, its trend is
    stable below two predictions and always one of three words, and its
    accuracy metrics are always 0.0. *)
Theorem forecast_result_shape (self : ValueForecaster.t) (n : Z) (category : option string)
    (res : ForecastResult) :
  forecast self n category = Ok res ->
  let preds :=
    ValueForecaster.model_predict self
      (ValueForecaster.scaler_transform self (future_features n category)) in
  map predicted_value (predictions res) = preds
  /\ map period (predictions res) = seqZ 1 (Z.of_nat (length preds))
  /\ confidence_intervals res = map (fun e => (lower_bound e, upper_bound e)) (predictions res)
  /\ ((length preds < 4)%nat -> seasonality_factor res = 0.0%float)
  /\ (1 <? seasonality_factor res)%float = false
  /\ ((length preds < 2)%nat -> trend res = "stable")
  /\ In (trend res) ["increasing"; "decreasing"; "stable"]
  /\ accuracy_metrics res = [("mae", 0.0%float); ("r2", 0.0%float)].
Proof.
  unfold forecast, ValueForecaster.forecast.
  destruct (ValueForecaster.is_trained self); [|discriminate]. cbn [negb].
  fold (future_features n category).
  intros [= <-]. cbv zeta.
  set (preds := ValueForecaster.model_predict self
                  (ValueForecaster.scaler_transform self (future_features n category))).
  cbn [predictions confidence_intervals seasonality_factor trend accuracy_metrics].
  split; [|split; [|split; [|split; [|split; [|split; [|split]]]]]].
  - apply list_eq. intros i.
    rewrite !list_lookup_fmap, list_lookup_imap, zip_map_lookup.
    destruct (preds !! i); reflexivity.
  - apply list_eq. intros i.
    rewrite list_lookup_fmap, list_lookup_imap, zip_map_lookup.
    destruct (preds !! i) as [p|] eqn:E; simpl.
    + symmetry. rewrite lookup_seqZ. split; [lia|]. apply lookup_lt_Some in E. lia.
    + symmetry. apply lookup_seqZ_ge. apply lookup_ge_None in E. lia.
  - apply list_eq. intros i.
    rewrite !list_lookup_fmap, list_lookup_imap, zip_map_lookup.
    destruct (preds !! i); reflexivity.
  - intros H. unfold ValueForecaster._calculate_seasonality.
    destruct (Z.ltb_spec (Z.of_nat (length preds)) 4); [reflexivity|lia].
  - unfold ValueForecaster._calculate_seasonality, py_min.
    destruct (Z.of_nat (length preds) <? 4)%Z; [reflexivity|].
    destruct (0 <? np_mean preds)%float; [|reflexivity].
    destruct (1 <? np_var preds / (np_mean preds * np_mean preds))%float eqn:E;
      [reflexivity|exact E].
  - intros H. unfold ValueForecaster._analyze_trend.
    destruct (Z.ltb_spec (Z.of_nat (length preds)) 2); [reflexivity|lia].
  - unfold ValueForecaster._analyze_trend.
    repeat match goal with |- context [if ?b then _ else _] => destruct b end;
      simpl; auto.
  - reflexivity.
Qed.

Lemma category_encoding_default (c : string) :
  c <> "Electronics" -> c <> "Appliances" -> c <> "Home & Kitchen" ->
  dict_get ValueForecaster.category_encoding_map c 0.6%float = 0.6%float.
Proof.
  intros H1 H2 H3. unfold dict_get, ValueForecaster.category_encoding_map.
  rewrite lookup_insert_ne by congruence.
  destruct (String.eqb_spec c "Fashion") as [->|H4]; [reflexivity|].
  rewrite !lookup_insert_ne by congruence. reflexivity.
Qed.

(** X13. A forecast for a category other than Electronics, Appliances and
    Home & Kitchen is the forecast without a category, which is the forecast
    for Fashion. *)
Theorem forecast_unknown_category_is_fashion (self : ValueForecaster.t) (n : Z) (c : string) :
  c <> "Electronics" -> c <> "Appliances" -> c <> "Home & Kitchen" ->
  forecast self n (Some c) = forecast self n None
  /\ forecast self n None = forecast self n (Some "Fashion").
Proof.
  intros H1 H2 H3.
  assert (E : forall k, k <> "Electronics" -> k <> "Appliances" -> k <> "Home & Kitchen" ->
              ValueForecaster._generate_future_features datetime now add_days month weekday day
                n (Some k)
              = ValueForecaster._generate_future_features datetime now add_days month weekday day
                  n None).
  { intros k K1 K2 K3. unfold ValueForecaster._generate_future_features.
    rewrite (category_encoding_default k K1 K2 K3). reflexivity. }
  unfold forecast, ValueForecaster.forecast.
  rewrite (E c H1 H2 H3), (E "Fashion") by discriminate. split; reflexivity.
Qed.

End ForecastProperties.

(** ** Risk recommendations *)

Lemma in_optional_eq {A : Type} (x : A) (b : bool) (rest : list A) :
  In x ((if b then [x] else []) ++ rest) <-> b = true \/ In x rest.
Proof. destruct b; simpl; intuition congruence. Qed.

Lemma in_optional_ne {A : Type} (x s : A) (b : bool) (rest : list A) :
  s <> x -> In x ((if b then [s] else []) ++ rest) <-> In x rest.
Proof. destruct b; simpl; intuition congruence. Qed.

Lemma in_optional_last_eq {A : Type} (x : A) (b : bool) :
  In x (if b then [x] else []) <-> b = true.
Proof. destruct b; simpl; intuition congruence. Qed.

Lemma in_optional_last_ne {A : Type} (x s : A) (b : bool) :
  s <> x -> In x (if b then [s] else []) <-> False.
Proof. destruct b; simpl; intuition congruence. Qed.

Ltac in_optionals :=
  repeat first [ rewrite in_optional_eq
               | rewrite in_optional_ne by discriminate
               | rewrite in_optional_last_eq
               | rewrite in_optional_last_ne by discriminate ].

Lemma optional_length {A : Type} (s : A) (b : bool) : (length (if b then [s] else []) <= 1)%nat.
Proof. destruct b; simpl; lia. Qed.

(** X19. Each of the five component recommendations is given exactly when
    its component exceeds 70 and the urgent one exactly when the overall
    score exceeds 80; the urgent recommendation implies the level Critical,
    and at most six recommendations are given. *)
Theorem risk_recommendations (data : gmap string float) :
  let report := RiskAssessment.calculate_risk_score data in
  let scores := RiskAssessment.component_scores report in
  let advised := fun text => In text (RiskAssessment.recommendations report) in
  (advised "Implement return prevention strategies and improve product descriptions"
   <-> (70 <? scores !!! "volume_risk")%float = true)
  /\ (advised "Optimize pricing strategies and explore new marketplaces"
      <-> (70 <? scores !!! "value_risk")%float = true)
  /\ (advised "Enhance quality control processes and supplier management"
      <-> (70 <? scores !!! "quality_risk")%float = true)
  /\ (advised "Diversify market channels and improve demand forecasting"
      <-> (70 <? scores !!! "market_risk")%float = true)
  /\ (advised "Streamline processing workflows and increase capacity"
      <-> (70 <? scores !!! "operational_risk")%float = true)
  /\ (advised "URGENT: Immediate intervention required across all risk areas"
      <-> (80 <? RiskAssessment.weighted_score scores)%float = true)
  /\ (advised "URGENT: Immediate intervention required across all risk areas" ->
      RiskAssessment.risk_level report = "Critical")
  /\ (length (RiskAssessment.recommendations report) <= 6)%nat.
Proof.
  cbv zeta. unfold RiskAssessment.calculate_risk_score.
  cbn [RiskAssessment.component_scores RiskAssessment.recommendations RiskAssessment.risk_level].
  set (scores := RiskAssessment.component_scores_of data).
  set (overall := RiskAssessment.weighted_score scores).
  unfold RiskAssessment._generate_risk_recommendations.
  repeat split; try (in_optionals; tauto).
  - intros H. revert H. in_optionals. intros H. unfold RiskAssessment.risk_level_of.
    rewrite (ltb_leb _ _ H). reflexivity.
  - rewrite !length_app.
    repeat match goal with
           | |- context [length (if ?b then [?s] else [])] =>
               pose proof (optional_length s b);
               generalize dependent (length (if b then [s] else []))
           end.
    intros. lia.
Qed.

(** ** Grouping the rows of a frame *)

Definition key_lt (a b : string) : Prop := String.compare a b = Lt.

Lemma key_lt_trans a b c : key_lt a b -> key_lt b c -> key_lt a c.
Proof.
  unfold key_lt. intros H1 H2.
  apply OrderedTypeEx.String_as_OT.cmp_lt in H1, H2.
  apply OrderedTypeEx.String_as_OT.cmp_lt.
  exact (OrderedTypeEx.String_as_OT.lt_trans _ _ _ H1 H2).
Qed.

Lemma key_lt_irrefl a : ~ key_lt a a.
Proof.
  unfold key_lt. intros H.
  assert (E : String.compare a a = Eq)
    by (apply OrderedTypeEx.String_as_OT.cmp_eq; reflexivity).
  congruence.
Qed.

Lemma compare_Gt_lt a b : String.compare a b = Gt -> key_lt b a.
Proof. unfold key_lt. intros H. rewrite String.compare_antisym, H. reflexivity. Qed.

(** Groups in strictly increasing key order. *)
Definition sorted_groups {V : Type} (groups : list (string * V)) : Prop :=
  Sorted.StronglySorted (fun p q => key_lt (fst p) (fst q)) groups.

Lemma items_get_below {V : Type} (groups : list (string * V)) k :
  Forall (fun q => key_lt k (fst q)) groups -> items_get groups k = None.
Proof.
  induction groups as [|[k0 v0] rest IH]; [reflexivity|].
  intros H. inversion H as [|? ? H0 Hrest]; subst. simpl in *.
  destruct (String.eqb_spec k0 k) as [->|_]; [exfalso; exact (key_lt_irrefl _ H0)|].
  apply IH, Hrest.
Qed.

Lemma items_get_sorted {V : Type} (groups : list (string * V)) k v :
  sorted_groups groups -> In (k, v) groups -> items_get groups k = Some v.
Proof.
  induction groups as [|[k0 v0] rest IH]; simpl; [contradiction|].
  intros S [E|Hin]; inversion S as [|? ? Srest Hlt]; subst.
  - injection E as -> ->. rewrite String.eqb_refl. reflexivity.
  - destruct (String.eqb_spec k0 k) as [->|_]; [|apply IH; assumption].
    exfalso. rewrite List.Forall_forall in Hlt. specialize (Hlt _ Hin).
    exact (key_lt_irrefl _ Hlt).
Qed.

Lemma group_add_Forall (P : string -> Prop) k v groups :
  P k -> Forall (fun q => P (fst q)) groups ->
  Forall (fun q : string * list Z => P (fst q)) (AnomalyDetector.group_add k v groups).
Proof.
  intros Hk. induction groups as [|[k0 vs] rest IH]; intros H; simpl.
  - constructor; [assumption|constructor].
  - inversion H as [|? ? H0 Hrest]; subst.
    destruct (String.compare k k0); constructor; auto.
Qed.

Lemma group_add_sorted k v groups :
  sorted_groups groups -> sorted_groups (AnomalyDetector.group_add k v groups).
Proof.
  unfold sorted_groups. induction groups as [|[k0 vs] rest IH]; intros S; simpl.
  - repeat constructor.
  - inversion S as [|? ? Srest Hlt]; subst.
    destruct (String.compare k k0) eqn:C.
    + constructor; assumption.
    + constructor; [assumption|]. constructor; [exact C|].
      eapply List.Forall_impl; [|exact Hlt]. intros q Hq. simpl in *.
      exact (key_lt_trans _ _ _ C Hq).
    + constructor; [apply IH, Srest|].
      apply (group_add_Forall (fun x => key_lt k0 x)); [apply compare_Gt_lt, C|assumption].
Qed.

Lemma items_get_group_add k v groups k' :
  sorted_groups groups ->
  items_get (AnomalyDetector.group_add k v groups) k'
  = if String.eqb k k' then Some (default [] (items_get groups k) ++ [v])%list
    else items_get groups k'.
Proof.
  induction groups as [|[k0 vs] rest IH]; intros S; simpl; [reflexivity|].
  inversion S as [|? ? Srest Hlt]; subst.
  destruct (String.compare k k0) eqn:C.
  - apply String.compare_eq_iff in C. subst k0. simpl.
    rewrite String.eqb_refl. destruct (String.eqb k k'); reflexivity.
  - simpl. destruct (String.eqb_spec k k') as [->|Hne]; [|reflexivity].
    destruct (String.eqb_spec k0 k') as [->|_]; [exfalso; exact (key_lt_irrefl _ C)|].
    rewrite items_get_below; [reflexivity|].
    eapply List.Forall_impl; [|exact Hlt]. intros q Hq. exact (key_lt_trans _ _ _ C Hq).
  - simpl. rewrite (IH Srest).
    assert (Hk : k0 <> k).
    { intros ->. apply compare_Gt_lt in C. exact (key_lt_irrefl _ C). }
    destruct (String.eqb_spec k0 k) as [|_]; [contradiction|].
    destruct (String.eqb_spec k0 k') as [->|_]; [|reflexivity].
    destruct (String.eqb_spec k k'); [congruence|reflexivity].
Qed.

(** The counts of the rows whose key is [k], in row order. *)
Definition counts_of (key : AnomalyDetector.Row -> string) (rows : list AnomalyDetector.Row)
    (k : string) : list Z :=
  map AnomalyDetector.row_count (List.filter (fun r => String.eqb (key r) k) rows).

Lemma groupby_fold key rows :
  forall groups k,
    sorted_groups groups ->
    let result :=
      fold_left (fun groups r =>
                   AnomalyDetector.group_add (key r) (AnomalyDetector.row_count r) groups)
        rows groups in
    sorted_groups result
    /\ items_get result k
       = match counts_of key rows k with
         | [] => items_get groups k
         | vs => Some (default [] (items_get groups k) ++ vs)%list
         end.
Proof.
  induction rows as [|r rows IH]; intros groups k S; cbv zeta.
  - split; [assumption|reflexivity].
  - simpl fold_left.
    destruct (IH (AnomalyDetector.group_add (key r) (AnomalyDetector.row_count r) groups) k
                (group_add_sorted _ _ _ S)) as [S' E].
    cbv zeta in S', E. split; [exact S'|]. rewrite E.
    rewrite (items_get_group_add _ _ _ k S).
    unfold counts_of. simpl List.filter.
    destruct (String.eqb_spec (key r) k) as [Hk|Hk].
    + rewrite Hk. cbn [map].
      destruct (map AnomalyDetector.row_count
                  (List.filter (fun r0 => String.eqb (key r0) k) rows)) as [|v vs];
        simpl; [reflexivity|].
      rewrite <- app_assoc. reflexivity.
    + reflexivity.
Qed.

Lemma groupby_spec key rows k vs :
  In (k, vs) (AnomalyDetector.groupby key rows) ->
  vs = counts_of key rows k /\ In k (map key rows).
Proof.
  unfold AnomalyDetector.groupby. intros Hin.
  destruct (groupby_fold key rows [] k ltac:(constructor)) as [S E]. cbv zeta in S, E.
  rewrite (items_get_sorted _ _ _ S Hin) in E. simpl in E.
  destruct (counts_of key rows k) as [|v l] eqn:C; [discriminate|].
  injection E as ->. split; [reflexivity|].
  assert (Hv : In v (counts_of key rows k)) by (rewrite C; left; reflexivity).
  unfold counts_of in Hv. apply in_map_iff in Hv. destruct Hv as (r & _ & Hr).
  apply filter_In in Hr. destruct Hr as [Hr Hk]. apply String.eqb_eq in Hk. subst k.
  apply in_map, Hr.
Qed.

(** The total of the counts of the rows whose key is [k]. *)
Definition total_of (key : AnomalyDetector.Row -> string) (rows : list AnomalyDetector.Row)
    (k : string) : Z :=
  AnomalyDetector.sum_Z (counts_of key rows k).

Lemma groupby_sum_spec key rows k total :
  In (k, total) (AnomalyDetector.groupby_sum key rows) ->
  total = total_of key rows k /\ In k (map key rows).
Proof.
  unfold AnomalyDetector.groupby_sum. intros H. apply in_map_iff in H.
  destruct H as ([k' vs] & E & Hin). injection E as -> <-.
  destruct (groupby_spec _ _ _ _ Hin) as [-> Hk]. split; [reflexivity|assumption].
Qed.

(** ** What the detector reports *)

(** X15. Every anomaly a fitted detector reports is a volume anomaly for a
    date of the current data, carrying the total count of that date and a
    z-score above the threshold, or a category anomaly for a category of the
    current data that the baseline knows with a positive mean, carrying the
    total count of that category and a deviation above 0.5. *)
Theorem reported_anomalies (self : AnomalyDetector.t) (stats : AnomalyDetector.BaselineStats)
    (data : list AnomalyDetector.Row) :
  AnomalyDetector.baseline_stats self = Some stats ->
  exists anomalies,
    AnomalyDetector.detect_anomalies self data = Ok anomalies
    /\ forall a, In a anomalies ->
       (AnomalyDetector.anomaly_type a = "volume_anomaly"
        /\ fst (AnomalyDetector.anomaly_key a) = "date"
        /\ In (snd (AnomalyDetector.anomaly_key a)) (map AnomalyDetector.row_date data)
        /\ AnomalyDetector.anomaly_value a
           = total_of AnomalyDetector.row_date data (snd (AnomalyDetector.anomaly_key a))
        /\ AnomalyDetector.anomaly_expected a = AnomalyDetector.daily_mean stats
        /\ (AnomalyDetector.threshold self
            <? abs (float_of_int (AnomalyDetector.anomaly_value a)
                    - AnomalyDetector.daily_mean stats)
               / AnomalyDetector.daily_std stats)%float = true)
       \/ (AnomalyDetector.anomaly_type a = "category_anomaly"
           /\ fst (AnomalyDetector.anomaly_key a) = "category"
           /\ In (snd (AnomalyDetector.anomaly_key a)) (map AnomalyDetector.row_category data)
           /\ AnomalyDetector.anomaly_value a
              = total_of AnomalyDetector.row_category data (snd (AnomalyDetector.anomaly_key a))
           /\ AnomalyDetector.category_means stats !! snd (AnomalyDetector.anomaly_key a)
              = Some (AnomalyDetector.anomaly_expected a)
           /\ (0 <? AnomalyDetector.anomaly_expected a)%float = true
           /\ (0.5 <? abs (float_of_int (AnomalyDetector.anomaly_value a)
                           - AnomalyDetector.anomaly_expected a)
                      / AnomalyDetector.anomaly_expected a)%float = true).
Proof.
  intros Hs. unfold AnomalyDetector.detect_anomalies. rewrite Hs.
  eexists. split; [reflexivity|]. intros a Ha. apply in_app_or in Ha. destruct Ha as [Ha|Ha].
  - left. unfold AnomalyDetector.volume_anomalies in Ha. apply in_flat_map in Ha.
    destruct Ha as ([date count] & Hin & Ha).
    destruct (groupby_sum_spec _ _ _ _ Hin) as [-> Hk].
    destruct (AnomalyDetector.threshold self <? _)%float eqn:T; [|contradiction].
    destruct Ha as [<-|[]]. simpl. auto 10.
  - right. unfold AnomalyDetector.category_anomalies in Ha. apply in_flat_map in Ha.
    destruct Ha as ([category count] & Hin & Ha).
    destruct (groupby_sum_spec _ _ _ _ Hin) as [-> Hk].
    unfold dict_get in Ha.
    destruct (AnomalyDetector.category_means stats !! category) as [expected|] eqn:L;
      simpl in Ha.
    + destruct (0 <? expected)%float eqn:P; [|contradiction].
      destruct (0.5 <? _)%float eqn:D; [|contradiction].
      destruct Ha as [<-|[]]. simpl. auto 10.
    + change (0 <? 0)%float with false in Ha. contradiction.
Qed.

(** ** A baseline without spread *)

Lemma of_uint63_finite n : finite (of_uint63 n) = true.
Proof.
  pose proof (binary_normalize_rounds (Uint63.to_Z n) 0) as R.
  rewrite <- FloatAxioms.of_uint63_spec in R. fold (rounds (F2R (Uint63.to_Z n) 0) (of_uint63 n)) in R.
  pose proof (Uint63.to_Z_bounded n) as B.
  assert (V : (0 <= F2R (Uint63.to_Z n) 0 <= IZR (2 ^ 63))%R).
  { unfold F2R. change (bpow 0) with 1%R. rewrite Rmult_1_r.
    split; apply IZR_le; unfold Uint63.wB, Uint63.size in B; change (2 ^ Z.of_nat 63)%Z with (2 ^ 63)%Z in B; lia. }
  apply (leb_between_finite 0 _ 0x1p63%float); try reflexivity.
  - apply (rounds_ge _ _ 0%float R eq_refl). rewrite B2R_zero. lra.
  - apply (rounds_le _ _ 0x1p63%float R eq_refl).
    assert (E : B2R 0x1p63 = IZR (2 ^ 63)).
    { unfold B2R. change (Prim2SF 0x1p63) with (S754_finite false (2 ^ 52) 11).
      cbn [SF2R]. unfold F2R. rewrite (bpow_IZR 11) by lia. rewrite <- mult_IZR.
      reflexivity. }
    rewrite E. lra.
Qed.

Lemma opp_finite x : finite (- x) = finite x.
Proof. unfold finite. rewrite FloatAxioms.opp_spec. destruct (Prim2SF x); reflexivity. Qed.

Lemma float_of_int_finite z : finite (float_of_int z) = true.
Proof.
  destruct z; simpl; [reflexivity|apply of_uint63_finite|].
  rewrite opp_finite. apply of_uint63_finite.
Qed.

Lemma eqb_Req x y :
  finite x = true -> finite y = true -> ((x =? y)%float = true <-> B2R x = B2R y).
Proof.
  intros Fx Fy. rewrite FloatAxioms.eqb_spec. unfold SFeqb.
  pose proof (SFcompare_spec _ _ (Prim2SF_valid x) (Prim2SF_valid y) Fx Fy) as C.
  unfold B2R. destruct (SFcompare (Prim2SF x) (Prim2SF y)) as [[| |]|];
    split; intros H; try reflexivity; try discriminate; try assumption; try lra; contradiction.
Qed.

(** The z-score over a zero standard deviation: undefined at the mean,
    infinite elsewhere. *)
Lemma z_score_zero_std c mu :
  finite c = true -> finite mu = true ->
  Prim2SF (abs (c - mu) / 0)
  = if (c =? mu)%float then S754_nan else S754_infinity false.
Proof.
  intros Fc Fm. pose proof (sub_rounds c mu Fc Fm) as R.
  rewrite FloatAxioms.div_spec, FloatAxioms.abs_spec. unfold SF64div.
  change (Prim2SF 0) with (S754_zero false).
  destruct (c =? mu)%float eqn:E.
  - apply (eqb_Req c mu Fc Fm) in E.
    destruct (rounds_exact _ _ 0%float R eq_refl ltac:(rewrite B2R_zero; lra)) as [F Z].
    destruct (B2R_zero_inv _ F ltac:(lra)) as [s ->]. reflexivity.
  - assert (N : B2R c <> B2R mu).
    { intros H. apply (eqb_Req c mu Fc Fm) in H. congruence. }
    destruct (Rlt_le_dec (B2R mu) (B2R c)) as [Hlt|Hle].
    + pose proof (sub_above c mu Fc Fm Hlt) as A.
      destruct (leb_lower_cases tiny _ A eq_refl) as [-> |[F Hx]]; [reflexivity|].
      destruct (positive_SF (c - mu) ltac:(pose proof tiny_pos; lra)) as (m & e & ->).
      reflexivity.
    + assert (Hlt : (B2R c < B2R mu)%R) by lra.
      pose proof (grid_gap c mu Fc Fm Hlt) as G.
      assert (Et : B2R (- tiny) = (- B2R tiny)%R).
      { unfold B2R. change (Prim2SF (- tiny)) with (S754_finite true 1 (-1074)).
        change (Prim2SF tiny) with (S754_finite false 1 (-1074)). reflexivity. }
      assert (A : (c - mu <=? - tiny)%float = true).
      { apply (rounds_le _ _ (- tiny)%float R eq_refl). rewrite Et. lra. }
      destruct (leb_upper_cases _ _ A eq_refl) as [-> |[F Hx]]; [reflexivity|].
      rewrite Et in Hx. pose proof tiny_pos as T.
      generalize dependent (B2R tiny). intros u _ _ Hx T.
      unfold B2R in Hx. unfold finite in F.
      destruct (Prim2SF (c - mu)) as [s|s| |s m e]; try discriminate; cbn [SF2R] in Hx; [lra|].
      destruct s; [reflexivity|]. pose proof (F2R_pos m e). lra.
Qed.

(** X14. With a baseline whose standard deviation is 0 (mean and threshold
    finite), the volume loop reports exactly the dates whose total count
    differs from the mean, each with severity high, whatever the threshold. *)
Theorem zero_std_flags_every_other_count (threshold : float)
    (stats : AnomalyDetector.BaselineStats) (data : list AnomalyDetector.Row) :
  AnomalyDetector.daily_std stats = 0%float ->
  finite (AnomalyDetector.daily_mean stats) = true ->
  finite threshold = true ->
  AnomalyDetector.volume_anomalies threshold stats data
  = flat_map
      (fun '(date, count) =>
         if (float_of_int count =? AnomalyDetector.daily_mean stats)%float then []
         else [ {| AnomalyDetector.anomaly_type := "volume_anomaly";
                   AnomalyDetector.anomaly_key := ("date", date);
                   AnomalyDetector.anomaly_value := count;
                   AnomalyDetector.anomaly_expected := AnomalyDetector.daily_mean stats;
                   AnomalyDetector.anomaly_severity := "high";
                   AnomalyDetector.anomaly_description :=
                     "Unusual return volume: " +:+ str_of_int count +:+ " vs expected "
                     +:+ format_fixed (AnomalyDetector.daily_mean stats) 0 |} ])
      (AnomalyDetector.groupby_sum AnomalyDetector.row_date data).
Proof.
  intros Hstd Fm Ft. unfold AnomalyDetector.volume_anomalies. rewrite Hstd.
  apply flat_map_ext. intros [date count].
  pose proof (z_score_zero_std (float_of_int count) (AnomalyDetector.daily_mean stats)
                (float_of_int_finite count) Fm) as Z.
  destruct (float_of_int count =? AnomalyDetector.daily_mean stats)%float.
  - assert ((threshold <? abs (float_of_int count - AnomalyDetector.daily_mean stats) / 0)%float
            = false) as ->; [|reflexivity].
    rewrite FloatAxioms.ltb_spec, Z. unfold SFltb. destruct (Prim2SF threshold); reflexivity.
  - rewrite (ltb_pos_inf threshold _ Ft Z), (ltb_pos_inf 3 _ eq_refl Z). reflexivity.
Qed.

(** ** The feature vector *)

Lemma encode_condition_unit s : in_unit (FeatureEngineering._encode_condition s) = true.
Proof.
  unfold FeatureEngineering._encode_condition. rewrite condition_map_lookup.
  generalize (lower s). intros k. eqb_bools; reflexivity.
Qed.

Lemma encode_category_unit s : in_unit (FeatureEngineering._encode_category s) = true.
Proof.
  unfold FeatureEngineering._encode_category. rewrite category_lookup.
  eqb_bools; reflexivity.
Qed.

Lemma encode_channel_unit s : in_unit (FeatureEngineering._encode_channel s) = true.
Proof.
  unfold FeatureEngineering._encode_channel. rewrite channel_lookup.
  generalize (lower s). intros k. eqb_bools; reflexivity.
Qed.

Lemma encode_seasonality_unit s : in_unit (FeatureEngineering._encode_seasonality s) = true.
Proof.
  unfold FeatureEngineering._encode_seasonality. rewrite seasonality_lookup.
  generalize (lower s). intros k. eqb_bools; reflexivity.
Qed.

Lemma encode_demand_unit s : in_unit (FeatureEngineering._encode_demand s) = true.
Proof.
  unfold FeatureEngineering._encode_demand. rewrite demand_lookup.
  generalize (lower s). intros k. eqb_bools; reflexivity.
Qed.

Lemma price_category_unit p : in_unit (FeatureEngineering._get_price_category p) = true.
Proof.
  unfold FeatureEngineering._get_price_category.
  repeat match goal with |- context [if ?b then _ else _] => destruct b end; reflexivity.
Qed.

Lemma sentiment_unit s : in_unit (FeatureEngineering._analyze_reason_sentiment s) = true.
Proof.
  rewrite sentiment_eq.
  repeat match goal with |- context [if ?b then _ else _] => destruct b end; reflexivity.
Qed.

Lemma float_of_bool_unit b : in_unit (float_of_bool b) = true.
Proof. destruct b; reflexivity. Qed.

Lemma in_unit_bounds x : in_unit x = true -> (0 <=? x)%float = true /\ (x <=? 1)%float = true.
Proof. unfold in_unit. intros H. apply andb_true_iff in H. exact H. Qed.

(** An age in days, as a float, is at least 1 once the age is. *)
Lemma positive_days_float z :
  (1 <= z < 2 ^ 63)%Z -> finite (float_of_int z) = true /\ (1 <= B2R (float_of_int z))%R.
Proof.
  intros Hz. pose proof (float_of_int_finite z) as F. split; [assumption|].
  destruct z as [|p|p]; try lia. simpl float_of_int in *.
  pose proof (binary_normalize_rounds (Uint63.to_Z (Uint63.of_Z (Zpos p))) 0) as R.
  rewrite <- FloatAxioms.of_uint63_spec in R.
  fold (rounds (F2R (Uint63.to_Z (Uint63.of_Z (Zpos p))) 0) (of_uint63 (Uint63.of_Z (Zpos p)))) in R.
  rewrite Uint63.of_Z_spec in R.
  rewrite Z.mod_small in R
    by (unfold Uint63.wB, Uint63.size; change (2 ^ Z.of_nat 63)%Z with (2 ^ 63)%Z; lia).
  assert (G : (1 <=? of_uint63 (Uint63.of_Z (Zpos p)))%float = true).
  { apply (rounds_ge _ _ 1%float R eq_refl). rewrite B2R_one. unfold F2R.
    change (bpow 0) with 1%R. rewrite Rmult_1_r. apply IZR_le. lia. }
  rewrite <- B2R_one. apply leb_Rle; auto.
Qed.

Lemma price_per_age_bounds price days :
  finite price = true -> (days < 2 ^ 63)%Z ->
  let per_age := (price / float_of_int (Z.max days 1))%float in
  finite per_age = true
  /\ ((0 <=? price)%float = true ->
      (0 <=? per_age)%float = true /\ (per_age <=? price)%float = true)
  /\ ((price <=? 0)%float = true ->
      (price <=? per_age)%float = true /\ (per_age <=? 0)%float = true).
Proof.
  intros Fp Hd per_age.
  destruct (positive_days_float (Z.max days 1) ltac:(lia)) as [Fd Hge].
  assert (Hn : B2R (float_of_int (Z.max days 1)) <> 0%R) by lra.
  pose proof (div_rounds price _ Fp Hn) as R. fold per_age in R.
  set (D := B2R (float_of_int (Z.max days 1))) in *.
  assert (Hi : (0 < / D <= 1)%R).
  { split; [apply Rinv_0_lt_compat; lra|].
    rewrite <- Rinv_1. apply Rinv_le_contravar; lra. }
  assert (Up : (0 <= B2R price -> 0 <= B2R price / D <= B2R price)%R)
    by (intros; unfold Rdiv; nra).
  assert (Dn : (B2R price <= 0 -> B2R price <= B2R price / D <= 0)%R)
    by (intros; unfold Rdiv; nra).
  assert (P : (0 <=? price)%float = true ->
              (0 <=? per_age)%float = true /\ (per_age <=? price)%float = true).
  { intros H. pose proof (leb_Rle 0 price eq_refl Fp H) as Hp. rewrite B2R_zero in Hp.
    split; [apply (rounds_ge _ _ 0%float R eq_refl); rewrite B2R_zero
           |apply (rounds_le _ _ price R Fp)]; apply Up, Hp. }
  assert (N : (price <=? 0)%float = true ->
              (price <=? per_age)%float = true /\ (per_age <=? 0)%float = true).
  { intros H. pose proof (leb_Rle price 0 Fp eq_refl H) as Hp. rewrite B2R_zero in Hp.
    split; [apply (rounds_ge _ _ price R Fp)
           |apply (rounds_le _ _ 0%float R eq_refl); rewrite B2R_zero]; apply Dn, Hp. }
  split; [|split; assumption].
  destruct (Rle_dec 0 (B2R price)) as [Hp|Hp].
  - destruct P as [P0 P1]; [apply leb_of_Rle; auto; rewrite B2R_zero; lra|].
    apply (leb_between_finite 0 per_age price); auto.
  - destruct N as [N0 N1]; [apply leb_of_Rle; auto; rewrite B2R_zero; lra|].
    apply (leb_between_finite price per_age 0); auto.
Qed.

(** X11. The feature dict has its 20 entries in a fixed order; every float
    feature other than the price and the price per day of age is between 0
    and 1; the price per day of age divides by at least one day, so for an
    item age below 2^63 days it is finite for a finite price and lies
    between 0 and the price when the price is not negative. *)
Theorem features_are_bounded (days_between : Z -> Z -> Z) (month weekday : Z -> Z)
    (item : ReturnItem) :
  let features := FeatureEngineering.create_features days_between month weekday item in
  let price := original_price item in
  map fst features
  = [ "original_price"; "customer_age"; "condition_score"; "category_encoded";
      "channel_encoded"; "item_age_days"; "return_month"; "return_quarter"; "is_weekend";
      "price_category"; "price_per_age"; "seasonality_score"; "demand_score";
      "warranty_active"; "material_count"; "has_electronics"; "has_plastic"; "has_metal";
      "reason_length"; "reason_sentiment" ]
  /\ Forall (fun '(name, value) =>
               match value with
               | PyInt _ => True
               | PyFloat x =>
                   name = "original_price" \/ name = "price_per_age"
                   \/ ((0 <=? x)%float = true /\ (x <=? 1)%float = true)
               end) features
  /\ (finite price = true ->
      (days_between (return_date item) (manufacturing_date item) < 2 ^ 63)%Z ->
      exists per_age,
        items_get features "price_per_age" = Some (PyFloat per_age)
        /\ finite per_age = true
        /\ ((0 <=? price)%float = true ->
            (0 <=? per_age)%float = true /\ (per_age <=? price)%float = true)).
Proof.
  cbv zeta. split; [reflexivity|]. split.
  - unfold FeatureEngineering.create_features.
    repeat (apply List.Forall_cons; [try exact I; auto|]); try apply List.Forall_nil;
      right; right; apply in_unit_bounds;
      auto using encode_condition_unit, encode_category_unit, encode_channel_unit,
        encode_seasonality_unit, encode_demand_unit, price_category_unit, sentiment_unit,
        float_of_bool_unit.
  - intros Fp Hd.
    destruct (price_per_age_bounds (original_price item) _ Fp Hd) as (F & P & _).
    eexists. split; [reflexivity|]. split; assumption.
Qed.

(** ** The further theorems at concrete inputs *)

Lemma price_category_monotone_witness :
  (FeatureEngineering._get_price_category 499.99
   <=? FeatureEngineering._get_price_category 500)%float = true
  /\ FeatureEngineering._get_price_category nan = 1.0%float.
Proof.
  split.
  - destruct (price_category_monotone 499.99 500) as (_ & _ & H). apply H. reflexivity.
  - destruct (price_category_monotone nan 0) as (_ & H & _). apply H. reflexivity.
Defined.

Lemma seasonality_and_demand_encoders_witness :
  FeatureEngineering._encode_demand "HIGH" = 1.0%float
  /\ FeatureEngineering._encode_demand "seasonal" = 0.6%float.
Proof.
  split.
  - destruct (seasonality_and_demand_encoders "HIGH") as (_ & _ & H & _). apply H. reflexivity.
  - destruct (seasonality_and_demand_encoders "seasonal") as (_ & _ & _ & _ & H).
    apply H; discriminate.
Defined.

Lemma category_is_matched_exactly_witness :
  DispositionPredictor._estimate_processing_time "repair" "electronics" = 5%Z
  /\ DispositionPredictor._select_marketplace "resale" "electronics" 1500
     = Some "Walmart Marketplace"
  /\ FeatureEngineering._encode_category "electronics" = 0.5%float.
Proof.
  destruct (category_is_matched_exactly (sample_item "electronics" "good" "medium" 2500)
              "repair" 1500) as (_ & Ht & Hm & He); try discriminate.
  split; [exact Ht|]. split; [apply Hm; reflexivity|apply He; discriminate].
Defined.



Definition sample_batch : list ReturnItem :=
  map (fun price => sample_item "Electronics" "good" "medium" price)
    [100; 200; 300; 400; 500; 600; 700]%float.


Lemma hub_assignment_without_hubs_witness :
  SmartReturnsPredictionEngine.optimize_hub_assignment sample_batch []
  = Raise (IndexError "list index out of range").
Proof. apply (proj2 (hub_assignment_without_hubs sample_batch [])). discriminate. Defined.

(** An engine whose library calls succeed on the returns and fail on the
    time series. *)
Definition sample_fit_pipeline (pipeline : ReturnItem -> string * float)
    (samples : list (ReturnItem * string))
  : (ReturnItem -> string * float) * result (list (string * float)) :=
  (fun _ => ("resale", 0.9%float), Ok [("accuracy", 1.0%float)]).

Definition failing_fit_models (scaler : list (list float) -> list (list float))
    (model : list (list float) -> list float) (frame : unit)
  : (list (list float) -> list (list float)) * (list (list float) -> list float)
    * result (list (string * float)) :=
  (scaler, model, Raise (ValueError "Input contains NaN"))%core.

Definition fresh_engine : SmartReturnsPredictionEngine.t :=
  SmartReturnsPredictionEngine.init (fun _ => ("", 0%float)) (fun rows => rows)
    (fun rows => map (fun _ => 0%float) rows).

Definition sample_train_models :=
  SmartReturnsPredictionEngine.train_models unit unit (fun _ => Ok []) sample_fit_pipeline
    failing_fit_models.

Definition no_training_data : SmartReturnsPredictionEngine.TrainingData unit unit :=
  {| SmartReturnsPredictionEngine.returns := None;
     SmartReturnsPredictionEngine.time_series := None;
     SmartReturnsPredictionEngine.historical := None |}.

Definition returns_and_series : SmartReturnsPredictionEngine.TrainingData unit unit :=
  {| SmartReturnsPredictionEngine.returns := Some tt;
     SmartReturnsPredictionEngine.time_series := Some tt;
     SmartReturnsPredictionEngine.historical := None |}.

Lemma trained_flag_without_models_witness :
  let engine := fst (sample_train_models no_training_data fresh_engine) in
  SmartReturnsPredictionEngine.models_trained engine = true
  /\ SmartReturnsPredictionEngine.predict_disposition engine
       (sample_item "Electronics" "good" "medium" 2500)
     = Raise (ValueError "Model must be trained before making predictions")
  /\ SmartReturnsPredictionEngine.detect_anomalies engine one_busier_day
     = Raise (AnomalyDetector.KeyError "daily_mean").
Proof.
  cbv zeta.
  destruct (trained_flag_without_models unit unit (fun _ => Ok []) sample_fit_pipeline
              failing_fit_models Z 0%Z Z.add sample_month sample_weekday sample_day
              sample_std (fun _ => 0%float) (fun _ => 0%float) (fun _ _ => 0%float)
              no_training_data fresh_engine
              (fst (sample_train_models no_training_data fresh_engine)) [] eq_refl)
    as (Hflag & Hpredict & _ & Hdetect & _).
  split; [exact Hflag|]. split; [apply Hpredict; reflexivity|apply Hdetect; reflexivity].
Defined.

Lemma failed_training_is_partial_witness :
  let engine := fst (sample_train_models returns_and_series fresh_engine) in
  SmartReturnsPredictionEngine.models_trained engine = false
  /\ DispositionPredictor.is_trained (SmartReturnsPredictionEngine.disposition_predictor engine)
     = true.
Proof.
  cbv zeta.
  destruct (failed_training_is_partial unit unit (fun _ => Ok []) sample_fit_pipeline
              failing_fit_models returns_and_series fresh_engine
              (fst (sample_train_models returns_and_series fresh_engine))
              (ValueError "Input contains NaN") eq_refl) as (Hflag & Htrained).
  split; [exact Hflag|]. apply (Htrained tt [] [("accuracy", 1.0%float)]); reflexivity.
Defined.

Lemma prediction_fields_witness :
  exists r,
    DispositionPredictor.predict (predictor_answering true "Resale")
      (sample_item "Electronics" "lightly-used" "high" 2500) = Ok r
    /\ marketplace r <> None.
Proof.
  destruct (prediction_fields (predictor_answering true "Resale")
              (sample_item "Electronics" "lightly-used" "high" 2500) eq_refl)
    as (r & Hr & Hc & Hm & _).
  exists r. split; [exact Hr|]. apply Hm.
  assert (E : recommended_action r = "Resale") by (simpl in Hc; congruence).
  rewrite E. reflexivity.
Defined.

Lemma forecast_result_shape_witness :
  exists res,
    sample_forecast sample_forecaster 2 = Ok res
    /\ seasonality_factor res = 0.0%float
    /\ map period (predictions res) = [1; 2]%Z.
Proof.
  destruct (sample_forecast sample_forecaster 2) as [res|e] eqn:E; [|discriminate].
  exists res. split; [reflexivity|].
  destruct (forecast_result_shape Z 0%Z Z.add sample_month sample_weekday sample_day
              sample_std (fun _ => 0%float) (fun _ => 0%float) (fun _ _ => 0%float)
              sample_forecaster 2 (Some "Electronics") res E) as (_ & Hp & _ & Hs & _).
  split; [apply Hs; simpl; lia|exact Hp].
Defined.

Lemma forecast_unknown_category_is_fashion_witness :
  ValueForecaster.forecast Z 0%Z Z.add sample_month sample_weekday sample_day
    sample_std (fun _ => 0%float) (fun _ => 0%float) (fun _ _ => 0%float)
    sample_forecaster 6 (Some "Books")
  = ValueForecaster.forecast Z 0%Z Z.add sample_month sample_weekday sample_day
      sample_std (fun _ => 0%float) (fun _ => 0%float) (fun _ _ => 0%float)
      sample_forecaster 6 None.
Proof.
  apply (forecast_unknown_category_is_fashion Z 0%Z Z.add sample_month sample_weekday sample_day
           sample_std (fun _ => 0%float) (fun _ => 0%float) (fun _ _ => 0%float)
           sample_forecaster 6 "Books"); discriminate.
Defined.

Lemma risk_recommendations_witness :
  RiskAssessment.risk_level
    (RiskAssessment.calculate_risk_score (risk_input 0.5 0 0.5 0.5 10)) = "Critical".
Proof.
  destruct (risk_recommendations (risk_input 0.5 0 0.5 0.5 10))
    as (_ & _ & _ & _ & _ & _ & H & _).
  apply H. vm_compute. auto 10.
Defined.

Lemma reported_anomalies_witness :
  exists anomalies,
    AnomalyDetector.detect_anomalies fitted_on_constant_history one_busier_day = Ok anomalies
    /\ forall a, In a anomalies ->
         In (snd (AnomalyDetector.anomaly_key a)) ["2024-02-01"; "Electronics"].
Proof.
  destruct (reported_anomalies fitted_on_constant_history _ one_busier_day eq_refl)
    as (anomalies & Hd & Hall).
  exists anomalies. split; [exact Hd|]. intros a Ha.
  destruct (Hall a Ha) as [(_ & _ & Hk & _)|(_ & _ & Hk & _)]; simpl in Hk |- *; tauto.
Defined.

Lemma estimated_value_grows_with_price_witness :
  (DispositionPredictor._calculate_estimated_value
     (with_price (sample_item "Electronics" "good" "high" 0) 1000) "repair"
   <=? DispositionPredictor._calculate_estimated_value
         (with_price (sample_item "Electronics" "good" "high" 0) 2500) "repair")%float = true.
Proof.
  apply (estimated_value_grows_with_price (sample_item "Electronics" "good" "high" 0)
           "repair" 1000 2500); reflexivity.
Defined.

Lemma estimated_value_by_action_witness :
  (DispositionPredictor._calculate_estimated_value
     (sample_item "Electronics" "good" "high" 2500) "recycle"
   <=? DispositionPredictor._calculate_estimated_value
         (sample_item "Electronics" "good" "high" 2500) "hold")%float = true.
Proof.
  destruct (estimated_value_by_action (sample_item "Electronics" "good" "high" 2500) "hold"
              eq_refl eq_refl) as (_ & _ & _ & _ & _ & H).
  apply H; discriminate.
Defined.

Lemma co2_saved_order_witness :
  (DispositionPredictor._calculate_co2_impact
     (with_price (sample_item "Electronics" "good" "high" 0) 1000) "repair"
   <=? DispositionPredictor._calculate_co2_impact
         (with_price (sample_item "Electronics" "good" "high" 0) 2500) "repair")%float = true.
Proof.
  destruct (co2_saved_order (sample_item "Electronics" "good" "high" 0) "repair" 1000 2500
              eq_refl eq_refl eq_refl) as (_ & H & _).
  exact H.
Defined.

Lemma value_risk_zero_iff_target_met_witness :
  RiskAssessment.component_scores_of (risk_input 0.12 0.65 0.08 0.25 3.5) !!! "value_risk"
  = 0%float.
Proof.
  destruct (value_risk_zero_iff_target_met (risk_input 0.12 0.65 0.08 0.25 3.5) eq_refl)
    as (H & _).
  apply H. reflexivity.
Defined.

Lemma risk_input_all (P : float -> Prop) (a b c d e : float) :
  P a -> P b -> P c -> P d -> P e ->
  forall k x, risk_input a b c d e !! k = Some x -> P x.
Proof.
  intros Ha Hb Hc Hd He k x. unfold risk_input.
  repeat (rewrite lookup_insert; case_decide; [intros [= <-]; assumption|]).
  rewrite lookup_empty. discriminate.
Qed.

Lemma risk_report_within_bounds_witness :
  (RiskAssessment.overall_score
     (RiskAssessment.calculate_risk_score (risk_input 0.12 0.65 0.08 0.25 3.5))
   <=? 100)%float = true.
Proof.
  destruct (risk_report_within_bounds (risk_input 0.12 0.65 0.08 0.25 3.5)) as (_ & H & _).
  - apply (risk_input_all (fun x => (0 <=? x)%float = true)); reflexivity.
  - exact H.
Defined.

Lemma risk_score_monotone_witness :
  (RiskAssessment.overall_score
     (RiskAssessment.calculate_risk_score (risk_input 0.05 0.7 0.02 0.1 2))
   <=? RiskAssessment.overall_score
         (RiskAssessment.calculate_risk_score (risk_input 0.12 0.65 0.08 0.25 3.5)))%float
  = true.
Proof.
  apply (risk_score_monotone (risk_input 0.05 0.7 0.02 0.1 2)
           (risk_input 0.12 0.65 0.08 0.25 3.5)).
  - unfold valid_rates.
    apply (risk_input_all (fun x => finite x = true /\ (0 <=? x)%float = true));
      split; reflexivity.
  - unfold valid_rates.
    apply (risk_input_all (fun x => finite x = true /\ (0 <=? x)%float = true));
      split; reflexivity.
  - intros k [<-|[<-|[<-|[<-|[]]]]]; reflexivity.
  - reflexivity.
Defined.

Definition flat_baseline : AnomalyDetector.BaselineStats :=
  {| AnomalyDetector.daily_mean := 10;
     AnomalyDetector.daily_std := 0;
     AnomalyDetector.category_means := ∅ |}.

Lemma zero_std_flags_every_other_count_witness :
  map AnomalyDetector.anomaly_severity
    (AnomalyDetector.volume_anomalies 2.5 flat_baseline
       [ AnomalyDetector.Build_Row "2024-02-01" "Electronics" 10;
         AnomalyDetector.Build_Row "2024-02-02" "Electronics" 11 ])
  = ["high"].
Proof.
  rewrite (zero_std_flags_every_other_count 2.5 flat_baseline _ eq_refl eq_refl eq_refl).
  reflexivity.
Defined.

Lemma features_are_bounded_witness :
  exists per_age,
    items_get (FeatureEngineering.create_features Z.sub sample_month sample_weekday
                 (sample_item "Electronics" "good" "high" 2500)) "price_per_age"
    = Some (PyFloat per_age)
    /\ (per_age <=? 2500)%float = true.
Proof.
  destruct (features_are_bounded Z.sub sample_month sample_weekday
              (sample_item "Electronics" "good" "high" 2500)) as (_ & _ & H).
  destruct H as (per_age & Hget & _ & Hb); [reflexivity|simpl; lia|].
  exists per_age. split; [exact Hget|]. apply Hb. reflexivity.
Defined.

